(** * julearn: typed-column transformer wrapper and pipeline preparation

    A shallow embedding of [julearn/transformers/dataframe.py] and
    [julearn/prepare.py], with the properties of the specification that
    concern them.

    Conventions of the embedding.
    - Python [str] is [string]; [str.split], [str.join], [str.lower] and
      [int(str)] are written out below.
    - A raising call is a value [Err e] of [result]; sequencing is the
      error monad.  [warn] calls are collected in a list of messages.
    - A [pandas.DataFrame] is the ordered list of its labelled columns.  The
      content of a column is opaque (type [Col]): every intermediate frame of
      [DataFrameTransformer.transform] is built on the row index of [X], so
      [pd.concat(axis=1)] juxtaposes columns.
    - External collaborators (the wrapped transformer, the transformer
      factory, the pipeline object) are interfaces: classes or records of
      operations. *)

From Stdlib Require Import String Ascii List Bool Arith ZArith Lia.
From Stdlib Require Import DecimalString DecimalNat Permutation.
Import ListNotations.
Set Warnings "-register-all".
Open Scope string_scope.
Open Scope list_scope.

(** String concatenation, kept apart from list concatenation. *)
Infix "+++" := String.append (at level 60, right associativity).

(** ** Errors and the error monad *)

Inductive error : Type :=
| RaiseError (msg : string)      (* julearn.utils.raise_error(msg) *)
| KeyError (label : string)      (* pandas: label not found on the axis *)
| ValueError (msg : string)      (* builtin / pandas / sklearn ValueError *)
| AttributeError (attr : string) (* object has no attribute attr *)
| IndexError (msg : string)
| TypeError (msg : string).

Inductive result (A : Type) : Type :=
| Ok (a : A)
| Err (e : error).
Arguments Ok {A} a.
Arguments Err {A} e.

Definition bind {A B : Type} (r : result A) (k : A -> result B) : result B :=
  match r with
  | Ok a => k a
  | Err e => Err e
  end.

Notation "x <- r ;; k" := (bind r (fun x => k))
  (at level 61, r at next level, right associativity).
Notation "' pat <- r ;; k" := (bind r (fun x => match x with pat => k end))
  (at level 61, pat pattern, r at next level, right associativity).

Fixpoint mapM {A B : Type} (f : A -> result B) (l : list A) : result (list B) :=
  match l with
  | [] => Ok []
  | a :: l' => b <- f a ;; bs <- mapM f l' ;; Ok (b :: bs)
  end.

(** ** Python strings

    Text is ASCII: a [string] is the sequence of its characters, all with
    codes below 128. *)

Module PyStr.

Fixpoint drop (n : nat) (s : string) : string :=
  match n, s with
  | 0, _ => s
  | S _, EmptyString => EmptyString
  | S k, String _ s' => drop k s'
  end.

Fixpoint take (n : nat) (s : string) : string :=
  match n, s with
  | 0, _ => EmptyString
  | S _, EmptyString => EmptyString
  | S k, String c s' => String c (take k s')
  end.

(** [s.find(sub)]: index of the leftmost occurrence. *)
Fixpoint find (sub s : string) : option nat :=
  if prefix sub s then Some 0
  else match s with
       | EmptyString => None
       | String _ s' => option_map S (find sub s')
       end.

(** [s.split(sep)] for a non-empty [sep]: cut at the leftmost occurrence
    and go on after it.  Every cut consumes at least one character, so
    [length s] rounds are enough (lemma [split_fuel_enough]). *)
Fixpoint split_fuel (fuel : nat) (sep s : string) : list string :=
  match fuel with
  | 0 => [s]
  | S fuel' =>
      match find sep s with
      | None => [s]
      | Some i => take i s :: split_fuel fuel' sep (drop (i + String.length sep) s)
      end
  end.

(** [s.split(sep)]; an empty separator raises ValueError. *)
Definition split (sep s : string) : result (list string) :=
  match sep with
  | EmptyString => Err (ValueError "empty separator")
  | _ => Ok (split_fuel (String.length s) sep s)
  end.

(** [s.endswith(suffix)] *)
Fixpoint endswith (s suffix : string) : bool :=
  String.eqb s suffix
  || match s with
     | EmptyString => false
     | String _ s' => endswith s' suffix
     end.

(** [sep.join(l)] *)
Definition join (sep : string) (l : list string) : string := String.concat sep l.

Definition lower_ascii (c : ascii) : ascii :=
  let n := nat_of_ascii c in
  if ((65 <=? n) && (n <=? 90))%nat then ascii_of_nat (n + 32) else c.

(** [s.lower()] on ASCII text. *)
Fixpoint lower (s : string) : string :=
  match s with
  | EmptyString => EmptyString
  | String c s' => String (lower_ascii c) (lower s')
  end.

Definition is_digit (c : ascii) : bool :=
  let n := nat_of_ascii c in ((48 <=? n) && (n <=? 57))%nat.

(** Whitespace stripped by [int(str)] on ASCII text: TAB, LF, VT, FF, CR
    and the space (codes 9 to 13 and 32). *)
Definition is_space (c : ascii) : bool :=
  let n := nat_of_ascii c in
  (((9 <=? n) && (n <=? 13)) || Nat.eqb n 32)%nat.

Fixpoint lstrip (s : string) : string :=
  match s with
  | String c s' => if is_space c then lstrip s' else s
  | EmptyString => EmptyString
  end.

(** Digits followed by optional trailing whitespace; [acc] is the value
    read so far, [seen] tells whether a digit was read. *)
Fixpoint digits_then_space (s : string) (acc : N) (seen : bool) : option N :=
  match s with
  | EmptyString => if seen then Some acc else None
  | String c s' =>
      if is_digit c
      then digits_then_space s' (10 * acc + N.of_nat (nat_of_ascii c - 48))%N true
      else if seen && is_space c && (match lstrip s' with EmptyString => true | _ => false end)
           then Some acc
           else None
  end.

(** [int(s)] for ASCII text without digit-group underscores: optional
    surrounding whitespace, optional sign, at least one decimal digit.
    [None] stands for ValueError. *)
Definition int (s : string) : option Z :=
  match lstrip s with
  | EmptyString => None
  | String c s' =>
      if Ascii.eqb c "-"
      then option_map (fun n => Z.opp (Z.of_N n)) (digits_then_space s' 0 false)
      else if Ascii.eqb c "+"
      then option_map Z.of_N (digits_then_space s' 0 false)
      else option_map Z.of_N (digits_then_space (String c s') 0 false)
  end.

(** [str(n)] for a non-negative integer. *)
Definition of_nat (n : nat) : string :=
  NilZero.string_of_uint (Nat.to_uint n).

End PyStr.

(** ** Data frames: ordered, labelled columns *)

Section Frames.

Context {Col : Type}.

Definition DataFrame : Type := list (string * Col).

(** [X.columns] *)
Definition columns (X : DataFrame) : list string := map fst X.

Definition in_labels (l : string) (ls : list string) : bool :=
  existsb (String.eqb l) ls.

(** The columns of [X] labelled [l], in frame order. *)
Definition select_label (X : DataFrame) (l : string) : DataFrame :=
  filter (fun c => String.eqb (fst c) l) X.

(** [X.loc[:, labels]] for a list of labels: the columns of each label in
    the order of the list; a label that is no column raises KeyError. *)
Fixpoint loc_list (X : DataFrame) (labels : list string) : result DataFrame :=
  match labels with
  | [] => Ok []
  | l :: ls =>
      match select_label X l with
      | [] => Err (KeyError l)
      | cs => rest <- loc_list X ls ;; Ok (cs ++ rest)
      end
  end.

(** [X.drop(columns=labels)]: every label has to be a column (KeyError
    otherwise); all columns carrying one of the labels are removed. *)
Definition drop_columns (X : DataFrame) (labels : list string) : result DataFrame :=
  match find (fun l => negb (in_labels l (columns X))) labels with
  | Some l => Err (KeyError l)
  | None => Ok (filter (fun c => negb (in_labels (fst c) labels)) X)
  end.

(** [X.columns = names]: a length mismatch raises ValueError. *)
Definition set_columns (X : DataFrame) (names : list string) : result DataFrame :=
  if Nat.eqb (List.length names) (List.length X)
  then Ok (combine names (map snd X))
  else Err (ValueError "Length mismatch").

(** [pd.concat(frames, axis=1)] of frames sharing their row index. *)
Definition concat_columns (frames : list DataFrame) : DataFrame :=
  List.concat frames.

Fixpoint has_dup (ls : list string) : bool :=
  match ls with
  | [] => false
  | l :: ls' => in_labels l ls' || has_dup ls'
  end.

Fixpoint lookup (l : string) (X : DataFrame) : option Col :=
  match X with
  | [] => None
  | (l', c) :: X' => if String.eqb l' l then Some c else lookup l X'
  end.

Definition list_eqb (a b : list string) : bool :=
  if list_eq_dec string_dec a b then true else false.

(** [X.reindex(columns=target)]: conform the frame to the target labels.
    When the labels already are the target nothing is done; otherwise a
    frame with repeated labels cannot be reindexed (ValueError), and a
    target label that is no column gets the all-NaN column [nan]. *)
Definition reindex_columns (nan : Col) (X : DataFrame) (target : list string)
  : result DataFrame :=
  if list_eqb (columns X) target then Ok X
  else if has_dup (columns X)
       then Err (ValueError "cannot reindex on an axis with duplicate labels")
       else Ok (map (fun l => (l, match lookup l X with
                                  | Some c => c
                                  | None => nan
                                  end)) target).

End Frames.
Arguments DataFrame Col : clear implicits.

(** ** transformers/dataframe.py: [DataFrameTransformer] *)

(** [transform_column]: a string or a list of strings. *)
Inductive selector : Type :=
| SelStr (s : string)
| SelList (l : list string).

(** What [get_support] of an sklearn selector returns: a boolean mask, or
    integer positions when [indices=True]. *)
Inductive support : Type :=
| Mask (m : list bool)
| Indices (ix : list nat).

(** What [transformer.transform] returns: an array (columns without labels)
    or a frame whose columns already carry labels. *)
Inductive transformed (Col : Type) : Type :=
| OutArray (cols : list Col)
| OutFrame (df : DataFrame Col).
Arguments OutArray {Col} cols.
Arguments OutFrame {Col} df.

(** Column contents; [nan_column] is the column pandas fills in for a label
    that [reindex] does not find. *)
Class ColumnData (Col : Type) : Type := { nan_column : Col }.

(** The capabilities the wrapper uses of the transformer it wraps.  A
    [pd.Series] is a column, so the target [y] is an [option Col].
    [sk_get_support t = None] when [hasattr(t, 'get_support')] is false. *)
Class SkTransformer (T Col : Type) : Type := {
  sk_class_name : T -> string;
  sk_fit : T -> DataFrame Col -> option Col -> result T;
  sk_transform : T -> DataFrame Col -> result (transformed Col);
  sk_get_support : T -> option (bool -> result support)
}.

Record DataFrameTransformer (T : Type) : Type := mkDataFrameTransformer {
  transformer : T;
  transform_column : selector;
  returned_features : string;
  column_type_sep : string;
  (** set by [fit]; [None] before *)
  transform_column_ : option (list string)
}.
Arguments mkDataFrameTransformer {T}.
Arguments transformer {T}.
Arguments transform_column {T}.
Arguments returned_features {T}.
Arguments column_type_sep {T}.
Arguments transform_column_ {T}.

(** [DataFrameTransformer.column_types] *)
Definition column_types : list string :=
  ["confound"; "all"; "all_features"; "continuous"; "categorical"].

(** [DataFrameTransformer(transformer)] with the default arguments. *)
Definition new_wrapper {T : Type} (t : T) (transform_column : selector)
    (returned_features : string) (column_type_sep : string)
  : DataFrameTransformer T :=
  mkDataFrameTransformer t transform_column returned_features column_type_sep None.

Definition default_sep : string := "__:type:__".

(** [_get_column_type]: the split has two parts exactly when the separator
    occurs once; any other number of parts gives ['continuous']. *)
Definition _get_column_type (column_type_sep column : string) : result string :=
  column_type <- PyStr.split column_type_sep column ;;
  if negb (Nat.eqb (List.length column_type) 2)
  then Ok (snd (column_type, "continuous"))
  else Ok (nth 1 column_type EmptyString).

Fixpoint filterM {A : Type} (p : A -> result bool) (l : list A) : result (list A) :=
  match l with
  | [] => Ok []
  | a :: l' =>
      b <- p a ;;
      r <- filterM p l' ;;
      Ok (if b then a :: r else r)
  end.

Definition _get_columns_of_type (sep : string) (columns : list string)
    (column_type : string) : result (list string) :=
  if String.eqb column_type "all" then Ok columns
  else if String.eqb column_type "all_features"
  then filterM (fun column =>
                  t <- _get_column_type sep column ;;
                  Ok (negb (String.eqb t "confound"))) columns
  else filterM (fun column =>
                  t <- _get_column_type sep column ;;
                  Ok (String.eqb t column_type)) columns.

Definition _get_columns_of_types (sep : string) (columns : list string)
    (column_types : list string) : result (list string) :=
  per_type <- mapM (_get_columns_of_type sep columns) column_types ;;
  Ok (List.concat per_type).

Section Wrapper.

Context {T Col : Type} `{SkTransformer T Col} `{ColumnData Col}.

(** [_set_columns_to_transform]: the value given to [transform_column_].
    [X.loc[:, name]] with one string is a Series when the label is carried
    by one column, and a Series has no attribute [columns]. *)
Definition _set_columns_to_transform (self : DataFrameTransformer T)
    (X : DataFrame Col) : result (list string) :=
  let all_columns := columns X in
  transform_column_ <-
    match transform_column self with
    | SelStr s =>
        if in_labels s column_types
        then _get_columns_of_type (column_type_sep self) all_columns s
        else match select_label X s with
             | [] => Err (KeyError s)
             | [_] => Err (AttributeError "columns")
             | cs => Ok (columns cs)
             end
    | SelList l =>
        if forallb (fun column => in_labels column column_types) l
        then _get_columns_of_types (column_type_sep self) (columns X) l
        else X_sel <- loc_list X l ;; Ok (columns X_sel)
    end ;;
  match transform_column_ with
  | [] => Err (RaiseError "There is not valid column to transform")
  | _ => Ok transform_column_
  end.

Definition fit (self : DataFrameTransformer T) (X : DataFrame Col)
    (y : option Col) : result (DataFrameTransformer T) :=
  cols <- _set_columns_to_transform self X ;;
  X_transform <- loc_list X cols ;;
  t' <- sk_fit (transformer self) X_transform y ;;
  Ok (mkDataFrameTransformer t' (transform_column self)
        (returned_features self) (column_type_sep self) (Some cols)).

(** [pd.DataFrame(X_transformed, index=...)] followed by
    [columns.astype(str)]: an array gets the labels "0", "1", ... *)
Definition as_frame (out : transformed Col) : DataFrame Col :=
  match out with
  | OutArray cols => combine (map PyStr.of_nat (seq 0 (List.length cols))) cols
  | OutFrame df => df
  end.

(** [index[support]] *)
Definition index_by_support (labels : list string) (s : support)
  : result (list string) :=
  match s with
  | Mask m =>
      if Nat.eqb (List.length m) (List.length labels)
      then Ok (map fst (filter snd (combine labels m)))
      else Err (IndexError "boolean index did not match indexed array")
  | Indices ix =>
      mapM (fun i => match nth_error labels i with
                     | Some l => Ok l
                     | None => Err (IndexError "index out of bounds")
                     end) ix
  end.

Definition component_name (transformer_name : string) (n_column : nat)
    (sep type : string) : string :=
  transformer_name +++ "_component:" +++ PyStr.of_nat n_column +++ sep +++ type.

Fixpoint enumerate_from {A : Type} (n : nat) (l : list A) : list (nat * A) :=
  match l with
  | [] => []
  | a :: l' => (n, a) :: enumerate_from (S n) l'
  end.

(** The test that guards the policy ['unknown_same_type']:
    [type(tc) == list and len(tc) > 1 or tc in ['all', 'all_features']]. *)
Definition same_type_refused (tc : selector) : bool :=
  match tc with
  | SelList l => (1 <? List.length l)%nat || false
  | SelStr s => false || in_labels s ["all"; "all_features"]
  end.

(** The second half of [transform]: the output of the wrapped transformer
    is made a frame, its columns are named by the policy
    [returned_features], and the frame is put together with [X_rest]. *)
Definition reassemble (self : DataFrameTransformer T)
    (X X_transform X_rest : DataFrame Col) (X_transformed : transformed Col)
  : result (DataFrame Col) :=
  let X_transformed := as_frame X_transformed in
  let rf := returned_features self in
  if String.eqb rf "same" then
    X_transformed <- set_columns X_transformed (columns X_transform) ;;
    reindex_columns nan_column (concat_columns [X_transformed; X_rest]) (columns X)
  else if String.eqb rf "subset" then
    match sk_get_support (transformer self) with
    | Some get_support =>
        s <- get_support false ;;
        names <- index_by_support (columns X_transform) s ;;
        X_transformed <- set_columns X_transformed names ;;
        Ok (concat_columns [X_transformed; X_rest])
    | None =>
        Err (RaiseError "You cannot use subset on a transformerwithout a get_support attribute")
    end
  else if String.eqb rf "unknown" then
    let transformer_name := PyStr.lower (sk_class_name (transformer self)) in
    let columns :=
      map (fun n_column =>
             component_name transformer_name n_column (column_type_sep self) "continuous")
          (seq 0 (List.length (columns X_transformed))) in
    X_transformed <- set_columns X_transformed columns ;;
    Ok (concat_columns [X_transformed; X_rest])
  else if String.eqb rf "unknown_same_type" then
    if same_type_refused (transform_column self)
    then Err (RaiseError "You can only return same type, when all used columns have the same type")
    else
      let transformer_name := PyStr.lower (sk_class_name (transformer self)) in
      columns <-
        mapM (fun '(n_column, column) =>
                t <- _get_column_type (column_type_sep self) column ;;
                Ok (component_name transformer_name n_column (column_type_sep self) t))
             (enumerate_from 0 (columns X_transformed)) ;;
      X_transformed <- set_columns X_transformed columns ;;
      Ok (concat_columns [X_transformed; X_rest])
  else if String.eqb rf "from_transformer" then
    Ok (concat_columns [X_rest; X_transformed])
  else
    Err (RaiseError "returned_features can only be same, unknown,unknown_same_type, or subset").

(** [transform]: slice by the stored [transform_column_], call the wrapped
    transformer on the slice, reassemble. *)
Definition transform (self : DataFrameTransformer T) (X : DataFrame Col)
  : result (DataFrame Col) :=
  cols <- match transform_column_ self with
          | Some cols => Ok cols
          | None => Err (AttributeError "transform_column_")
          end ;;
  X_transform <- loc_list X cols ;;
  X_rest <- drop_columns X cols ;;
  X_transformed <- sk_transform (transformer self) X_transform ;;
  reassemble self X X_transform X_rest X_transformed.

(** [get_support]: the call on the wrapped transformer is an expression
    statement; the method ends without [return], so its value is Python's
    [None], here [None : option support]. *)
Definition get_support (self : DataFrameTransformer T) (indices : bool)
  : result (option support) :=
  match sk_get_support (transformer self) with
  | None => Err (AttributeError "get_support")
  | Some f => _ <- f indices ;; Ok None
  end.

End Wrapper.

(** ** prepare.py: input validation and normalisation *)

(** The arguments of [prepare_input_data], as far as the code inspects them:
    the class of the object, the shape of an array, the labels and the
    number of rows of a frame. *)
Inductive pyobj : Type :=
| PyNone
| PyString (s : string)
| PyList (l : list string)
| PyArray (shape : list nat)          (* numpy.ndarray; ndim = len(shape) *)
| PyFrame (cols : list string) (rows : nat)   (* pandas.DataFrame *)
| PyOther.

Definition ndim (shape : list nat) : nat := List.length shape.

(** [shape[0]] *)
Definition shape0 (shape : list nat) : nat := hd 0 shape.

(** Sequencing for checks that may raise and may warn: the value is the list
    of warnings issued so far. *)
Definition check (cond : bool) (msg : string) : result unit :=
  if cond then Err (RaiseError msg) else Ok tt.

Definition warn_if (cond : bool) (msg : string) : list string :=
  if cond then [msg] else [].

Definition as_list (a : pyobj) : list string :=
  match a with
  | PyList l => l
  | PyString s => [s]
  | _ => []
  end.

Definition _validate_input_data (X y confounds df groups : pyobj)
  : result (list string) :=
  match df with
  | PyNone =>
      (* Case 1: no dataframe *)
      match X with
      | PyArray Xshape =>
          _ <- check (negb (existsb (Nat.eqb (ndim Xshape)) [1; 2]))
                     "X must be at most bi-dimensional" ;;
          match y with
          | PyArray yshape =>
              _ <- check (negb (Nat.eqb (ndim yshape) 1)) "y must be one-dimensional" ;;
              _ <- check (negb (Nat.eqb (shape0 Xshape) (shape0 yshape)))
                         "The number of samples in X do not match y" ;;
              _ <- match confounds with
                   | PyNone => Ok tt
                   | PyArray cshape =>
                       _ <- check (negb (existsb (Nat.eqb (ndim cshape)) [1; 2]))
                                  "confounds must be at most bi-dimensional" ;;
                       check (negb (Nat.eqb (shape0 Xshape) (shape0 cshape)))
                             "The number of samples in X do not match confounds"
                   | _ => Err (RaiseError
                             "confounds must be a numpy array if no dataframe is specified")
                   end ;;
              _ <- match groups with
                   | PyNone => Ok tt
                   | PyArray gshape =>
                       check (negb (Nat.eqb (ndim gshape) 1))
                             "groups must be one-dimensional"
                   | _ => Err (RaiseError
                             "groups must be a numpy array if no dataframe is specified")
                   end ;;
              Ok []
          | _ => Err (RaiseError "y must be a numpy array if no dataframe is specified")
          end
      | _ => Err (RaiseError "X must be a numpy array if no dataframe is specified")
      end
  | _ =>
      (* Case 2: a dataframe; X, y, confounds and groups name its columns *)
      _ <- check (match X with PyString _ | PyList _ => false | _ => true end)
                 "X must be a string or list of strings" ;;
      match y with
      | PyString y =>
          _ <- check (match confounds with
                      | PyString _ | PyList _ | PyNone => false
                      | _ => true
                      end)
                     "If not None, confounds must be a string or list of strings" ;;
          _ <- check (match groups with PyString _ | PyNone => false | _ => true end)
                     "groups must be a string" ;;
          match df with
          | PyFrame df_columns _ =>
              let X := as_list X in
              let missing_columns := filter (fun t_x => negb (in_labels t_x df_columns)) X in
              _ <- check (0 <? List.length missing_columns)%nat
                         "All elements of X must be in the dataframe." ;;
              _ <- check (negb (in_labels y df_columns))
                         "Target (y) is not a valid column in the dataframe" ;;
              _ <- match confounds with
                   | PyNone => Ok tt
                   | _ =>
                       let confounds := as_list confounds in
                       let missing_columns :=
                         filter (fun t_c => negb (in_labels t_c df_columns)) confounds in
                       check (0 <? List.length missing_columns)%nat
                             "All elements of confounds must be in the dataframe."
                   end ;;
              w_groups <-
                match groups with
                | PyString groups =>
                    _ <- check (negb (in_labels groups df_columns))
                               "Groups is not a valid column in the dataframe" ;;
                    Ok (warn_if (String.eqb groups y) "y and groups are the same column"
                        ++ warn_if (in_labels groups X) "groups is part of X")
                | _ => Ok []
                end ;;
              Ok (w_groups ++ warn_if (in_labels y X) "y is part of X")
          | _ => Err (RaiseError "df must be a pandas.DataFrame")
          end
      | _ => Err (RaiseError "y must be a string")
      end
  end.

(** A [pd.Series]: its name and its length. *)
Record Series : Type := mkSeries { series_name : string; series_len : nat }.

(** What [prepare_input_data] returns, as labels and lengths:
    [(df_X_conf, df_y, df_groups, confound_names)]. *)
Record InputData : Type := mkInputData {
  df_X_conf : list string * nat;
  df_y : Series;
  df_groups : option Series;
  confound_names : option (list string)
}.

(** Second dimension of an array after [a[:, None]] when it has rank 1. *)
Definition n_columns (shape : list nat) : nat :=
  if Nat.eqb (ndim shape) 1 then 1 else nth 1 shape 0.

Fixpoint add_missing (X_conf_columns : list string) (confounds : list string)
  : list string :=
  match confounds with
  | [] => X_conf_columns
  | t_c :: rest =>
      add_missing (if in_labels t_c X_conf_columns then X_conf_columns
                   else X_conf_columns ++ [t_c]) rest
  end.

(** [t_c in X] where [X] is still the argument as given: a substring test
    when [X] is a string, membership when it is a list. *)
Definition py_in (t_c : string) (X : pyobj) : bool :=
  match X with
  | PyString x => match PyStr.find t_c x with Some _ => true | None => false end
  | PyList l => in_labels t_c l
  | _ => false
  end.

(** The labels of [df.loc[:, names]] when every name is a label of [df]:
    for each name in turn, every column of [df] that carries it. *)
Definition loc_labels (df_columns names : list string) : list string :=
  flat_map (fun l => filter (fun c => String.eqb c l) df_columns) names.

(** [prepare_input_data]: the value and the warnings.  [pos_labels] changes
    the values of [df_y] only, neither its name nor its length.  With a
    table, [df_y] and [df_groups] record the label selected by
    [df.loc[:, label]] and the number of rows. *)
Definition prepare_input_data (X y confounds df pos_labels groups : pyobj)
  : result (InputData * list string) :=
  w <- _validate_input_data X y confounds df groups ;;
  match df, X, y with
  | PyNone, PyArray Xshape, PyArray yshape =>
      let columns := map (fun i => "feature_" +++ PyStr.of_nat i) (seq 0 (n_columns Xshape)) in
      let confound_names :=
        match confounds with
        | PyArray cshape =>
            Some (map (fun i => "confound_" +++ PyStr.of_nat i) (seq 0 (n_columns cshape)))
        | _ => None
        end in
      let df_groups :=
        match groups with
        | PyArray gshape => Some (mkSeries "groups" (shape0 gshape))
        | _ => None
        end in
      Ok (mkInputData (columns ++ match confound_names with Some c => c | None => [] end,
                       shape0 Xshape)
                      (mkSeries "y" (shape0 yshape)) df_groups confound_names, w)
  | PyFrame df_columns rows, _, PyString y =>
      let X_conf_columns := as_list X in
      let overlapping := filter (fun t_c => py_in t_c X) (as_list confounds) in
      let w' := match confounds with
                | PyNone => []
                | _ => warn_if (0 <? List.length overlapping)%nat "X contains the following confounds"
                end in
      let X_conf_columns := add_missing X_conf_columns (as_list confounds) in
      Ok (mkInputData (loc_labels df_columns X_conf_columns, rows) (mkSeries y rows)
                      (match groups with
                       | PyString g => Some (mkSeries g rows)
                       | _ => None
                       end)
                      (match confounds with
                       | PyNone => None
                       | _ => Some (as_list confounds)
                       end), w ++ w')
  | _, _, _ => Err (TypeError "unreachable after validation")
  end.

(** ** prepare.py: hyperparameters *)

(** Hyperparameter values.  Lists and tuples have [__iter__] and [len];
    strings have [__iter__] but are excluded by the [isinstance] test. *)
Inductive hval : Type :=
| HNone
| HBool (b : bool)
| HInt (z : Z)
| HFloat (repr : string)
| HStr (s : string)
| HList (l : list hval)
| HTuple (l : list hval).

Definition has_iter (val : hval) : bool :=
  match val with
  | HStr _ | HList _ | HTuple _ => true
  | _ => false
  end.

Definition is_str (val : hval) : bool :=
  match val with HStr _ => true | _ => false end.

(** [len(val)] of a list or tuple. *)
Definition hlen (val : hval) : nat :=
  match val with
  | HList l | HTuple l => List.length l
  | _ => 0
  end.

(** The pipeline object is built outside these files.  [set_params] is the
    estimator capability of the specification (section 6); an attribute the
    object does not have is [None], and looking it up raises
    AttributeError. *)
Class SkPipeline (P : Type) : Type := {
  pl_set_params : P -> list (string * hval) -> result P;
  pl_set_param : option (P -> hval -> result P)
}.

(** [d[k] = v] on an insertion-ordered dict. *)
Fixpoint dict_set {V : Type} (d : list (string * V)) (k : string) (v : V)
  : list (string * V) :=
  match d with
  | [] => [(k, v)]
  | (k', v') :: d' =>
      if String.eqb k' k then (k, v) :: d' else (k', v') :: dict_set d' k v
  end.

Definition rename_param (model_name param : string) : result string :=
  parts <- PyStr.split "__" param ;;
  match parts with
  | [] => Err (ValueError "not enough values to unpack")
  | first :: rest =>
      new_first <-
        (if String.eqb first "features" then Ok "dataframe_pipeline"
         else if String.eqb first "confounds" then Ok "confound_dataframe_pipeline"
         else if String.eqb first "target" then Ok "y_transformer"
         else if String.eqb first model_name then Ok ("dataframe_pipeline__" +++ first)
         else Err (RaiseError
                "Each element of the hyperparameters dict  has to start with features__, confounds__, target__ or the model name")) ;;
      Ok (PyStr.join "__" ([new_first] ++ rest))
  end.

Section Hyperparams.

Context {P : Type} `{SkPipeline P}.

(** One round of the loop of [_prepare_hyperparams]. *)
Definition _prepare_hyperparam (model_name : string)
    (st : list (string * hval) * P) (item : string * hval)
  : result (list (string * hval) * P) :=
  let '(to_tune, pipeline) := st in
  let '(param, val) := item in
  if has_iter val && negb (is_str val) then
    if (1 <? hlen val)%nat then
      k <- rename_param model_name param ;;
      Ok (dict_set to_tune k val, pipeline)
    else
      match pl_set_param with
      | None => Err (AttributeError "set_param")
      | Some set_param =>
          pipeline <- set_param pipeline val ;;
          Ok (to_tune, pipeline)
      end
  else
    k <- rename_param model_name param ;;
    pipeline <- pl_set_params pipeline [(k, val)] ;;
    Ok (to_tune, pipeline).

Fixpoint foldM {A B : Type} (f : A -> B -> result A) (a : A) (l : list B)
  : result A :=
  match l with
  | [] => Ok a
  | b :: l' => a' <- f a b ;; foldM f a' l'
  end.

(** [_prepare_hyperparams]: the grid [to_tune] and the pipeline after the
    calls on it. *)
Definition _prepare_hyperparams (hyperparams : list (string * hval))
    (pipeline : P) (model_name : string)
  : result (list (string * hval) * P) :=
  foldM (_prepare_hyperparam model_name) ([], pipeline) hyperparams.

End Hyperparams.

(** ** prepare.py: preprocessing steps *)

(** Python objects given as preprocessing steps, other than strings and
    lists: attribute test, lower-cased class name and [sklearn.base.clone]. *)
Class PyObject (Obj : Type) : Type := {
  hasattr : Obj -> string -> bool;
  class_name_lower : Obj -> string;
  clone : Obj -> Obj
}.

(** [julearn.transformers.get_transformer(name)]: the transformer registered
    under a name and its [returned_features], or an error. *)
Class TransformerFactory (Obj : Type) : Type := {
  get_transformer : string -> result (Obj * string)
}.

Inductive step (Obj : Type) : Type :=
| StepStr (name : string)
| StepList (items : list Obj)
| StepObj (o : Obj).
Arguments StepStr {Obj} name.
Arguments StepList {Obj} items.
Arguments StepObj {Obj} o.

(** What [_create_preprocess_tuple] returns: the 4-tuple
    [(trans_name, trans, returned_features, transform_columns)], or the list
    it was given. *)
Inductive preprocess_step (Obj : Type) : Type :=
| PrepTuple (trans_name : string) (trans : Obj) (returned_features : string)
            (transform_columns : selector)
| PrepList (items : list Obj).
Arguments PrepTuple {Obj} trans_name trans returned_features transform_columns.
Arguments PrepList {Obj} items.

Section Preprocess.

Context {Obj : Type} `{PyObject Obj} `{TransformerFactory Obj}.

Definition _is_valid_sklearn_transformer (transformer : Obj) : bool :=
  hasattr transformer "fit" && hasattr transformer "transform"
  && hasattr transformer "get_params" && hasattr transformer "set_params".

Definition transform_columns_of (trans_name : string) : selector :=
  if String.eqb trans_name "remove_confound"
  then SelList ["continuous"; "confound"]
  else SelStr "continuous".

Definition _create_preprocess_tuple (transformer : step Obj)
  : result (preprocess_step Obj) :=
  match transformer with
  | StepList items => Ok (PrepList items)
  | StepStr name =>
      let trans_name := name in
      '(trans, returned_features) <- get_transformer name ;;
      Ok (PrepTuple trans_name trans returned_features (transform_columns_of trans_name))
  | StepObj o =>
      let trans_name := class_name_lower o in
      let trans := clone o in
      let returned_features := "unknown" in
      Ok (PrepTuple trans_name trans returned_features (transform_columns_of trans_name))
  end.

Definition _prepare_preprocess_X (preprocess_X : list (step Obj))
  : result (list (preprocess_step Obj)) :=
  mapM _create_preprocess_tuple preprocess_X.

(** [_get_confound_transformer]: only the policy is used by the caller.
    A list has none of the transformer attributes. *)
Definition _get_confound_transformer (conf : step Obj) : result string :=
  let returned_features := "unknown_same_type" in
  match conf with
  | StepStr name =>
      '(_, returned_features) <- get_transformer name ;;
      Ok returned_features
  | StepObj o =>
      if negb (_is_valid_sklearn_transformer o)
      then Err (RaiseError "The specified confound preprocessing is not valid.")
      else Ok returned_features
  | StepList _ =>
      Err (RaiseError "The specified confound preprocessing is not valid.")
  end.

(** [if returned_features == 'unknown': returned_features = 'unknown_same_type'] *)
Definition unknown_to_same_type (returned_features : string) : string :=
  if String.eqb returned_features "unknown" then "unknown_same_type"
  else returned_features.

(** The loop over the steps: [returned_features] is assigned anew at
    every step. *)
Fixpoint confound_policy (returned_features : string)
    (preprocess_conf : list (step Obj)) : result string :=
  match preprocess_conf with
  | [] => Ok returned_features
  | step :: rest =>
      returned_features <- _get_confound_transformer step ;;
      let returned_features := unknown_to_same_type returned_features in
      confound_policy returned_features rest
  end.

(** [step[:2] + (returned_features,) + (step[-1],)]; a list and a tuple
    cannot be added. *)
Definition replace_policy (returned_features : string)
    (step : preprocess_step Obj) : result (preprocess_step Obj) :=
  match step with
  | PrepTuple trans_name trans _ transform_columns =>
      Ok (PrepTuple trans_name trans returned_features transform_columns)
  | PrepList _ => Err (TypeError "can only concatenate list (not tuple) to list")
  end.

Definition _prepare_preprocess_confounds (preprocess_conf : list (step Obj))
  : result (list (preprocess_step Obj)) :=
  returned_features <- confound_policy "unknown_same_type" preprocess_conf ;;
  preprocess_conf <- mapM _create_preprocess_tuple preprocess_conf ;;
  mapM (replace_policy returned_features) preprocess_conf.

(** The third component of a step tuple. *)
Definition policy_of (s : preprocess_step Obj) : option string :=
  match s with
  | PrepTuple _ _ returned_features _ => Some returned_features
  | PrepList _ => None
  end.

End Preprocess.

(** ** prepare.py: cross-validation *)

Inductive splitter : Type :=
| KFold (n_splits : Z)
| RepeatedKFold (n_splits n_repeats : Z)
| GroupKFold
| GroupShuffleSplit
| LeaveOneGroupOut
| LeavePGroupsOut
| OtherSplitter (name : string).

(** The [cv] argument: an integer, a string or a splitter object. *)
Inductive cv_arg : Type :=
| CvInt (n : Z)
| CvStr (s : string)
| CvSplitter (cv : splitter).

(** [sklearn.model_selection.check_cv(cv)]: an integer gives a k-fold
    splitter (at least 2 folds), an object with [split] is returned as it
    is, a string is refused with ValueError. *)
Definition check_cv (cv : cv_arg) : result splitter :=
  match cv with
  | CvInt n =>
      if (n <=? 1)%Z
      then Err (ValueError "k-fold cross-validation requires at least one train/test split")
      else Ok (KFold n)
  | CvStr _ => Err (ValueError "Expected cv as an integer, cross-validation object or an iterable")
  | CvSplitter cv => Ok cv
  end.

(** The constructor [RepeatedKFold(n_splits, n_repeats)] of sklearn refuses
    a number of repetitions that is not positive. *)
Definition new_RepeatedKFold (n_splits n_repeats : Z) : result splitter :=
  if (n_repeats <=? 0)%Z
  then Err (ValueError "Number of repetitions must be greater than 0.")
  else Ok (RepeatedKFold n_splits n_repeats).

(** [int(name.split(':')[-1])] *)
Definition int_after_colon (name : string) : result Z :=
  parts <- PyStr.split ":" name ;;
  match PyStr.int (last parts EmptyString) with
  | Some z => Ok z
  | None => Err (ValueError "invalid literal for int() with base 10")
  end.

Definition parser (cv_string : string) : result splitter :=
  parts <- PyStr.split "_" cv_string ;;
  match parts with
  | [n_repeats; n_folds] =>
      n_repeats <- int_after_colon n_repeats ;;
      n_folds <- int_after_colon n_folds ;;
      new_RepeatedKFold n_folds n_repeats
  | [] | [_] => Err (ValueError "not enough values to unpack (expected 2)")
  | _ => Err (ValueError "too many values to unpack (expected 2)")
  end.

(** [prepare_cv]: only a ValueError of [check_cv] is caught; the parser
    then needs a string ([cv.split]). *)
Definition prepare_cv (cv : cv_arg) : result splitter :=
  match check_cv cv with
  | Ok _cv => Ok _cv
  | Err (ValueError _) =>
      match cv with
      | CvStr s => parser s
      | _ => Err (AttributeError "split")
      end
  | Err e => Err e
  end.

(** ** prepare.py: consistency of the problem type and the target *)

(** The values held by a target of dtype object: Python integers or
    strings. *)
Inductive yval : Type :=
| YNum (z : Z)
| YLabel (s : string).

Definition yval_eq_dec (a b : yval) : {a = b} + {a <> b}.
Proof. decide equality; [apply Z.eq_dec | apply string_dec]. Defined.

(** [y.values]: an array of a numeric dtype, whose integers the checks read
    through equality only, or an array of dtype object.  Strings, integers
    that fit no machine type and any mix of the two are stored with dtype
    object. *)
Inductive yarray : Type :=
| NumericArray (values : list Z)
| ObjectArray (values : list yval).

Definition is_num (v : yval) : bool :=
  match v with YNum _ => true | YLabel _ => false end.

(** Sorting an object array compares a number with a string as soon as it
    holds both. *)
Definition mixed (values : list yval) : bool :=
  existsb is_num values && existsb (fun v => negb (is_num v)) values.

(** [np.unique(y.values).shape[0]]: the values are sorted, then counted.
    Sorting raises TypeError on an object array mixing numbers and
    strings. *)
Definition n_unique (y : yarray) : result nat :=
  match y with
  | NumericArray values => Ok (List.length (nodup Z.eq_dec values))
  | ObjectArray values =>
      if mixed values
      then Err (TypeError "'<' not supported between instances of 'str' and 'int'")
      else Ok (List.length (nodup yval_eq_dec values))
  end.

(** [np.issubdtype(y.values.dtype, np.number)] *)
Definition is_numeric_dtype (y : yarray) : bool :=
  match y with
  | NumericArray _ => true
  | ObjectArray _ => false
  end.

Definition is_group_cv (cv : splitter) : bool :=
  match cv with
  | GroupKFold | GroupShuffleSplit | LeaveOneGroupOut | LeavePGroupsOut => true
  | _ => false
  end.

(** [check_consistency]: the warnings issued, or the error raised.  Of the
    arguments only [preprocess_y] (given or [None]), [y], [cv], [groups]
    (given or [None]) and [problem_type] are read. *)
Definition check_consistency {Obj : Type} (preprocess_y : option Obj)
    (y : yarray) (cv : splitter) (groups : option Series)
    (problem_type : string) : result (list string) :=
  n_classes <- n_unique y ;;
  w <-
    (if String.eqb problem_type "binary_classification" then
       if negb (Nat.eqb n_classes 2) then
         match preprocess_y with
         | None => Err (RaiseError
                     "The number of classes is not suitable for a binary classification.")
         | Some _ => Ok ["The number of classes is not suitable for a binary classification. However, a y transformer has been set."]
         end
       else Ok []
     else if String.eqb problem_type "multiclass_classification" then
       if Nat.eqb n_classes 2
       then Ok ["A multiclass classification will be performed but only 2 classes are defined in y."]
       else Ok []
     else
       let is_numeric := is_numeric_dtype y in
       if negb is_numeric then
         match preprocess_y with
         | None => Err (RaiseError
                     "The kind of values in y is not suitable for a regression.")
         | Some _ => Ok ["The kind of values in y is not suitable for a regression. However, a y transformer has been set."]
         end
       else
         n_classes <- n_unique y ;;
         if Nat.eqb n_classes 2
         then Ok ["A regression will be performed but only 2 distinct values are defined in y."]
         else Ok []) ;;
  match groups with
  | Some _ =>
      if negb (is_group_cv cv)
      then Ok (w ++ ["The parameter groups was specified but the CV strategy will not consider them."])
      else Ok w
  | None => Ok w
  end.

(** ** The specification's wording, for comparison *)

Module Spec.

(** [s.rfind(sub)]: index of the rightmost occurrence. *)
Fixpoint rfind (sub s : string) : option nat :=
  match s with
  | EmptyString => if prefix sub s then Some 0 else None
  | String _ s' =>
      match rfind sub s' with
      | Some i => Some (S i)
      | None => if prefix sub s then Some 0 else None
      end
  end.

(** Section 4.1, [decode]: split on the last occurrence of the separator;
    without separator the whole name is the base and the tag is
    ['continuous']. *)
Definition decode (sep column : string) : string * string :=
  match rfind sep column with
  | Some i => (PyStr.take i column, PyStr.drop (i + String.length sep) column)
  | None => (column, "continuous")
  end.

(** Section 4.1, [encode]. *)
Definition encode (sep base tag : string) : string := base +++ sep +++ tag.

Fixpoint strip_prefix (p s : string) : option string :=
  match p, s with
  | EmptyString, _ => Some s
  | String a p', String b s' => if Ascii.eqb a b then strip_prefix p' s' else None
  | String _ _, EmptyString => None
  end.

(** An integer literal at the head of [s]: an optional minus sign and at
    least one digit; the rest of [s] is returned. *)
Fixpoint skip_digits (s : string) : string :=
  match s with
  | String c s' => if PyStr.is_digit c then skip_digits s' else s
  | EmptyString => EmptyString
  end.

Definition skip_int (s : string) : option string :=
  let s := match s with String "-" s' => s' | _ => s end in
  match s with
  | String c _ => if PyStr.is_digit c then Some (skip_digits s) else None
  | EmptyString => None
  end.

(** Section 4.7: the exact form [repeat:<int>_nfolds:<int>]. *)
Definition cv_grammar (s : string) : bool :=
  match strip_prefix "repeat:" s with
  | Some s1 =>
      match skip_int s1 with
      | Some s2 =>
          match strip_prefix "_nfolds:" s2 with
          | Some s3 =>
              match skip_int s3 with
              | Some EmptyString => true
              | _ => false
              end
          | None => false
          end
      | None => false
      end
  | None => false
  end.

End Spec.

(** ** Concrete collaborators, for evaluation *)

Module Toy.

(** Columns of integers; the missing-value column is empty. *)
#[global] Instance column_data : ColumnData (list Z) := {| nan_column := [] |}.

(** Two transformers without [get_support]: [Scaler] keeps the shape of
    the slice (it adds 1 to every cell), [Pca] returns one component. *)
Inductive toy : Type := Scaler | Pca.

#[global] Instance sk : SkTransformer toy (list Z) := {|
  sk_class_name t := match t with Scaler => "StandardScaler" | Pca => "PCA" end;
  sk_fit t _ _ := Ok t;
  sk_transform t X :=
    match t with
    | Scaler => Ok (OutArray (map (fun c => map (Z.add 1) (snd c)) X))
    | Pca => Ok (OutArray (firstn 1 (map snd X)))
    end;
  sk_get_support _ := None
|}.

(** A feature selector with [get_support]: it keeps the first column. *)
Inductive selecting : Type := KeepFirst.

Definition keep_first_support (indices : bool) : result support :=
  if indices then Ok (Indices [0]) else Ok (Mask [true; false]).

#[global] Instance sk_selecting : SkTransformer selecting (list Z) := {|
  sk_class_name _ := "SelectKBest";
  sk_fit t _ _ := Ok t;
  sk_transform _ X := Ok (OutArray (firstn 1 (map snd X)));
  sk_get_support _ := Some keep_first_support
|}.

(** A pipeline that records the parameters set on it and, like every
    sklearn estimator, has no attribute [set_param]. *)
#[global] Instance pipeline : SkPipeline (list (string * hval)) := {|
  pl_set_params p kv := Ok (p ++ kv);
  pl_set_param := None
|}.

(** Step objects: a class name and the list of attributes. *)
Record object : Type := mkObject { obj_class : string; obj_attrs : list string }.

#[global] Instance py_object : PyObject object := {|
  hasattr o a := in_labels a (obj_attrs o);
  class_name_lower o := PyStr.lower (obj_class o);
  clone o := o
|}.

Definition sk_attrs : list string := ["fit"; "transform"; "get_params"; "set_params"].

(** A registry with two names. *)
#[global] Instance factory : TransformerFactory object := {|
  get_transformer name :=
    if String.eqb name "zscore" then Ok (mkObject "StandardScaler" sk_attrs, "same")
    else if String.eqb name "pca" then Ok (mkObject "PCA" sk_attrs, "unknown")
    else Err (RaiseError "The specified transformer is not available.")
|}.

Definition age : string := "age__:type:__confound".
Definition iq : string := "iq__:type:__continuous".
Definition sex : string := "sex__:type:__categorical".

Definition table : DataFrame (list Z) :=
  [(iq, [100; 110]%Z); (age, [30; 40]%Z); (sex, [0; 1]%Z)].

(** The same table with one more column. *)
Definition wide_table : DataFrame (list Z) := table ++ [("site", [7; 8]%Z)].

(** A wrapper on the continuous and confound columns, before and after
    [fit] on [table]. *)
Definition scaling : DataFrameTransformer toy :=
  new_wrapper Scaler (SelList ["continuous"; "confound"]) "same" default_sep.

Definition scaling_fitted : DataFrameTransformer toy :=
  mkDataFrameTransformer Scaler (SelList ["continuous"; "confound"]) "same"
    default_sep (Some [iq; age]).

End Toy.

(** ** prepare.py: model selection *)

(** The dictionary given for model selection: the entries that
    [prepare_model_selection] reads; an absent entry is [None]. *)
Record msel_dict : Type := mkMselDict {
  msel_hyperparameters : option (list (string * hval));
  msel_cv : option cv_arg;
  msel_scoring : option string
}.

(** [julearn.model_selection.wrap_search(GridSearchCV, pipeline,
    hyper_params, cv=..., scoring=...)], built outside these files. *)
Class SearchWrapper (P : Type) : Type := {
  wrap_search : P -> list (string * hval) -> splitter -> option string -> result P
}.

(** [prepare_model_selection]; [deepcopy(cv_outer)] is [cv_outer]. *)
Definition prepare_model_selection {P : Type} `{SkPipeline P} `{SearchWrapper P}
    (msel : msel_dict) (pipeline : P) (model_name : string) (cv_outer : splitter)
  : result P :=
  match msel_hyperparameters msel with
  | None => Err (RaiseError
              "The 'hyperparameters' value must be specified for model selection.")
  | Some hyperparameters =>
      '(hyper_params, pipeline) <-
        _prepare_hyperparams hyperparameters pipeline model_name ;;
      if (0 <? List.length hyper_params)%nat then
        let gs_scoring := msel_scoring msel in
        cv_inner <- match msel_cv msel with
                    | None => Ok cv_outer
                    | Some cv_inner => prepare_cv cv_inner
                    end ;;
        wrap_search pipeline hyper_params cv_inner gs_scoring
      else Ok pipeline
  end.

(** ** Names used in the statements *)

(** The type tags proper, without the aggregate keywords. *)
Definition literal_tags : list string := ["confound"; "continuous"; "categorical"].

(** The branch of the pipeline that the first segment of a hyperparameter
    name stands for, as [rename_param] chooses it. *)
Definition scope_branch (model_name first : string) : option string :=
  if String.eqb first "features" then Some "dataframe_pipeline"
  else if String.eqb first "confounds" then Some "confound_dataframe_pipeline"
  else if String.eqb first "target" then Some "y_transformer"
  else if String.eqb first model_name then Some ("dataframe_pipeline__" +++ first)
  else None.

(** What holds of a grid built from the entries of [hp]: no key twice,
    and every entry a list or tuple of more than one candidate under the
    rewritten name of a parameter of [hp]. *)
Definition grid_ok (model_name : string) (hp grid : list (string * hval)) : Prop :=
  NoDup (map fst grid) /\
  forall k v, In (k, v) grid ->
    has_iter v = true /\ is_str v = false /\ 1 < hlen v /\
    exists param, In (param, v) hp /\ rename_param model_name param = Ok k.

(** The warning of [check_consistency] on groups. *)
Definition groups_warning : string :=
  "The parameter groups was specified but the CV strategy will not consider them.".

(** A value that [_prepare_hyperparams] does not put in the grid. *)
Definition not_tunable (item : string * hval) : Prop :=
  has_iter (snd item) && negb (is_str (snd item)) = false \/ hlen (snd item) <= 1.

Section StepKinds.

Context {Obj : Type} `{PyObject Obj} `{TransformerFactory Obj}.

(** A step that [_get_confound_transformer] refuses. *)
Definition bad_confound_step (s : step Obj) : Prop :=
  match s with
  | StepStr name => exists e, get_transformer name = Err e
  | StepList _ => True
  | StepObj o => _is_valid_sklearn_transformer o = false
  end.

End StepKinds.

(** A search wrapper that records what it is given, for evaluation. *)
Module ToySearch.

Record searched : Type := mkSearched {
  params_set : list (string * hval);
  search : option (list (string * hval) * splitter * option string)
}.

#[global] Instance pipeline : SkPipeline searched := {|
  pl_set_params p kv := Ok (mkSearched (params_set p ++ kv) (search p));
  pl_set_param := None
|}.

#[global] Instance wrapper : SearchWrapper searched := {|
  wrap_search p grid cv scoring := Ok (mkSearched (params_set p) (Some (grid, cv, scoring)))
|}.

End ToySearch.

(** * Properties *)

(** ** Python strings *)

Module PyStrFacts.
Import PyStr.

Lemma length_append (a b : string) :
  String.length (a +++ b) = String.length a + String.length b.
Proof. induction a as [|c a IH]; simpl; [reflexivity | now rewrite IH]. Qed.

Lemma append_assoc (a b c : string) : (a +++ b) +++ c = a +++ b +++ c.
Proof. induction a as [|d a IH]; simpl; [reflexivity | now rewrite IH]. Qed.

Lemma prefix_append (a b : string) : prefix a (a +++ b) = true.
Proof.
  induction a as [|c a IH]; simpl; [now destruct b|].
  destruct (ascii_dec c c) as [_|n]; [exact IH | now elim n].
Qed.

Lemma prefix_length (a s : string) :
  prefix a s = true -> String.length a <= String.length s.
Proof.
  revert s; induction a as [|c a IH]; intros s Hp; simpl; [lia|].
  destruct s as [|d s]; simpl in Hp; [discriminate|].
  destruct (ascii_dec c d); [|discriminate].
  simpl. apply IH in Hp. lia.
Qed.

Lemma drop_append_length (a b : string) : drop (String.length a) (a +++ b) = b.
Proof. induction a as [|c a IH]; simpl; [now destruct b | exact IH]. Qed.

Lemma take_append_length (a b : string) : take (String.length a) (a +++ b) = a.
Proof. induction a as [|c a IH]; simpl; [now destruct b | now rewrite IH]. Qed.

Lemma drop_add (n m : nat) (s : string) : drop (n + m) s = drop m (drop n s).
Proof.
  revert s; induction n as [|n IH]; intros s; simpl; [reflexivity|].
  destruct s as [|c s]; [now destruct m | apply IH].
Qed.

Lemma length_drop (n : nat) (s : string) :
  String.length (drop n s) = String.length s - n.
Proof.
  revert s; induction n as [|n IH]; intros s; simpl; [lia|].
  destruct s as [|c s]; simpl; [reflexivity | apply IH].
Qed.

(** [find] returns a position where the pattern fits. *)
Lemma find_some (sub s : string) (i : nat) :
  find sub s = Some i ->
  prefix sub (drop i s) = true /\ i + String.length sub <= String.length s.
Proof.
  revert i; induction s as [|c s IH]; intros i; cbn [find].
  - destruct (prefix sub EmptyString) eqn:Hp; [|discriminate].
    intros [= <-]. split; [exact Hp|]. apply prefix_length in Hp. simpl in *. lia.
  - destruct (prefix sub (String c s)) eqn:Hp.
    + intros [= <-]. split; [exact Hp|]. apply prefix_length in Hp. simpl in *. lia.
    + destruct (find sub s) as [j|] eqn:Hf; simpl; [|discriminate].
      intros [= <-]. destruct (IH j eq_refl) as [H1 H2]. simpl. split; [exact H1 | lia].
Qed.

(** After a cut the text left is shorter, so [split_fuel] never runs out
    of fuel when started with the length of the text. *)
Lemma split_fuel_enough (sep s : string) (f1 f2 : nat) :
  sep <> EmptyString ->
  String.length s <= f1 -> String.length s <= f2 ->
  split_fuel f1 sep s = split_fuel f2 sep s.
Proof.
  intros Hsep. revert s f2.
  induction f1 as [|f1 IH]; intros s f2 H1 H2.
  - destruct f2 as [|f2]; [reflexivity|]. simpl.
    destruct (find sep s) as [i|] eqn:Hf; [|reflexivity].
    apply find_some in Hf. destruct Hf as [_ Hf].
    destruct sep; [now elim Hsep|]. simpl in Hf. lia.
  - simpl. destruct (find sep s) as [i|] eqn:Hf.
    + pose proof (find_some _ _ _ Hf) as [_ Hb].
      assert (Hlen : 0 < String.length sep)
        by (destruct sep; [now elim Hsep | simpl; lia]).
      destruct f2 as [|f2]; [lia|]. simpl. rewrite Hf. f_equal.
      apply IH; rewrite length_drop; lia.
    + destruct f2; simpl; [reflexivity | now rewrite Hf].
Qed.

(** The equation of [str.split]. *)
Lemma split_equation (sep s : string) :
  sep <> EmptyString ->
  split sep s =
  Ok (match find sep s with
      | None => [s]
      | Some i =>
          let rest := drop (i + String.length sep) s in
          take i s :: split_fuel (String.length rest) sep rest
      end).
Proof.
  intros Hsep. unfold split. destruct sep as [|c sep']; [now elim Hsep|].
  set (sep := String c sep') in *. f_equal.
  destruct (String.length s) as [|n] eqn:Hn; simpl.
  - destruct (find sep s) as [i|] eqn:Hf; [|reflexivity].
    apply find_some in Hf. subst sep. simpl in Hf. lia.
  - destruct (find sep s) as [i|] eqn:Hf; [|reflexivity].
    cbv zeta. f_equal. pose proof (find_some _ _ _ Hf) as [_ Hb].
    apply split_fuel_enough; [exact Hsep | | lia].
    rewrite length_drop. subst sep. simpl in *. lia.
Qed.

Lemma split_fuel_nonempty (fuel : nat) (sep s : string) :
  split_fuel fuel sep s <> [].
Proof. destruct fuel; simpl; [discriminate|]. now destruct (find sep s). Qed.

Lemma split_fuel_no_sep (fuel : nat) (sep s : string) :
  find sep s = None -> split_fuel fuel sep s = [s].
Proof. intros Hf. destruct fuel; simpl; [reflexivity | now rewrite Hf]. Qed.

(** A one-character pattern is first found at the end of a text that does
    not contain it. *)
Lemma find_char_append (c : ascii) (a b : string) :
  find (String c EmptyString) a = None ->
  find (String c EmptyString) (a +++ String c b) = Some (String.length a).
Proof.
  induction a as [|d a IH]; intros Hf.
  - simpl. destruct (ascii_dec c c) as [_|n]; [|now elim n]. now destruct b.
  - cbn [find] in Hf. cbn [String.append find String.length].
    destruct (prefix (String c EmptyString) (String d a)) eqn:Hp1; [discriminate|].
    destruct (find (String c EmptyString) a) eqn:Hfa; [discriminate|].
    assert (Hp2 : prefix (String c EmptyString) (String d (a +++ String c b)) = false).
    { simpl in *. destruct (ascii_dec c d); [|reflexivity]. now destruct a. }
    rewrite Hp2, (IH eq_refl). reflexivity.
Qed.

End PyStrFacts.

(** ** The column type codec *)

Section ColumnType.
Import PyStr PyStrFacts.

(** What [_get_column_type] computes, in terms of occurrences of the
    separator: the name is cut at the first occurrence; the text after it
    is the type when it holds no further occurrence; without occurrence,
    or with a further one, the type is ['continuous']. *)
Lemma get_column_type_cases (sep column : string) :
  sep <> EmptyString ->
  _get_column_type sep column =
  Ok (match find sep column with
      | None => "continuous"
      | Some i =>
          let rest := drop (i + String.length sep) column in
          match find sep rest with
          | None => rest
          | Some _ => "continuous"
          end
      end).
Proof.
  intros Hsep. unfold _get_column_type. rewrite (split_equation _ _ Hsep).
  cbn [bind]. destruct (find sep column) as [i|]; [|reflexivity].
  cbv zeta. set (rest := drop (i + String.length sep) column).
  destruct (find sep rest) as [j|] eqn:Hr.
  - pose proof (find_some _ _ _ Hr) as [_ Hb].
    destruct (String.length rest) as [|n] eqn:Hn.
    + destruct sep; [now elim Hsep | simpl in Hb; lia].
    + cbn [split_fuel]. rewrite Hr.
      pose proof (split_fuel_nonempty n sep (drop (j + String.length sep) rest)) as Hne.
      destruct (split_fuel n sep (drop (j + String.length sep) rest)); [now elim Hne|].
      reflexivity.
  - rewrite (split_fuel_no_sep _ _ _ Hr). reflexivity.
Qed.

(** Decoding an encoded name: when the separator is first found where it
    was inserted and the tag holds no separator, the tag is recovered. *)
Lemma get_column_type_encode (sep base tag : string) :
  sep <> EmptyString ->
  find sep (base +++ sep +++ tag) = Some (String.length base) ->
  find sep tag = None ->
  _get_column_type sep (base +++ sep +++ tag) = Ok tag.
Proof.
  intros Hsep Hfirst Htag. rewrite (get_column_type_cases _ _ Hsep), Hfirst.
  cbv zeta. rewrite drop_add, !drop_append_length, Htag. reflexivity.
Qed.

Lemma endswith_cons (c : ascii) (s suffix : string) :
  endswith (String c s) suffix = false ->
  String c s <> suffix /\ endswith s suffix = false.
Proof.
  cbn [endswith]. intros Hor. apply orb_false_iff in Hor. destruct Hor as [He Hs].
  split; [|exact Hs]. intros E. rewrite E, String.eqb_refl in He. discriminate He.
Qed.

(** The default separator fits at the head of [u ++ sep ++ tag] only if
    it fits at the head of [u], or [u] is one of its two borders that the
    separator itself completes. *)
Lemma default_sep_overlap (u tag : string) :
  u <> EmptyString ->
  prefix default_sep u = false ->
  u <> "__:type:" -> u <> "__:type:_" ->
  prefix default_sep (u +++ default_sep +++ tag) = false.
Proof.
  unfold default_sep. intros Hne Hp H8 H9.
  destruct u as [|c1 u]; [now elim Hne|]. clear Hne.
  cbn [prefix String.append] in *.
  do 9 (try (destruct (ascii_dec _ _) as [<-|]; [|reflexivity];
        destruct u as [|? u]; cbn [prefix String.append] in *;
        [ try reflexivity; try (now elim H8); try (now elim H9) | ])).
  destruct (ascii_dec _ _) as [<-|]; [|reflexivity]. now destruct u.
Qed.

Lemma default_sep_found_at_join (base tag : string) :
  find default_sep base = None ->
  endswith base "__:type:" = false ->
  endswith base "__:type:_" = false ->
  find default_sep (base +++ default_sep +++ tag) = Some (String.length base).
Proof.
  induction base as [|c base IH]; intros Hf H8 H9.
  - cbn [String.append String.length]. 
    change (find default_sep (default_sep +++ tag)) with
      (if prefix default_sep (default_sep +++ tag) then Some 0
       else option_map S (find default_sep (PyStr.drop 1 (default_sep +++ tag)))).
    now rewrite prefix_append.
  - cbn [find] in Hf.
    destruct (prefix default_sep (String c base)) eqn:Hp; [discriminate|].
    destruct (find default_sep base) eqn:Hfb; [discriminate|].
    apply endswith_cons in H8, H9. destruct H8 as [N8 H8], H9 as [N9 H9].
    cbn [String.append find String.length].
    change (String c (base +++ default_sep +++ tag))
      with (String c base +++ default_sep +++ tag).
    rewrite (default_sep_overlap (String c base) tag); try assumption; [|discriminate].
    cbn [String.append]. rewrite (IH eq_refl H8 H9). reflexivity.
Qed.

End ColumnType.

(** ** Cross-validation strings *)

Section CvStrings.
Import PyStr PyStrFacts.

Lemma find_char_cons (c d : ascii) (s : string) :
  find (String c EmptyString) (String d s) = None <->
  c <> d /\ find (String c EmptyString) s = None.
Proof.
  cbn [find prefix]. destruct (ascii_dec c d) as [->|Hcd].
  - destruct s; split; try discriminate; intros [Hn _]; now elim Hn.
  - destruct (find (String c EmptyString) s); simpl; split;
      try discriminate; try tauto. intros [_ Hf]. discriminate Hf.
Qed.

Lemma lstrip_empty_no_char (c : ascii) (s : string) :
  is_space c = false -> lstrip s = EmptyString ->
  find (String c EmptyString) s = None.
Proof.
  intros Hc. induction s as [|d s IH]; intros Hs; [reflexivity|].
  cbn [lstrip] in Hs. destruct (is_space d) eqn:Hd; [|discriminate].
  apply find_char_cons. split; [|now apply IH]. intros ->. congruence.
Qed.

Lemma lstrip_no_char (c : ascii) (s : string) :
  is_space c = false ->
  find (String c EmptyString) (lstrip s) = None ->
  find (String c EmptyString) s = None.
Proof.
  intros Hc. induction s as [|d s IH]; intros Hs; [reflexivity|].
  cbn [lstrip] in Hs. destruct (is_space d) eqn:Hd; [|exact Hs].
  apply find_char_cons. split; [|now apply IH]. intros ->. congruence.
Qed.

Lemma digits_then_space_no_char (c : ascii) (s : string) (acc n : N) (seen : bool) :
  is_space c = false -> is_digit c = false ->
  digits_then_space s acc seen = Some n ->
  find (String c EmptyString) s = None.
Proof.
  intros Hs Hd. revert acc seen.
  induction s as [|d s IH]; intros acc seen Hn; [reflexivity|].
  cbn [digits_then_space] in Hn. apply find_char_cons.
  destruct (is_digit d) eqn:Hdd.
  - split; [intros ->; congruence | eapply IH; exact Hn].
  - destruct seen; [|discriminate]. destruct (is_space d) eqn:Hsd; [|discriminate].
    cbn [andb] in Hn. destruct (lstrip s) eqn:Hl; [|discriminate].
    split; [intros ->; congruence | now apply lstrip_empty_no_char].
Qed.

(** A text that [int] accepts is made of spaces, a sign and digits. *)
Lemma int_no_char (c : ascii) (s : string) (z : Z) :
  is_space c = false -> is_digit c = false -> c <> "-"%char -> c <> "+"%char ->
  int s = Some z ->
  find (String c EmptyString) s = None.
Proof.
  intros Hs Hd Hm Hp Hz. apply lstrip_no_char; [exact Hs|].
  unfold int in Hz.
  assert (Hgen : forall t n, digits_then_space t 0 false = Some n ->
                             find (String c EmptyString) t = None)
    by (intros t n; apply digits_then_space_no_char; assumption).
  destruct (lstrip s) as [|d t] eqn:Hl; [reflexivity|].
  assert (Hrest : forall n, digits_then_space t 0 false = Some n ->
                            c <> d -> find (String c EmptyString) (String d t) = None).
  { intros n Hn Hcd. apply find_char_cons. split; [exact Hcd | eapply Hgen; exact Hn]. }
  destruct (Ascii.eqb_spec d "-") as [->|Hnm].
  - destruct (digits_then_space t 0 false) eqn:Hdt; [|discriminate]. eapply Hrest; eauto.
  - destruct (Ascii.eqb_spec d "+") as [->|Hnp].
    + destruct (digits_then_space t 0 false) eqn:Hdt; [|discriminate]. eapply Hrest; eauto.
    + destruct (digits_then_space (String d t) 0 false) eqn:Hdt; [|discriminate].
      eapply Hgen; exact Hdt.
Qed.

Lemma split_two (c : ascii) (a b : string) :
  find (String c EmptyString) a = None ->
  find (String c EmptyString) b = None ->
  split (String c EmptyString) (a +++ String c b) = Ok [a; b].
Proof.
  intros Ha Hb. rewrite split_equation by discriminate.
  rewrite (find_char_append c a b Ha). cbv zeta.
  rewrite take_append_length, drop_add, drop_append_length.
  cbn [String.length drop]. now rewrite (split_fuel_no_sep _ _ _ Hb).
Qed.

Lemma find_append_none (c : ascii) (a b : string) :
  find (String c EmptyString) a = None ->
  find (String c EmptyString) b = None ->
  find (String c EmptyString) (a +++ b) = None.
Proof.
  intros Ha Hb. induction a as [|d a IH]; [exact Hb|].
  apply find_char_cons in Ha. destruct Ha as [Hcd Ha].
  cbn [String.append]. apply find_char_cons. split; [exact Hcd | now apply IH].
Qed.

(** [int(name.split(':')[-1])] reads the integer after the field name. *)
Lemma int_after_colon_field (name r : string) (z : Z) :
  find ":" name = None ->
  int r = Some z ->
  int_after_colon (name +++ ":" +++ r) = Ok z.
Proof.
  intros Hname Hr. unfold int_after_colon.
  change (name +++ ":" +++ r) with (name +++ String ":" r).
  rewrite split_two; [cbn [bind last]; now rewrite Hr | exact Hname |].
  eapply int_no_char; [reflexivity | reflexivity | discriminate | discriminate | exact Hr].
Qed.

(** Only the positions count: whatever the two field names (without ['_']
    and [':']), the first integer is the number of repetitions and the
    second the number of folds. *)
Lemma parser_positional (n1 n2 r f : string) (zr zf : Z) :
  find "_" n1 = None -> find ":" n1 = None ->
  find "_" n2 = None -> find ":" n2 = None ->
  int r = Some zr -> int f = Some zf -> (0 < zr)%Z ->
  parser (n1 +++ ":" +++ r +++ "_" +++ n2 +++ ":" +++ f) = Ok (RepeatedKFold zf zr).
Proof.
  intros H1 H1' H2 H2' Hr Hf Hpos. unfold parser.
  assert (Hr_ : find "_" r = None)
    by (eapply int_no_char; [reflexivity | reflexivity | discriminate | discriminate | exact Hr]).
  assert (Hf_ : find "_" f = None)
    by (eapply int_no_char; [reflexivity | reflexivity | discriminate | discriminate | exact Hf]).
  replace (n1 +++ ":" +++ r +++ "_" +++ n2 +++ ":" +++ f)
    with ((n1 +++ ":" +++ r) +++ String "_" (n2 +++ ":" +++ f)).
  2:{ now rewrite !append_assoc. }
  rewrite split_two.
  - cbn [bind]. rewrite (int_after_colon_field n1 r zr H1' Hr).
    rewrite (int_after_colon_field n2 f zf H2' Hf). cbn [bind].
    unfold new_RepeatedKFold. destruct (Z.leb_spec zr 0); [lia | reflexivity].
  - repeat apply find_append_none; try assumption; reflexivity.
  - repeat apply find_append_none; try assumption; reflexivity.
Qed.

Lemma parser_ok_iff (s : string) (sp : splitter) :
  parser s = Ok sp <->
  exists a b zr zf,
    split "_" s = Ok [a; b] /\ int_after_colon a = Ok zr /\
    int_after_colon b = Ok zf /\ (0 < zr)%Z /\ sp = RepeatedKFold zf zr.
Proof.
  unfold parser. split.
  - destruct (split "_" s) as [parts|e]; [|discriminate]. cbn [bind].
    destruct parts as [|a [|b [|c parts]]]; try discriminate.
    destruct (int_after_colon a) as [zr|] eqn:Ha; [|discriminate].
    destruct (int_after_colon b) as [zf|] eqn:Hb; [|discriminate]. cbn [bind].
    unfold new_RepeatedKFold. destruct (Z.leb_spec zr 0); [discriminate|].
    intros [= <-]. exists a, b, zr, zf. repeat split; auto.
  - intros (a & b & zr & zf & Hs & Ha & Hb & Hpos & ->).
    rewrite Hs. cbn [bind]. rewrite Ha, Hb. cbn [bind].
    unfold new_RepeatedKFold. destruct (Z.leb_spec zr 0); [lia | reflexivity].
Qed.

Lemma parser_error (s : string) (e : error) :
  parser s = Err e -> exists msg, e = ValueError msg.
Proof.
  unfold parser, split. cbn [bind].
  assert (Hint : forall a e', int_after_colon a = Err e' -> exists msg, e' = ValueError msg).
  { intros a e'. unfold int_after_colon, split. cbn [bind].
    destruct (int _); [discriminate|]. intros [= <-]. eauto. }
  destruct (split_fuel _ _ s) as [|a [|b [|c parts]]];
    try (intros [= <-]; eauto; fail).
  destruct (int_after_colon a) as [zr|e1] eqn:Ha; cbn [bind];
    [|intros [= <-]; eapply Hint; exact Ha].
  destruct (int_after_colon b) as [zf|e2] eqn:Hb; cbn [bind];
    [|intros [= <-]; eapply Hint; exact Hb].
  unfold new_RepeatedKFold. destruct (zr <=? 0)%Z; [|discriminate].
  intros [= <-]. eauto.
Qed.

End CvStrings.

(** ** Data frames *)

Section FrameFacts.

Context {Col : Type}.
Implicit Types (X : DataFrame Col) (l : string) (ls : list string).

Lemma in_labels_iff l ls : in_labels l ls = true <-> In l ls.
Proof.
  unfold in_labels. rewrite existsb_exists. split.
  - intros (x & Hx & He). apply String.eqb_eq in He. now subst.
  - intros Hl. exists l. split; [exact Hl | apply String.eqb_refl].
Qed.

Lemma in_labels_false l ls : in_labels l ls = false <-> ~ In l ls.
Proof.
  rewrite <- in_labels_iff. destruct (in_labels l ls); split; congruence.
Qed.

Lemma has_dup_false ls : has_dup ls = false <-> NoDup ls.
Proof.
  induction ls as [|l ls IH]; cbn [has_dup].
  - split; [constructor | reflexivity].
  - rewrite orb_false_iff, IH, in_labels_false. split.
    + intros [Hn Hd]. now constructor.
    + intros Hd. inversion Hd; subst. now split.
Qed.


Lemma select_label_in X l c : In c (select_label X l) <-> In c X /\ fst c = l.
Proof.
  unfold select_label. rewrite filter_In. now rewrite String.eqb_eq.
Qed.

Lemma select_label_nonempty X l : In l (columns X) -> select_label X l <> [].
Proof.
  unfold columns. rewrite in_map_iff. intros (c & Hc & Hin) Hnil.
  assert (Hs : In c (select_label X l)) by (apply select_label_in; now split).
  rewrite Hnil in Hs. exact Hs.
Qed.

(** Under unique labels a label selects its one column. *)
Lemma select_label_unique X l :
  NoDup (columns X) -> In l (columns X) ->
  exists c, select_label X l = [(l, c)] /\ lookup l X = Some c.
Proof.
  induction X as [|[l' c'] X IH]; intros Hnd Hin; [now elim Hin|].
  cbn [columns map fst] in Hnd, Hin. inversion Hnd as [|? ? Hnot Hnd']; subst.
  unfold select_label. cbn [filter fst lookup].
  destruct (String.eqb_spec l' l) as [->|Hne].
  - exists c'. split; [|reflexivity]. f_equal.
    assert (Hnone : forall Y, ~ In l (columns Y) ->
              filter (fun c : string * Col => String.eqb (fst c) l) Y = []).
    { induction Y as [|[a b] Y IHY]; intros Hn; [reflexivity|].
      cbn [filter fst]. cbn [columns map fst] in Hn.
      destruct (String.eqb_spec a l) as [->|_]; [elim Hn; now left|].
      apply IHY. intros Hy. apply Hn. now right. }
    now apply Hnone.
  - destruct Hin as [Heq|Hin]; [now elim Hne|].
    destruct (IH Hnd' Hin) as (c & Hs & Hl). exists c. now split.
Qed.

Lemma loc_list_ok X ls :
  incl ls (columns X) ->
  loc_list X ls = Ok (flat_map (select_label X) ls).
Proof.
  induction ls as [|l ls IH]; intros Hincl; [reflexivity|].
  cbn [loc_list flat_map].
  assert (Hl : In l (columns X)) by (apply Hincl; now left).
  pose proof (select_label_nonempty X l Hl) as Hne.
  rewrite IH by (intros x Hx; apply Hincl; now right).
  destruct (select_label X l); [now elim Hne | reflexivity].
Qed.

Lemma loc_list_labels X ls slice :
  loc_list X ls = Ok slice -> forall c, In c slice -> In c X /\ In (fst c) ls.
Proof.
  revert slice; induction ls as [|l ls IH]; intros slice Hs c Hc.
  - injection Hs as <-. now elim Hc.
  - cbn [loc_list] in Hs. destruct (select_label X l) as [|c0 cs] eqn:Hsel; [discriminate|].
    destruct (loc_list X ls) as [rest|]; [|discriminate]. cbn [bind] in Hs.
    injection Hs as <-. change (In c ((c0 :: cs) ++ rest)) in Hc.
    apply in_app_or in Hc. destruct Hc as [Hc|Hc].
    + rewrite <- Hsel in Hc. apply select_label_in in Hc. destruct Hc as [Hc <-].
      split; [exact Hc | now left].
    + destruct (IH rest eq_refl c Hc) as [H1 H2]. split; [exact H1 | now right].
Qed.

Lemma loc_list_incl X ls slice : loc_list X ls = Ok slice -> incl ls (columns X).
Proof.
  revert slice; induction ls as [|l ls IH]; intros slice Hs x Hx; [now elim Hx|].
  cbn [loc_list] in Hs. destruct (select_label X l) as [|c0 cs] eqn:Hsel; [discriminate|].
  destruct (loc_list X ls) as [rest|] eqn:Hr; [|discriminate].
  destruct Hx as [<-|Hx]; [|now apply (IH rest)].
  assert (Hc : In c0 (select_label X l)) by (rewrite Hsel; now left).
  apply select_label_in in Hc. destruct Hc as [Hc <-]. now apply in_map.
Qed.

(** Under unique labels the slice carries exactly the requested labels. *)
Lemma slice_columns X ls :
  NoDup (columns X) -> incl ls (columns X) ->
  columns (flat_map (select_label X) ls) = ls.
Proof.
  intros Hnd. induction ls as [|l ls IH]; intros Hincl; [reflexivity|].
  cbn [flat_map]. unfold columns in *. rewrite map_app.
  destruct (select_label_unique X l Hnd) as (c & -> & _); [apply Hincl; now left|].
  cbn [map fst app]. f_equal. apply IH. intros x Hx. apply Hincl. now right.
Qed.

Lemma drop_columns_ok X ls :
  incl ls (columns X) ->
  drop_columns X ls = Ok (filter (fun c => negb (in_labels (fst c) ls)) X).
Proof.
  intros Hincl. unfold drop_columns.
  destruct (find _ ls) as [l|] eqn:Hf; [|reflexivity].
  apply find_some in Hf. destruct Hf as [Hl Hn].
  apply negb_true_iff, in_labels_false in Hn. elim Hn. now apply Hincl.
Qed.

Lemma lookup_in X l c : lookup l X = Some c -> In (l, c) X.
Proof.
  induction X as [|[l' c'] X IH]; [discriminate|]. cbn [lookup].
  destruct (String.eqb_spec l' l) as [->|_].
  - intros [= ->]. now left.
  - intros Hl. right. now apply IH.
Qed.

Lemma lookup_none X l : lookup l X = None <-> ~ In l (columns X).
Proof.
  induction X as [|[l' c'] X IH]; cbn [lookup columns map fst].
  - split; [intros _ [] | reflexivity].
  - destruct (String.eqb_spec l' l) as [->|Hne].
    + split; [discriminate | intros Hn; elim Hn; now left].
    + rewrite IH. unfold columns. split; [intros Hn [He|Hi]; auto | intros Hn Hi; apply Hn; now right].
Qed.

Lemma lookup_nodup X l c : NoDup (columns X) -> In (l, c) X -> lookup l X = Some c.
Proof.
  induction X as [|[l' c'] X IH]; intros Hnd Hin; [now elim Hin|].
  cbn [columns map fst] in Hnd. inversion Hnd as [|? ? Hnot Hnd']; subst.
  cbn [lookup]. destruct Hin as [[= -> ->]|Hin].
  - now rewrite String.eqb_refl.
  - destruct (String.eqb_spec l' l) as [->|_]; [|now apply IH].
    elim Hnot. change l with (fst (l, c)). now apply in_map.
Qed.

Lemma lookup_app X Y l :
  lookup l (X ++ Y) = match lookup l X with Some c => Some c | None => lookup l Y end.
Proof.
  induction X as [|[l' c'] X IH]; [reflexivity|]. cbn [app lookup].
  destruct (String.eqb l' l); [reflexivity | exact IH].
Qed.



Lemma columns_combine (names : list string) (vals : list Col) :
  List.length names = List.length vals -> columns (combine names vals) = names.
Proof.
  revert vals; induction names as [|n names IH]; intros [|v vals] Hlen;
    try discriminate; [reflexivity|].
  cbn [combine columns map fst]. f_equal. apply IH. now injection Hlen.
Qed.


End FrameFacts.

(** ** The wrapper *)

Section WrapperFacts.

Context {T Col : Type} `{SkTransformer T Col} `{ColumnData Col}.
Implicit Types (self : DataFrameTransformer T) (X : DataFrame Col).

Lemma concat_two (A B : DataFrame Col) : concat_columns [A; B] = A ++ B.
Proof. unfold concat_columns. cbn [List.concat]. now rewrite app_nil_r. Qed.

Lemma set_columns_ok X (names : list string) Y :
  set_columns X names = Ok Y ->
  Y = combine names (map snd X) /\ List.length names = List.length X /\ columns Y = names.
Proof.
  unfold set_columns. destruct (Nat.eqb_spec (List.length names) (List.length X)) as [Hl|];
    [|discriminate].
  intros [= <-]. repeat split; [exact Hl|]. apply columns_combine. now rewrite length_map.
Qed.

(** [fit] stores the columns that the selector resolves to on the table
    it is given, and changes nothing else of the configuration. *)
Lemma fit_stores_columns self (A : DataFrame Col) (y : option Col) fitted :
  fit self A y = Ok fitted ->
  exists cols,
    _set_columns_to_transform self A = Ok cols /\
    transform_column_ fitted = Some cols /\
    transform_column fitted = transform_column self /\
    returned_features fitted = returned_features self /\
    column_type_sep fitted = column_type_sep self.
Proof.
  unfold fit. destruct (_set_columns_to_transform self A) as [cols|]; [|discriminate].
  cbn [bind]. destruct (loc_list A cols); [|discriminate]. cbn [bind].
  destruct (sk_fit _ _ _); [|discriminate]. intros [= <-]. exists cols. now repeat split.
Qed.

(** Whatever the policy, a column of [X_rest] whose label is not a label
    of the slice is a column of the result. *)
Lemma reassemble_keeps_rest self X X_transform X_rest o out l (v : Col) :
  reassemble self X X_transform X_rest o = Ok out ->
  In (l, v) X_rest -> In l (columns X) -> ~ In l (columns X_transform) ->
  In (l, v) out.
Proof.
  intros Hre Hin HlX Hnot. unfold reassemble in Hre. cbv zeta in Hre.
  destruct (String.eqb (returned_features self) "same").
  { destruct (set_columns (as_frame o) (columns X_transform)) as [Xt|] eqn:Hset;
      [|discriminate].
    cbn [bind] in Hre. apply set_columns_ok in Hset. destruct Hset as (_ & _ & Hcols).
    rewrite concat_two in Hre. unfold reindex_columns in Hre.
    destruct (list_eqb (columns (Xt ++ X_rest)) (columns X)).
    { injection Hre as <-. apply in_or_app. now right. }
    destruct (has_dup (columns (Xt ++ X_rest))) eqn:Hdup; [discriminate|].
    injection Hre as <-. apply has_dup_false in Hdup.
    unfold columns in Hdup. rewrite map_app in Hdup. apply NoDup_app_remove_l in Hdup.
    apply in_map_iff. exists l. split; [|exact HlX]. f_equal.
    rewrite lookup_app.
    assert (Hnone : lookup l Xt = None) by (apply lookup_none; now rewrite Hcols).
    rewrite Hnone. now rewrite (lookup_nodup X_rest l v Hdup Hin). }
  destruct (String.eqb (returned_features self) "subset").
  { destruct (sk_get_support (transformer self)) as [gs|]; [|discriminate].
    destruct (gs false) as [s|]; [|discriminate]. cbn [bind] in Hre.
    destruct (index_by_support _ s); [|discriminate]. cbn [bind] in Hre.
    destruct (set_columns _ _); [|discriminate]. cbn [bind] in Hre.
    rewrite concat_two in Hre. injection Hre as <-. apply in_or_app. now right. }
  destruct (String.eqb (returned_features self) "unknown").
  { destruct (set_columns _ _); [|discriminate]. cbn [bind] in Hre.
    rewrite concat_two in Hre. injection Hre as <-. apply in_or_app. now right. }
  destruct (String.eqb (returned_features self) "unknown_same_type").
  { destruct (same_type_refused _); [discriminate|].
    destruct (mapM _ _); [|discriminate]. cbn [bind] in Hre.
    destruct (set_columns _ _); [|discriminate]. cbn [bind] in Hre.
    rewrite concat_two in Hre. injection Hre as <-. apply in_or_app. now right. }
  destruct (String.eqb (returned_features self) "from_transformer"); [|discriminate].
  rewrite concat_two in Hre. injection Hre as <-. apply in_or_app. now left.
Qed.

(** The slice and the rest that [transform] computes on a table holding
    the stored columns. *)
Lemma transform_slices self X cols :
  transform_column_ self = Some cols ->
  incl cols (columns X) ->
  transform self X =
  (X_transformed <- sk_transform (transformer self) (flat_map (select_label X) cols) ;;
   reassemble self X (flat_map (select_label X) cols)
     (filter (fun c => negb (in_labels (fst c) cols)) X) X_transformed).
Proof.
  intros Hcols Hincl. unfold transform. rewrite Hcols. cbn [bind].
  rewrite (loc_list_ok X cols Hincl). cbn [bind].
  rewrite (drop_columns_ok X cols Hincl). reflexivity.
Qed.

End WrapperFacts.

(** ** Claims on the wrapper *)

Section WrapperClaims.

Context {T Col : Type} `{SkTransformer T Col} `{ColumnData Col}.
Implicit Types (self : DataFrameTransformer T) (X : DataFrame Col).

(** C1.  A wrapper fitted on a table [A], given a table [B] that holds
    all the columns resolved at fit time, slices [B] by the list frozen by
    [fit] (the resolution of the selector on [A], not on [B]): the wrapped
    transformer receives the columns of [B] with those labels and no
    other, and every other column of [B] is a column of the result,
    label and content unchanged. *)
Theorem transform_uses_fit_time_columns self (A B : DataFrame Col)
    (y : option Col) fitted :
  fit self A y = Ok fitted ->
  (forall cols, transform_column_ fitted = Some cols -> incl cols (columns B)) ->
  exists cols,
    _set_columns_to_transform self A = Ok cols /\
    transform_column_ fitted = Some cols /\
    let X_transform := flat_map (select_label B) cols in
    let X_rest := filter (fun c => negb (in_labels (fst c) cols)) B in
    (forall c, In c X_transform -> In c B /\ In (fst c) cols) /\
    (forall c, In c X_rest <-> In c B /\ ~ In (fst c) cols) /\
    transform fitted B =
      (X_transformed <- sk_transform (transformer fitted) X_transform ;;
       reassemble fitted B X_transform X_rest X_transformed) /\
    (forall out c, transform fitted B = Ok out ->
                   In c B -> ~ In (fst c) cols -> In c out).
Proof.
  intros Hfit Hincl.
  destruct (fit_stores_columns _ _ _ _ Hfit) as (cols & Hset & Hcols & _).
  specialize (Hincl cols Hcols). exists cols. split; [exact Hset|].
  split; [exact Hcols|]. cbv zeta.
  assert (Hslice : forall c, In c (flat_map (select_label B) cols) ->
                             In c B /\ In (fst c) cols).
  { intros c Hc. apply in_flat_map in Hc. destruct Hc as (l & Hl & Hc).
    apply select_label_in in Hc. destruct Hc as [Hc <-]. now split. }
  assert (Hrest : forall c, In c (filter (fun c => negb (in_labels (fst c) cols)) B)
                            <-> In c B /\ ~ In (fst c) cols).
  { intros c. now rewrite filter_In, negb_true_iff, in_labels_false. }
  split; [exact Hslice|]. split; [exact Hrest|].
  split; [now apply transform_slices|].
  intros out [l v] Hout Hc Hn. rewrite (transform_slices _ _ _ Hcols Hincl) in Hout.
  destruct (sk_transform _ _) as [o|]; [|discriminate]. cbn [bind] in Hout.
  eapply reassemble_keeps_rest; [exact Hout | | |].
  - apply Hrest. now split.
  - change l with (fst (l, v)). now apply in_map.
  - intros Hin. apply Hn. unfold columns in Hin. apply in_map_iff in Hin.
    destruct Hin as (c & <- & Hc'). exact (proj2 (Hslice c Hc')).
Qed.



(** The stored columns may not repeat a label under the policy ['same']:
    the reassembled frame then carries the label twice and cannot be
    reindexed. *)
Remark transform_same_repeated_label self l (c : Col) o :
  returned_features self = "same" ->
  transform_column_ self = Some [l; l] ->
  sk_transform (transformer self) [(l, c); (l, c)] = Ok o ->
  List.length (as_frame o) = 2 ->
  transform self [(l, c)] =
  Err (ValueError "cannot reindex on an axis with duplicate labels").
Proof.
  intros Hrf Hcols Ho Hlen. unfold transform. rewrite Hcols. cbn [bind loc_list].
  unfold select_label, drop_columns. cbn [filter fst List.find columns map in_labels existsb].
  rewrite String.eqb_refl. cbn [bind app negb orb List.find filter].
  rewrite Ho. cbn [bind]. unfold reassemble. cbv zeta. rewrite Hrf.
  cbn [String.eqb Ascii.eqb Bool.eqb columns map fst].
  destruct (as_frame o) as [|[a1 v1] [|[a2 v2] [|]]]; try discriminate.
  unfold set_columns. cbn [List.length Nat.eqb bind combine map snd].
  rewrite concat_two. unfold reindex_columns, list_eqb.
  cbn [app columns map fst has_dup in_labels existsb].
  destruct (list_eq_dec string_dec [l; l] [l]); [discriminate|].
  now rewrite String.eqb_refl.
Qed.

(** The guard of the policy ['unknown_same_type'] refuses the keywords
    ['all'] and ['all_features'] and the lists of more than one entry. *)
Lemma same_type_refused_iff (tc : selector) :
  same_type_refused tc = true <->
  tc = SelStr "all" \/ tc = SelStr "all_features" \/
  exists l, tc = SelList l /\ 1 < List.length l.
Proof.
  destruct tc as [s|l]; cbn [same_type_refused orb in_labels existsb].
  - rewrite !orb_true_iff, !String.eqb_eq. split.
    + intros [->|[->|Hf]]; [now left | now right; left | discriminate].
    + intros [[= ->]|[[= ->]|(l & Hl & _)]]; [now left | now right; left | discriminate].
  - rewrite orb_false_r, Nat.ltb_lt. split.
    + intros Hl. right. right. now exists l.
    + intros [Hs|[Hs|(l' & [= <-] & Hl)]]; [discriminate | discriminate | exact Hl].
Qed.

(** C10.  When the wrapped transformer has [get_support], the wrapper
    calls it with the flag it was given and returns Python's [None]
    whatever mask or positions the call returns; only an error of the
    call comes through. *)
Theorem get_support_returns_none self (indices : bool)
    (f : bool -> result support) :
  sk_get_support (transformer self) = Some f ->
  get_support self indices =
    match f indices with
    | Ok _ => Ok None
    | Err e => Err e
    end.
Proof.
  intros Hf. unfold get_support. rewrite Hf. now destruct (f indices).
Qed.

End WrapperClaims.

(** ** Generated names under ['unknown_same_type'] *)

Section GeneratedNames.

Context {T Col : Type} `{SkTransformer T Col} `{ColumnData Col}.

Lemma digits_no_default_sep (d : Decimal.uint) :
  PyStr.find default_sep (NilEmpty.string_of_uint d) = None.
Proof. induction d; cbn [NilEmpty.string_of_uint]; try reflexivity;
         unfold default_sep in *; cbn [PyStr.find prefix]; now rewrite IHd. Qed.

(** The labels "0", "1", ... of an array hold no separator. *)
Lemma of_nat_no_default_sep (n : nat) :
  PyStr.find default_sep (PyStr.of_nat n) = None.
Proof.
  unfold PyStr.of_nat, NilZero.string_of_uint.
  destruct (Nat.to_uint n) eqn:E; try (rewrite <- E; apply digits_no_default_sep).
  reflexivity.
Qed.

Lemma map_snd_combine {A B : Type} (a : list A) (b : list B) :
  List.length a = List.length b -> map snd (combine a b) = b.
Proof.
  revert b; induction a as [|x a IH]; intros [|y b] Hl; try discriminate; [reflexivity|].
  cbn [combine map snd]. f_equal. apply IH. now injection Hl.
Qed.

Lemma array_names_continuous (name : string) (k n : nat) :
  mapM (fun '(n_column, column) =>
          t <- _get_column_type default_sep column ;;
          Ok (component_name name n_column default_sep t))
       (enumerate_from k (map PyStr.of_nat (seq k n)))
  = Ok (map (fun n_column => component_name name n_column default_sep "continuous")
            (seq k n)).
Proof.
  revert k; induction n as [|n IH]; intros k; [reflexivity|].
  cbn [seq map enumerate_from mapM].
  rewrite get_column_type_cases by discriminate.
  rewrite of_nat_no_default_sep. cbn [bind]. rewrite IH. reflexivity.
Qed.

(** For a transformer that returns an array, the policy
    ['unknown_same_type'] names the columns as the policy ['unknown']
    does: every generated name is tagged ['continuous'], whatever the tags
    of the selected columns. *)
Lemma unknown_same_type_on_array (self : DataFrameTransformer T)
    (X X_transform X_rest : DataFrame Col) (cs : list Col) :
  returned_features self = "unknown_same_type" ->
  column_type_sep self = default_sep ->
  same_type_refused (transform_column self) = false ->
  reassemble self X X_transform X_rest (OutArray cs) =
  Ok (combine
        (map (fun n_column =>
                component_name (PyStr.lower (sk_class_name (transformer self)))
                  n_column default_sep "continuous")
             (seq 0 (List.length cs))) cs
      ++ X_rest).
Proof.
  intros Hrf Hsep Hok. unfold reassemble. cbv zeta. rewrite Hrf, Hsep, Hok.
  cbn [String.eqb Ascii.eqb Bool.eqb as_frame].
  rewrite columns_combine by now rewrite length_map, length_seq.
  rewrite array_names_continuous. cbn [bind]. unfold set_columns.
  rewrite length_map, length_seq, length_combine, length_map, length_seq, Nat.min_id,
    Nat.eqb_refl.
  cbn [bind]. rewrite concat_two, map_snd_combine; [reflexivity|].
  now rewrite length_map, length_seq.
Qed.

End GeneratedNames.

(** C3.  A wrapper with the policy ['unknown_same_type'] and the selector
    ['confound'], fitted on a table whose only confound column is
    [age__:type:__confound] and wrapping a transformer that returns an
    array: [transform] names the generated column
    [pca_component:0__:type:__continuous], although the tag of the selected
    column is ['confound']. *)
Theorem unknown_same_type_tags_continuous :
  let self := new_wrapper Toy.Pca (SelStr "confound") "unknown_same_type" default_sep in
  (fitted <- fit self Toy.table None ;; Ok (transform_column_ fitted)) = Ok (Some [Toy.age])
  /\ _get_column_type default_sep Toy.age = Ok "confound"
  /\ (fitted <- fit self Toy.table None ;; transform fitted Toy.table)
     = Ok [("pca_component:0__:type:__continuous", [30; 40]%Z);
           (Toy.iq, [100; 110]%Z); (Toy.sex, [0; 1]%Z)].
Proof. cbv zeta. repeat split; vm_compute; reflexivity. Qed.

(** ** Hyperparameters *)

Section HyperparamFacts.

Context {P : Type} `{SkPipeline P}.

(** More than one candidate: the value enters the grid under the
    rewritten name; the pipeline is not touched. *)
Lemma hyperparam_grid (model_name param k : string) (val : hval)
    (to_tune : list (string * hval)) (pipeline : P) :
  has_iter val = true -> is_str val = false -> 1 < hlen val ->
  rename_param model_name param = Ok k ->
  _prepare_hyperparam model_name (to_tune, pipeline) (param, val)
  = Ok (dict_set to_tune k val, pipeline).
Proof.
  intros Hi Hs Hl Hk. unfold _prepare_hyperparam. rewrite Hi, Hs. cbn [andb negb].
  apply Nat.ltb_lt in Hl. rewrite Hl, Hk. reflexivity.
Qed.

(** A value without [__iter__], or a string: [set_params] under the
    rewritten name; the grid is not touched. *)
Lemma hyperparam_fixed (model_name param k : string) (val : hval)
    (to_tune : list (string * hval)) (pipeline : P) :
  has_iter val && negb (is_str val) = false ->
  rename_param model_name param = Ok k ->
  _prepare_hyperparam model_name (to_tune, pipeline) (param, val)
  = (pipeline' <- pl_set_params pipeline [(k, val)] ;; Ok (to_tune, pipeline')).
Proof.
  intros Hi Hk. unfold _prepare_hyperparam. rewrite Hi, Hk. reflexivity.
Qed.

(** A list or tuple of at most one candidate: the code calls
    [pipeline.set_param(val)].  The name of the parameter is not used; on
    a pipeline without that attribute the call raises. *)
Lemma hyperparam_single (model_name param : string) (val : hval)
    (to_tune : list (string * hval)) (pipeline : P) :
  has_iter val = true -> is_str val = false -> hlen val <= 1 ->
  _prepare_hyperparam model_name (to_tune, pipeline) (param, val)
  = match pl_set_param with
    | None => Err (AttributeError "set_param")
    | Some set_param => pipeline' <- set_param pipeline val ;; Ok (to_tune, pipeline')
    end.
Proof.
  intros Hi Hs Hl. unfold _prepare_hyperparam. rewrite Hi, Hs. cbn [andb negb].
  destruct (Nat.ltb_spec 1 (hlen val)); [lia|]. reflexivity.
Qed.

End HyperparamFacts.

(** C4.  A list with one candidate is not applied as a fixed parameter: on
    a pipeline with the estimator interface, [_prepare_hyperparams] raises
    AttributeError at [pipeline.set_param].  The same parameter given as a
    scalar is set under its rewritten name, and the example of the
    specification gives one grid entry and one fixed assignment. *)
Theorem prepare_hyperparams_single_candidate :
  _prepare_hyperparams [("svm__C", HList [HInt 1])] ([] : list (string * hval)) "svm"
  = Err (AttributeError "set_param")
  /\ _prepare_hyperparams [("svm__C", HInt 1)] ([] : list (string * hval)) "svm"
     = Ok ([], [("dataframe_pipeline__svm__C", HInt 1)])
  /\ _prepare_hyperparams
       [("svm__C", HList [HFloat "0.1"; HInt 1; HInt 10]);
        ("features__impute__n_neighbors", HInt 5)] ([] : list (string * hval)) "svm"
     = Ok ([("dataframe_pipeline__svm__C", HList [HFloat "0.1"; HInt 1; HInt 10])],
           [("dataframe_pipeline__impute__n_neighbors", HInt 5)]).
Proof. repeat split; vm_compute; reflexivity. Qed.

(** ** Confound preprocessing steps *)

Section PreprocessFacts.

Context {Obj : Type} `{PyObject Obj} `{TransformerFactory Obj}.

Lemma unknown_to_same_type_not_unknown (p : string) :
  unknown_to_same_type p <> "unknown".
Proof.
  unfold unknown_to_same_type. destruct (String.eqb_spec p "unknown"); [discriminate | assumption].
Qed.

Lemma confound_policy_not_unknown (steps : list (step Obj)) (p0 p : string) :
  p0 <> "unknown" -> confound_policy p0 steps = Ok p -> p <> "unknown".
Proof.
  revert p0; induction steps as [|s steps IH]; intros p0 Hp0; cbn [confound_policy].
  - now intros [= <-].
  - destruct (_get_confound_transformer s) as [p'|]; [|discriminate]. cbn [bind].
    apply IH, unknown_to_same_type_not_unknown.
Qed.

(** When the steps agree, the loop ends with the policy they agree on. *)
Lemma confound_policy_agreed (steps : list (step Obj)) (p0 q : string) :
  Forall (fun s => exists p, _get_confound_transformer s = Ok p
                             /\ unknown_to_same_type p = q) steps ->
  confound_policy p0 steps = Ok (match steps with [] => p0 | _ => q end).
Proof.
  intros Hall. revert p0. induction Hall as [|s steps (p & Hp & Hq) _ IH]; intros p0.
  - reflexivity.
  - cbn [confound_policy]. rewrite Hp. cbn [bind]. rewrite IH, Hq. now destruct steps.
Qed.

(** In general the loop ends with the policy of the last step. *)
Lemma confound_policy_last (steps : list (step Obj)) (s : step Obj) (p0 p : string) :
  confound_policy p0 (steps ++ [s]) = Ok p ->
  exists p', _get_confound_transformer s = Ok p' /\ p = unknown_to_same_type p'.
Proof.
  revert p0; induction steps as [|s0 steps IH]; intros p0; cbn [app confound_policy].
  - destruct (_get_confound_transformer s) as [p'|]; [|discriminate]. cbn [bind].
    intros [= <-]. now exists p'.
  - destruct (_get_confound_transformer s0); [|discriminate]. cbn [bind]. apply IH.
Qed.

Lemma create_tuple_of_confound (s : step Obj) (p : string) :
  _get_confound_transformer s = Ok p ->
  exists n t rf c, _create_preprocess_tuple s = Ok (PrepTuple n t rf c).
Proof.
  destruct s as [name|items|o]; cbn [_get_confound_transformer _create_preprocess_tuple].
  - destruct (get_transformer name) as [[t rf]|]; [|discriminate]. cbn [bind].
    intros _. now eauto.
  - discriminate.
  - intros _. now eauto.
Qed.

Lemma replace_policy_all (p : string) (l out : list (preprocess_step Obj)) :
  mapM (replace_policy p) l = Ok out ->
  Forall (fun t => policy_of t = Some p) out /\ List.length out = List.length l.
Proof.
  revert out; induction l as [|t l IH]; intros out; cbn [mapM].
  - intros [= <-]. now split.
  - destruct t as [n t rf c|items]; cbn [replace_policy bind]; [|discriminate].
    destruct (mapM (replace_policy p) l) as [out'|]; [|discriminate]. cbn [bind].
    intros [= <-]. destruct (IH out' eq_refl) as [Hall Hlen].
    split; [now constructor | cbn [List.length]; now rewrite Hlen].
Qed.

Lemma mapM_length {A B : Type} (f : A -> result B) (l : list A) (out : list B) :
  mapM f l = Ok out -> List.length out = List.length l.
Proof.
  revert out; induction l as [|a l IH]; intros out; cbn [mapM].
  - now intros [= <-].
  - destruct (f a); [|discriminate]. cbn [bind].
    destruct (mapM f l) as [out'|]; [|discriminate]. cbn [bind].
    intros [= <-]. cbn [List.length]. now rewrite (IH out' eq_refl).
Qed.

Lemma create_and_replace (p : string) (steps : list (step Obj)) :
  Forall (fun s => exists p', _get_confound_transformer s = Ok p') steps ->
  exists out,
    (tuples <- mapM _create_preprocess_tuple steps ;; mapM (replace_policy p) tuples)
    = Ok out.
Proof.
  induction 1 as [|s steps (p' & Hp') _ (out & IH)]; [now exists []|].
  cbn [mapM]. destruct (create_tuple_of_confound s p' Hp') as (n & t & rf & c & ->).
  cbn [bind]. destruct (mapM _create_preprocess_tuple steps) as [tuples|]; [|discriminate].
  cbn [bind mapM replace_policy] in *. rewrite IH. cbn [bind]. now eauto.
Qed.

(** C7.  The tuples that [_prepare_preprocess_confounds] returns all carry
    one policy, never ['unknown']; when the policies that the steps
    resolve to agree (['unknown'] counted as ['unknown_same_type']), the
    builder returns one tuple for every step and writes the agreed policy
    into every one of them. *)
Theorem prepare_confounds_single_policy (steps : list (step Obj)) :
  (forall out, _prepare_preprocess_confounds steps = Ok out ->
     exists p, Forall (fun t => policy_of t = Some p) out /\ p <> "unknown"
               /\ List.length out = List.length steps)
  /\ (forall q,
        Forall (fun s => exists p, _get_confound_transformer s = Ok p
                                   /\ unknown_to_same_type p = q) steps ->
        exists out, _prepare_preprocess_confounds steps = Ok out
                    /\ List.length out = List.length steps
                    /\ Forall (fun t => policy_of t = Some q) out).
Proof.
  split.
  - intros out. unfold _prepare_preprocess_confounds.
    destruct (confound_policy "unknown_same_type" steps) as [p|] eqn:Hp; [|discriminate].
    cbn [bind]. destruct (mapM _create_preprocess_tuple steps) as [tuples|] eqn:Ht;
      [|discriminate].
    cbn [bind]. intros Hout. exists p.
    destruct (replace_policy_all p tuples out Hout) as [Hall Hlen].
    split; [exact Hall|]. split.
    + eapply confound_policy_not_unknown; [|exact Hp]. discriminate.
    + rewrite Hlen. eapply mapM_length; exact Ht.
  - intros q Hagree. unfold _prepare_preprocess_confounds.
    rewrite (confound_policy_agreed steps _ q Hagree). cbn [bind].
    set (p := match steps with [] => "unknown_same_type" | _ => q end).
    assert (Hres : Forall (fun s => exists p', _get_confound_transformer s = Ok p') steps).
    { eapply Forall_impl; [|exact Hagree]. intros s (p' & Hp' & _). now exists p'. }
    destruct (create_and_replace p steps Hres) as (out & Hout).
    exists out. split; [exact Hout|].
    destruct (mapM _create_preprocess_tuple steps) as [tuples|] eqn:Ht; [|discriminate].
    cbn [bind] in Hout. destruct (replace_policy_all p tuples out Hout) as [Hall Hlen].
    split; [rewrite Hlen; eapply mapM_length; exact Ht|].
    subst p. destruct steps; [|exact Hall].
    cbn [mapM] in Ht. injection Ht as <-. cbn [mapM] in Hout. injection Hout as <-.
    constructor.
Qed.

End PreprocessFacts.

(** The agreement of the steps is not tested: with steps that resolve to
    different policies the policy of the last step is written into every
    tuple. *)
Remark prepare_confounds_last_step_wins :
  (out <- _prepare_preprocess_confounds [StepStr "pca"; StepStr "zscore"] ;;
   Ok (map policy_of out)) = Ok [Some "same"; Some "same"]
  /\ (out <- _prepare_preprocess_confounds [StepStr "zscore"; StepStr "pca"] ;;
      Ok (map policy_of out)) = Ok [Some "unknown_same_type"; Some "unknown_same_type"].
Proof. split; vm_compute; reflexivity. Qed.

(** ** Consistency of a binary classification *)

(** C8 as stated fails on a target that mixes numbers and labels: the
    target below has 3 distinct values and a target transformer is given,
    yet the check raises TypeError instead of warning. *)
Lemma check_consistency_binary_counterexample :
  List.length (nodup yval_eq_dec [YNum 1; YLabel "a"; YLabel "b"]) = 3
  /\ check_consistency (Some tt) (ObjectArray [YNum 1; YLabel "a"; YLabel "b"])
       (KFold 5) None "binary_classification"
     = Err (TypeError "'<' not supported between instances of 'str' and 'int'").
Proof. split; reflexivity. Qed.

(** C8, amended.  For the problem type ['binary_classification']: when the
    distinct values of the target cannot be counted, the check raises that
    error, with or without a target transformer.  When they are counted,
    the check raises exactly when the count is not 2 and no target
    transformer is given; when the count is not 2 and a target transformer
    is given, the check returns and the warning is among the messages. *)
Theorem check_consistency_binary {Obj : Type} (preprocess_y : option Obj)
    (y : yarray) (cv : splitter) (groups : option Series) :
  (forall e, n_unique y = Err e ->
     check_consistency preprocess_y y cv groups "binary_classification" = Err e)
  /\ (forall n, n_unique y = Ok n ->
      ((exists e, check_consistency preprocess_y y cv groups "binary_classification" = Err e)
       <-> n <> 2 /\ preprocess_y = None)
      /\ (n <> 2 -> preprocess_y <> None ->
          exists w, check_consistency preprocess_y y cv groups "binary_classification" = Ok w
                    /\ In "The number of classes is not suitable for a binary classification. However, a y transformer has been set." w)).
Proof.
  unfold check_consistency. split.
  - intros e He. rewrite He. reflexivity.
  - intros n Hn. rewrite Hn. cbn [bind String.eqb Ascii.eqb Bool.eqb].
    destruct (Nat.eqb_spec n 2) as [H2|H2]; cbn [negb].
    + split.
      * split; [|intros [Hc _]; now elim Hc].
        intros [e He]. cbn [bind] in He. destruct groups; [destruct (negb _)|]; discriminate.
      * intros Hc. now elim Hc.
    + destruct preprocess_y as [t|]; cbn [bind].
      * split.
        -- split; [|intros [_ Hc]; discriminate].
           intros [e He]. destruct groups; [destruct (negb _)|]; discriminate.
        -- intros _ _. destruct groups; [destruct (negb _)|]; eexists; split;
             try reflexivity; cbn [app In]; auto.
      * split; [|intros _ Hc; now elim Hc].
        split; [intros _; now split | intros _; eauto].
Qed.

Lemma check_consistency_binary_witness :
  exists w, check_consistency (Some tt) (NumericArray [0; 1; 2]%Z) (KFold 5) None
              "binary_classification" = Ok w
            /\ In "The number of classes is not suitable for a binary classification. However, a y transformer has been set." w.
Proof.
  apply (proj2 (proj2 (check_consistency_binary (Some tt) (NumericArray [0; 1; 2]%Z)
                         (KFold 5) None) 3 eq_refl)).
  - lia.
  - discriminate.
Defined.

(** ** Array-mode validation *)

(** The confounds are checked for rank and number of samples. *)
Lemma validate_confounds_checked (Xshape yshape cshape : list nat) (groups : pyobj) :
  existsb (Nat.eqb (ndim Xshape)) [1; 2] = true ->
  ndim yshape = 1 -> shape0 Xshape = shape0 yshape ->
  existsb (Nat.eqb (ndim cshape)) [1; 2] = false \/ shape0 Xshape <> shape0 cshape ->
  exists msg,
    _validate_input_data (PyArray Xshape) (PyArray yshape) (PyArray cshape) PyNone groups
    = Err (RaiseError msg).
Proof.
  intros HX Hy Hxy Hc. unfold _validate_input_data, check.
  rewrite HX, Hy, Hxy, !Nat.eqb_refl. cbn [negb bind].
  destruct (existsb (Nat.eqb (ndim cshape)) [1; 2]) eqn:Hr; cbn [negb bind]; [|eauto].
  destruct Hc as [Hc|Hc]; [discriminate|].
  rewrite <- Hxy. destruct (Nat.eqb_spec (shape0 Xshape) (shape0 cshape)); [contradiction|].
  cbn [negb bind]. eauto.
Qed.

(** The groups are checked for rank. *)
Lemma validate_groups_rank_checked (Xshape yshape gshape : list nat) :
  existsb (Nat.eqb (ndim Xshape)) [1; 2] = true ->
  ndim yshape = 1 -> shape0 Xshape = shape0 yshape ->
  ndim gshape <> 1 ->
  _validate_input_data (PyArray Xshape) (PyArray yshape) PyNone PyNone (PyArray gshape)
  = Err (RaiseError "groups must be one-dimensional").
Proof.
  intros HX Hy Hxy Hg. unfold _validate_input_data, check.
  rewrite HX, Hy, Hxy, !Nat.eqb_refl. cbn [negb bind].
  destruct (Nat.eqb_spec (ndim gshape) 1); [contradiction | reflexivity].
Qed.

(** The groups are not checked for their number of samples: any length is
    accepted. *)
Lemma validate_groups_length_unchecked (n m : nat) :
  _validate_input_data (PyArray [n]) (PyArray [n]) PyNone PyNone (PyArray [m]) = Ok [].
Proof.
  unfold _validate_input_data, check. cbn [ndim List.length existsb Nat.eqb orb negb bind shape0 hd].
  now rewrite Nat.eqb_refl.
Qed.

(** C9.  Array mode with [X] of shape (3, 2), [y] of shape (3,) and groups
    of shape (2,): the validation returns without error and
    [prepare_input_data] returns a group series of length 2 beside a table
    of 3 rows; confounds of shape (2,) are refused. *)
Theorem validate_groups_sample_count_unchecked :
  _validate_input_data (PyArray [3; 2]) (PyArray [3]) PyNone PyNone (PyArray [2]) = Ok []
  /\ prepare_input_data (PyArray [3; 2]) (PyArray [3]) PyNone PyNone PyNone (PyArray [2])
     = Ok (mkInputData (["feature_0"; "feature_1"], 3) (mkSeries "y" 3)
                       (Some (mkSeries "groups" 2)) None, [])
  /\ _validate_input_data (PyArray [3; 2]) (PyArray [3]) (PyArray [2]) PyNone PyNone
     = Err (RaiseError "The number of samples in X do not match confounds").
Proof. repeat split; vm_compute; reflexivity. Qed.

(** ** The cross-validation grammar *)

(** C5, as the specification states it, fails: a string that does not have
    the form [repeat:<int>_nfolds:<int>] is parsed (the field names are not
    read, so the swapped names give 3 repetitions of 7 folds), and a string
    of that form with 0 repetitions is refused. *)
Lemma prepare_cv_grammar_counterexample :
  (Spec.cv_grammar "nfolds:3_repeat:7" = false
   /\ prepare_cv (CvStr "nfolds:3_repeat:7") = Ok (RepeatedKFold 7 3))
  /\ (Spec.cv_grammar "repeat:0_nfolds:5" = true
      /\ prepare_cv (CvStr "repeat:0_nfolds:5")
         = Err (ValueError "Number of repetitions must be greater than 0.")).
Proof. repeat split; vm_compute; reflexivity. Qed.

(** C5, amended.  A string is never passed through.  It is parsed exactly
    when it splits at ['_'] into two parts whose texts after the last [':']
    are integers, the first one positive; the result is the repeated k-fold
    splitter with the first integer as number of repetitions and the second
    as number of folds, whatever the field names.  In particular
    [repeat:<int>_nfolds:<int>] with a positive first integer is parsed so.
    Every other string fails with ValueError. *)
Theorem prepare_cv_string (s : string) :
  (forall sp, prepare_cv (CvStr s) = Ok sp <->
     exists a b zr zf,
       PyStr.split "_" s = Ok [a; b] /\ int_after_colon a = Ok zr /\
       int_after_colon b = Ok zf /\ (0 < zr)%Z /\ sp = RepeatedKFold zf zr)
  /\ (forall e, prepare_cv (CvStr s) = Err e -> exists msg, e = ValueError msg)
  /\ (forall n1 n2 r f zr zf,
        s = n1 +++ ":" +++ r +++ "_" +++ n2 +++ ":" +++ f ->
        PyStr.find "_" n1 = None -> PyStr.find ":" n1 = None ->
        PyStr.find "_" n2 = None -> PyStr.find ":" n2 = None ->
        PyStr.int r = Some zr -> PyStr.int f = Some zf -> (0 < zr)%Z ->
        prepare_cv (CvStr s) = Ok (RepeatedKFold zf zr)).
Proof.
  change (prepare_cv (CvStr s)) with (parser s). split; [|split].
  - intros sp. apply parser_ok_iff.
  - intros e. apply parser_error.
  - intros n1 n2 r f zr zf -> H1 H1' H2 H2' Hr Hf Hpos. now apply parser_positional.
Qed.

Lemma prepare_cv_string_witness :
  prepare_cv (CvStr "repeat:5_nfolds:5") = Ok (RepeatedKFold 5 5).
Proof.
  apply (proj2 (proj2 (prepare_cv_string "repeat:5_nfolds:5"))
           "repeat" "nfolds" "5" "5" 5%Z 5%Z); try reflexivity.
Defined.

(** ** The column type codec, claims *)

(** C6, as the specification states it, fails: with two separators the
    code returns ['continuous'], not the text after the last separator; and
    a base without separator that ends in [__:type:] is not round-tripped. *)
Lemma get_column_type_counterexample :
  (_get_column_type default_sep "a__:type:__b__:type:__confound" = Ok "continuous"
   /\ Spec.decode default_sep "a__:type:__b__:type:__confound" = ("a__:type:__b", "confound"))
  /\ (PyStr.find default_sep "__:type:" = None
      /\ _get_column_type default_sep (Spec.encode default_sep "__:type:" "confound")
         = Ok ":type:__confound").
Proof. repeat split; vm_compute; reflexivity. Qed.

(** C6, amended.  For a non-empty separator, [_get_column_type] cuts the
    name at the first occurrence of the separator: the tag is the text
    after it when that text holds no further occurrence; without
    separator, or with a further occurrence, the tag is ['continuous'].
    Decoding an encoded name recovers the tag when the separator is first
    found where it was inserted and the tag holds none; for the separator
    [__:type:__] and a recognised tag this is so for every base that holds
    no separator and does not end in [__:type:] or [__:type:_]. *)
Theorem get_column_type_decode (sep column : string) :
  sep <> EmptyString ->
  _get_column_type sep column =
    Ok (match PyStr.find sep column with
        | None => "continuous"
        | Some i =>
            let rest := PyStr.drop (i + String.length sep) column in
            match PyStr.find sep rest with
            | None => rest
            | Some _ => "continuous"
            end
        end)
  /\ (forall base tag,
        column = Spec.encode sep base tag ->
        PyStr.find sep column = Some (String.length base) ->
        PyStr.find sep tag = None ->
        _get_column_type sep column = Ok tag)
  /\ (forall base tag,
        sep = default_sep ->
        column = Spec.encode sep base tag ->
        In tag ["confound"; "continuous"; "categorical"] ->
        PyStr.find default_sep base = None ->
        PyStr.endswith base "__:type:" = false ->
        PyStr.endswith base "__:type:_" = false ->
        _get_column_type sep column = Ok tag).
Proof.
  intros Hsep. split; [now apply get_column_type_cases|]. split.
  - intros base tag -> Hfirst Htag. now apply get_column_type_encode.
  - intros base tag -> -> Htag Hbase H8 H9. unfold Spec.encode.
    apply get_column_type_encode; [exact Hsep | now apply default_sep_found_at_join |].
    cbn [In] in Htag. destruct Htag as [<-|[<-|[<-|[]]]]; reflexivity.
Qed.

Lemma get_column_type_decode_witness :
  _get_column_type default_sep (Spec.encode default_sep "age" "confound") = Ok "confound".
Proof.
  apply (proj2 (proj2 (get_column_type_decode default_sep
                         (Spec.encode default_sep "age" "confound")
                         ltac:(discriminate)))
           "age" "confound"); try reflexivity.
  cbn [In]. now left.
Defined.

(** ** Instances of the conditional statements *)

Lemma transform_uses_fit_time_columns_witness :
  exists cols,
    _set_columns_to_transform Toy.scaling Toy.table = Ok cols /\
    transform_column_ Toy.scaling_fitted = Some cols /\
    (forall out c, transform Toy.scaling_fitted Toy.wide_table = Ok out ->
                   In c Toy.wide_table -> ~ In (fst c) cols -> In c out).
Proof.
  assert (Hfit : fit Toy.scaling Toy.table None = Ok Toy.scaling_fitted)
    by (vm_compute; reflexivity).
  assert (Hincl : forall cols, transform_column_ Toy.scaling_fitted = Some cols ->
                               incl cols (columns Toy.wide_table)).
  { intros cols [= <-] x [<-|[<-|[]]]; vm_compute; tauto. }
  destruct (transform_uses_fit_time_columns Toy.scaling Toy.table Toy.wide_table None
              Toy.scaling_fitted Hfit Hincl) as (cols & H1 & H2 & H3).
  exists cols. split; [exact H1|]. split; [exact H2|].
  exact (proj2 (proj2 (proj2 H3))).
Defined.



Lemma get_support_returns_none_witness :
  get_support (new_wrapper Toy.KeepFirst (SelStr "all") "subset" default_sep) false
  = Ok None.
Proof.
  exact (get_support_returns_none
           (new_wrapper Toy.KeepFirst (SelStr "all") "subset" default_sep) false
           Toy.keep_first_support eq_refl).
Defined.

Lemma prepare_confounds_single_policy_witness :
  exists out,
    _prepare_preprocess_confounds
      [StepStr "pca"; StepObj (Toy.mkObject "PCA" Toy.sk_attrs)] = Ok out
    /\ List.length out = 2
    /\ Forall (fun t => policy_of t = Some "unknown_same_type") out.
Proof.
  apply (proj2 (prepare_confounds_single_policy
                  [StepStr "pca"; StepObj (Toy.mkObject "PCA" Toy.sk_attrs)])
           "unknown_same_type").
  constructor; [|constructor; [|constructor]].
  - exists "unknown". split; vm_compute; reflexivity.
  - exists "unknown_same_type". split; vm_compute; reflexivity.
Defined.

(** * Further properties *)

(** ** The column selector *)

Section SelectorFacts.

Import PyStr PyStrFacts.

Lemma Ok_inj {A : Type} (a b : A) : Ok a = Ok b -> a = b.
Proof. now intros [= ->]. Qed.

(** The tag that [_get_column_type] returns, as a function. *)
Lemma get_column_type_total (sep column : string) :
  sep <> EmptyString -> exists t, _get_column_type sep column = Ok t.
Proof. intros Hsep. rewrite get_column_type_cases by exact Hsep. eauto. Qed.

Lemma filterM_filter {A : Type} (p : A -> result bool) (f : A -> bool) (l : list A) :
  (forall a, In a l -> p a = Ok (f a)) -> filterM p l = Ok (filter f l).
Proof.
  induction l as [|a l IH]; intros Hp; [reflexivity|]. cbn [filterM filter].
  rewrite (Hp a) by now left. cbn [bind].
  rewrite IH by (intros b Hb; apply Hp; now right). reflexivity.
Qed.

Lemma filterM_sub {A : Type} (p : A -> result bool) (l r : list A) :
  filterM p l = Ok r -> forall a, In a r -> In a l /\ p a = Ok true.
Proof.
  revert r; induction l as [|a l IH]; intros r; cbn [filterM].
  - intros [= <-] b [].
  - destruct (p a) as [b|] eqn:Hb; [|discriminate]. cbn [bind].
    destruct (filterM p l) as [r'|]; [|discriminate]. cbn [bind]. intros [= <-] x Hx.
    destruct b.
    + destruct Hx as [<-|Hx]; [split; [now left | exact Hb]|].
      destruct (IH r' eq_refl x Hx). split; [now right | assumption].
    + destruct (IH r' eq_refl x Hx). split; [now right | assumption].
Qed.

Lemma filterM_all {A : Type} (p : A -> result bool) (l r : list A) (a : A) :
  filterM p l = Ok r -> In a l -> p a = Ok true -> In a r.
Proof.
  revert r; induction l as [|b l IH]; intros r; cbn [filterM]; [intros _ []|].
  destruct (p b) as [v|] eqn:Hb; [|discriminate]. cbn [bind].
  destruct (filterM p l) as [r'|]; [|discriminate]. cbn [bind]. intros [= <-] [<-|Ha] Hp.
  - rewrite Hp in Hb. injection Hb as <-. now left.
  - specialize (IH r' eq_refl Ha Hp). destruct v; [now right | exact IH].
Qed.

Lemma filterM_nodup {A : Type} (p : A -> result bool) (l r : list A) :
  filterM p l = Ok r -> NoDup l -> NoDup r.
Proof.
  revert r; induction l as [|b l IH]; intros r; cbn [filterM].
  - intros [= <-] _. constructor.
  - destruct (p b) as [v|] eqn:Hb; [|discriminate]. cbn [bind].
    destruct (filterM p l) as [r'|] eqn:Hr; [|discriminate]. cbn [bind].
    intros [= <-] Hnd. inversion Hnd as [|? ? Hnot Hnd']; subst.
    destruct v; [|now apply IH]. constructor; [|now apply IH].
    intros Hin. apply Hnot. now apply (filterM_sub p l r' Hr).
Qed.

Lemma get_columns_of_type_by_tag (sep : string) (cols : list string) (k : string) :
  sep <> EmptyString -> k <> "all" -> k <> "all_features" ->
  exists r,
    _get_columns_of_type sep cols k = Ok r /\
    (forall c, In c r <-> In c cols /\ _get_column_type sep c = Ok k) /\
    (NoDup cols -> NoDup r).
Proof.
  intros Hsep Ha Hf. unfold _get_columns_of_type.
  destruct (String.eqb_spec k "all") as [->|_]; [now elim Ha|].
  destruct (String.eqb_spec k "all_features") as [->|_]; [now elim Hf|].
  set (p := fun column => t <- _get_column_type sep column ;; Ok (String.eqb t k)).
  assert (Hp : forall c, p c = Ok true <-> _get_column_type sep c = Ok k).
  { intros c. unfold p. destruct (get_column_type_total sep c Hsep) as [t ->]. cbn [bind].
    destruct (String.eqb_spec t k) as [->|Hne]; split; try reflexivity; try discriminate.
    intros [= E]. now elim Hne. }
  assert (Hok : forall c, exists b, p c = Ok b).
  { intros c. unfold p. destruct (get_column_type_total sep c Hsep) as [t ->]. cbn [bind]. eauto. }
  assert (Hr : exists r, filterM p cols = Ok r).
  { exists (filter (fun c => match p c with Ok b => b | Err _ => false end) cols).
    apply filterM_filter. intros c _. destruct (Hok c) as [b ->]. reflexivity. }
  destruct Hr as [r Hr]. exists r. split; [exact Hr|]. split.
  - intros c. split.
    + intros Hc. destruct (filterM_sub p cols r Hr c Hc) as [H1 H2]. split; [exact H1|].
      now apply Hp.
    + intros [H1 H2]. apply (filterM_all p cols r c Hr H1). now apply Hp.
  - now apply (filterM_nodup p cols r Hr).
Qed.

(** X2.  A type tag other than ['all'] and ['all_features'] selects exactly
    the columns whose decoded type is that tag, without repetition when the
    labels are unique. *)
Theorem get_columns_of_type_exact (sep : string) (cols : list string) (k : string) :
  sep <> EmptyString -> k <> "all" -> k <> "all_features" ->
  exists r,
    _get_columns_of_type sep cols k = Ok r /\
    (forall c, In c r <-> In c cols /\ _get_column_type sep c = Ok k) /\
    (NoDup cols -> NoDup r).
Proof. apply get_columns_of_type_by_tag. Qed.

Lemma split_by_test (keep : string -> bool) (cols : list string) :
  Permutation cols (filter (fun c => negb (keep c)) cols ++ filter keep cols).
Proof.
  induction cols as [|c cols IH]; cbn [filter]; [apply perm_nil|].
  destruct (keep c); cbn [negb app].
  - apply Permutation_cons_app. exact IH.
  - apply perm_skip. exact IH.
Qed.

(** X3.  ['all_features'] and ['confound'] split the columns: every column
    is selected by exactly one of the two, as often as it occurs, and
    ['all'] selects them all. *)
Theorem all_features_and_confound_partition (sep : string) (cols : list string) :
  sep <> EmptyString ->
  exists feats confs,
    _get_columns_of_type sep cols "all_features" = Ok feats /\
    _get_columns_of_type sep cols "confound" = Ok confs /\
    _get_columns_of_type sep cols "all" = Ok cols /\
    Permutation cols (feats ++ confs) /\
    (forall c, In c feats -> ~ In c confs).
Proof.
  intros Hsep.
  set (f := fun c => match _get_column_type sep c with
                     | Ok t => String.eqb t "confound"
                     | Err _ => false
                     end).
  exists (filter (fun c => negb (f c)) cols), (filter f cols).
  unfold _get_columns_of_type. cbn [String.eqb Ascii.eqb Bool.eqb].
  split; [|split; [|split; [reflexivity|split]]].
  - apply filterM_filter. intros c _. unfold f.
    destruct (get_column_type_total sep c Hsep) as [t ->]. reflexivity.
  - apply filterM_filter. intros c _. unfold f.
    destruct (get_column_type_total sep c Hsep) as [t ->]. reflexivity.
  - apply (split_by_test f).
  - intros c H1 H2. apply filter_In in H1, H2. destruct H1 as [_ H1], H2 as [_ H2].
    rewrite H2 in H1. discriminate.
Qed.

Lemma mapM_in {A B : Type} (f : A -> result B) (l : list A) (out : list B) (b : B) :
  mapM f l = Ok out -> In b out -> exists a, In a l /\ f a = Ok b.
Proof.
  revert out; induction l as [|a l IH]; intros out; cbn [mapM].
  - intros [= <-] [].
  - destruct (f a) as [b0|] eqn:Ha; [|discriminate]. cbn [bind].
    destruct (mapM f l) as [out'|]; [|discriminate]. cbn [bind].
    intros [= <-] [<-|Hb]; [exists a; split; [now left | exact Ha]|].
    destruct (IH out' eq_refl Hb) as (a' & Ha' & Hf). exists a'. split; [now right | exact Hf].
Qed.

Lemma get_columns_of_type_sub (sep : string) (cols r : list string) (k : string) :
  _get_columns_of_type sep cols k = Ok r -> incl r cols.
Proof.
  unfold _get_columns_of_type. destruct (String.eqb k "all"); [now intros [= <-] c|].
  destruct (String.eqb k "all_features"); intros Hr c Hc;
    exact (proj1 (filterM_sub _ _ _ Hr c Hc)).
Qed.

Context {T Col : Type} `{SkTransformer T Col} `{ColumnData Col}.
Implicit Types (self : DataFrameTransformer T) (X : DataFrame Col).

(** X1.  Whatever the selector, the columns that
    [_set_columns_to_transform] returns are columns of the table, and there
    is at least one. *)
Theorem set_columns_to_transform_sound self X (cols : list string) :
  _set_columns_to_transform self X = Ok cols ->
  cols <> [] /\ incl cols (columns X).
Proof.
  unfold _set_columns_to_transform. cbv zeta.
  match goal with |- (bind ?r _) = _ -> _ => destruct r as [tc|] eqn:Hr end; [|discriminate].
  cbn [bind]. destruct tc as [|c0 tc]; [discriminate|]. intros [= <-].
  split; [discriminate|].
  destruct (transform_column self) as [s|l].
  - destruct (in_labels s column_types).
    + now apply (get_columns_of_type_sub _ _ _ _ Hr).
    + destruct (select_label X s) as [|a [|b cs]] eqn:Hs; try discriminate.
      apply Ok_inj in Hr. rewrite <- Hr, <- Hs. intros x Hx.
      unfold columns in Hx. apply in_map_iff in Hx. destruct Hx as (c & <- & Hc).
      apply select_label_in in Hc. apply in_map. tauto.
  - destruct (forallb _ l).
    + unfold _get_columns_of_types in Hr.
      destruct (mapM _ l) as [per|] eqn:Hm; [|discriminate]. cbn [bind] in Hr.
      apply Ok_inj in Hr. rewrite <- Hr. intros x Hx. apply in_concat in Hx.
      destruct Hx as (r & Hr' & Hx). destruct (mapM_in _ _ _ _ Hm Hr') as (k & _ & Hk).
      now apply (get_columns_of_type_sub _ _ _ _ Hk).
    + destruct (loc_list X l) as [slice|] eqn:Hl; [|discriminate]. cbn [bind] in Hr.
      apply Ok_inj in Hr. rewrite <- Hr. intros x Hx.
      unfold columns in Hx. apply in_map_iff in Hx. destruct Hx as (c & <- & Hc).
      apply in_map. exact (proj1 (loc_list_labels X l slice Hl c Hc)).
Qed.

(** X4.  A string selector that is no keyword never resolves on a table
    with unique labels: a missing label raises KeyError, and a present one
    gives a Series, which has no attribute [columns]. *)
Theorem string_selector_never_resolves self X (s : string) :
  transform_column self = SelStr s ->
  in_labels s column_types = false ->
  NoDup (columns X) ->
  _set_columns_to_transform self X =
  Err (if in_labels s (columns X) then AttributeError "columns" else KeyError s).
Proof.
  intros Hs Hk Hnd. unfold _set_columns_to_transform. cbv zeta. rewrite Hs, Hk.
  destruct (in_labels s (columns X)) eqn:Hin.
  - apply in_labels_iff in Hin. destruct (select_label_unique X s Hnd Hin) as (c & -> & _).
    reflexivity.
  - apply in_labels_false in Hin.
    destruct (select_label X s) as [|c cs] eqn:Hsel; [reflexivity|].
    elim Hin. assert (Hc : In c (select_label X s)) by (rewrite Hsel; now left).
    apply select_label_in in Hc. destruct Hc as [Hc <-]. now apply in_map.
Qed.

(** X5.  A list of labels that is not made of keywords only resolves, on
    a table with unique labels that has them all, to the list itself, in
    the order of the list. *)
Theorem literal_list_resolves_to_itself self X (l : list string) :
  transform_column self = SelList l ->
  forallb (fun column => in_labels column column_types) l = false ->
  NoDup (columns X) -> incl l (columns X) ->
  _set_columns_to_transform self X = Ok l.
Proof.
  intros Hl Hk Hnd Hincl. unfold _set_columns_to_transform. cbv zeta. rewrite Hl, Hk.
  rewrite (loc_list_ok X l Hincl). cbn [bind]. rewrite (slice_columns X l Hnd Hincl).
  destruct l; [discriminate | reflexivity].
Qed.

Lemma loc_list_first_missing X (l : list string) (m : string) :
  List.find (fun l => negb (in_labels l (columns X))) l = Some m ->
  loc_list X l = Err (KeyError m).
Proof.
  induction l as [|a l IH]; cbn [List.find loc_list]; [discriminate|].
  destruct (in_labels a (columns X)) eqn:Ha; cbn [negb].
  - intros Hm. apply in_labels_iff in Ha. pose proof (select_label_nonempty X a Ha) as Hne.
    destruct (select_label X a); [now elim Hne|]. now rewrite (IH Hm).
  - intros [= <-]. apply in_labels_false in Ha.
    destruct (select_label X a) as [|c cs] eqn:Hsel; [reflexivity|]. elim Ha.
    assert (Hc : In c (select_label X a)) by (rewrite Hsel; now left).
    apply select_label_in in Hc. destruct Hc as [Hc <-]. now apply in_map.
Qed.

(** X7.  [transform] on a table that lacks one of the stored columns raises
    KeyError on a stored label that the table does not have, whatever the
    policy and the wrapped transformer. *)
Theorem transform_missing_column self X (cols : list string) :
  transform_column_ self = Some cols ->
  ~ incl cols (columns X) ->
  exists m, transform self X = Err (KeyError m)
            /\ In m cols /\ ~ In m (columns X).
Proof.
  intros Hcols Hmiss.
  destruct (List.find (fun l => negb (in_labels l (columns X))) cols) as [m|] eqn:Hf.
  - exists m. pose proof (List.find_some _ _ Hf) as [Hin Hn].
    apply negb_true_iff, in_labels_false in Hn. split; [|now split].
    unfold transform. rewrite Hcols. cbn [bind].
    now rewrite (loc_list_first_missing X cols m Hf).
  - elim Hmiss. intros l Hl. pose proof (List.find_none _ _ Hf l Hl) as Hn.
    apply negb_false_iff in Hn. now apply in_labels_iff.
Qed.

End SelectorFacts.

(** ** Keyword selectors and refitting *)

Section KeywordSelectors.

Context {T Col : Type} `{SkTransformer T Col} `{ColumnData Col}.
Implicit Types (self : DataFrameTransformer T) (X : DataFrame Col).

Lemma literal_tag_not_aggregate (k : string) :
  In k literal_tags -> k <> "all" /\ k <> "all_features" /\ in_labels k column_types = true.
Proof.
  cbn [literal_tags In]. intros [<-|[<-|[<-|[]]]]; repeat split; discriminate || reflexivity.
Qed.

Lemma types_concat_nodup (sep : string) (cols tags : list string)
    (per : list (list string)) :
  sep <> EmptyString -> NoDup cols -> NoDup tags -> incl tags literal_tags ->
  mapM (_get_columns_of_type sep cols) tags = Ok per ->
  NoDup (List.concat per).
Proof.
  intros Hsep Hnd. revert per.
  induction tags as [|k tags IH]; intros per Htags Hlit; cbn [mapM].
  - intros [= <-]. constructor.
  - inversion Htags as [|? ? Hnot Htags']; subst.
    assert (Hk : In k literal_tags) by (apply Hlit; now left).
    destruct (literal_tag_not_aggregate k Hk) as (Ha & Hf & _).
    destruct (get_columns_of_type_by_tag sep cols k Hsep Ha Hf) as (r & Hr & Hin & Hndr).
    rewrite Hr. cbn [bind].
    destruct (mapM (_get_columns_of_type sep cols) tags) as [per'|] eqn:Hm; [|discriminate].
    cbn [bind]. intros [= <-]. cbn [List.concat].
    apply NoDup_app; [now apply Hndr | apply IH; auto; intros x Hx; apply Hlit; now right |].
    intros c Hc Hc'. apply Hin in Hc. destruct Hc as [_ Hc].
    apply in_concat in Hc'. destruct Hc' as (r' & Hr' & Hcr').
    destruct (mapM_in _ _ _ _ Hm Hr') as (k' & Hk' & Hk'r).
    assert (Hk'lit : In k' literal_tags) by (apply Hlit; now right).
    destruct (literal_tag_not_aggregate k' Hk'lit) as (Ha' & Hf' & _).
    destruct (get_columns_of_type_by_tag sep cols k' Hsep Ha' Hf') as (r2 & Hr2 & Hin2 & _).
    rewrite Hr2 in Hk'r. injection Hk'r as ->. apply Hin2 in Hcr'. destruct Hcr' as [_ Hc2].
    rewrite Hc in Hc2. injection Hc2 as ->. contradiction.
Qed.

(** X6.  On a table with unique labels, a keyword selector, or a list of
    distinct type tags, resolves to columns without repetition. *)
Theorem keyword_selection_has_no_repetition self X (cols : list string) :
  column_type_sep self <> EmptyString ->
  NoDup (columns X) ->
  (exists k, transform_column self = SelStr k /\ in_labels k column_types = true)
  \/ (exists tags, transform_column self = SelList tags /\ NoDup tags
                   /\ incl tags literal_tags) ->
  _set_columns_to_transform self X = Ok cols ->
  NoDup cols.
Proof.
  intros Hsep Hnd Hsel. unfold _set_columns_to_transform. cbv zeta.
  match goal with |- (bind ?r _) = _ -> _ => destruct r as [tc|] eqn:Hr end; [|discriminate].
  cbn [bind]. destruct tc as [|c0 tc]; [discriminate|]. intros [= <-].
  destruct Hsel as [(k & Hk & Hkw)|(tags & Ht & Hndt & Hlit)].
  - rewrite Hk, Hkw in Hr. unfold _get_columns_of_type in Hr.
    destruct (String.eqb k "all"); [apply Ok_inj in Hr; now rewrite <- Hr|].
    destruct (String.eqb k "all_features"); now apply (filterM_nodup _ _ _ Hr).
  - rewrite Ht in Hr.
    assert (Hall : forallb (fun column => in_labels column column_types) tags = true).
    { apply forallb_forall. intros k Hk. now apply literal_tag_not_aggregate, Hlit. }
    rewrite Hall in Hr. unfold _get_columns_of_types in Hr.
    destruct (mapM _ tags) as [per|] eqn:Hm; [|discriminate]. cbn [bind] in Hr.
    apply Ok_inj in Hr. rewrite <- Hr.
    now apply (types_concat_nodup (column_type_sep self) (columns X) tags per).
Qed.

(** X12.  A type tag that no column of the table carries, and the empty
    list, select nothing: [fit] raises. *)
Theorem empty_selection_raises self X (y : option Col) :
  column_type_sep self <> EmptyString ->
  (exists k, transform_column self = SelStr k /\ In k literal_tags /\
             forall c, In c (columns X) -> _get_column_type (column_type_sep self) c <> Ok k)
  \/ transform_column self = SelList [] ->
  _set_columns_to_transform self X = Err (RaiseError "There is not valid column to transform")
  /\ fit self X y = Err (RaiseError "There is not valid column to transform").
Proof.
  intros Hsep Hsel.
  assert (Hset : _set_columns_to_transform self X
                 = Err (RaiseError "There is not valid column to transform")).
  { unfold _set_columns_to_transform. cbv zeta.
    destruct Hsel as [(k & Hk & Hlit & Hnone)|Hnil].
    - destruct (literal_tag_not_aggregate k Hlit) as (Ha & Hf & Hkw). rewrite Hk, Hkw.
      destruct (get_columns_of_type_by_tag (column_type_sep self) (columns X) k Hsep Ha Hf)
        as (r & -> & Hin & _).
      cbn [bind]. destruct r as [|c r]; [reflexivity|].
      assert (Hc : In c (c :: r)) by now left. apply Hin in Hc. destruct Hc as [Hc Ht].
      now elim (Hnone c Hc).
    - rewrite Hnil. reflexivity. }
  split; [exact Hset|]. unfold fit. now rewrite Hset.
Qed.

(** X11.  Fitting again resolves the selector again: the columns stored by
    a second [fit] are those of the second table, not those of the first. *)
Theorem refit_resolves_again self (A B : DataFrame Col) (y y' : option Col) f1 f2 :
  fit self A y = Ok f1 -> fit f1 B y' = Ok f2 ->
  exists cols, _set_columns_to_transform self B = Ok cols
               /\ transform_column_ f2 = Some cols.
Proof.
  intros H1 H2.
  destruct (fit_stores_columns _ _ _ _ H1) as (c1 & _ & _ & Htc & _ & Hsep).
  destruct (fit_stores_columns _ _ _ _ H2) as (c2 & Hset & Hc2 & _).
  exists c2. split; [|exact Hc2].
  unfold _set_columns_to_transform in *. now rewrite Htc, Hsep in Hset.
Qed.

End KeywordSelectors.

(** ** The policies ['unknown'], ['subset'] and the unsupported ones *)

Section Policies.

Import PyStrFacts.

Lemma append_cancel_l (a x y : string) : a +++ x = a +++ y -> x = y.
Proof. induction a as [|c a IH]; cbn [String.append]; [easy|]. intros [= E]. now apply IH. Qed.

Lemma append_cancel_r (x y r : string) : x +++ r = y +++ r -> x = y.
Proof.
  intros E. assert (Hlen : String.length x = String.length y).
  { apply (f_equal String.length) in E. rewrite !length_append in E. lia. }
  revert y E Hlen. induction x as [|c x IH]; intros [|d y] E Hlen; try discriminate.
  - reflexivity.
  - cbn [String.append] in E. injection E as -> E. f_equal. apply IH; [exact E|].
    now injection Hlen.
Qed.

Lemma of_nat_inj (n m : nat) : PyStr.of_nat n = PyStr.of_nat m -> n = m.
Proof.
  assert (Hback : forall k, match NilZero.uint_of_string (PyStr.of_nat k) with
                            | Some d => Nat.of_uint d
                            | None => 0
                            end = k).
  { intros k. unfold PyStr.of_nat.
    destruct (Nat.to_uint k) eqn:E;
      try (rewrite NilZero.usu by discriminate; rewrite <- E;
           apply DecimalNat.Unsigned.of_to).
    rewrite NilZero.usu_nil. cbn. rewrite <- (DecimalNat.Unsigned.of_to k), E. reflexivity. }
  intros E. rewrite <- (Hback n), <- (Hback m), E. reflexivity.
Qed.

Lemma component_name_inj (name sep type : string) (n m : nat) :
  component_name name n sep type = component_name name m sep type -> n = m.
Proof.
  unfold component_name. intros E. apply append_cancel_l in E.
  apply append_cancel_l in E. apply append_cancel_r in E. now apply of_nat_inj.
Qed.

Lemma map_inj_nodup {A B : Type} (f : A -> B) (l : list A) :
  (forall a b, f a = f b -> a = b) -> NoDup l -> NoDup (map f l).
Proof.
  intros Hinj. induction 1 as [|a l Hnot Hnd IH]; cbn [map]; constructor; [|exact IH].
  intros Hin. apply in_map_iff in Hin. destruct Hin as (b & Hb & Hbl).
  apply Hinj in Hb. subst. contradiction.
Qed.

Context {T Col : Type} `{SkTransformer T Col} `{ColumnData Col}.
Implicit Types (self : DataFrameTransformer T) (X : DataFrame Col).

(** X9.  Policy ['unknown']: the result is the output of the wrapped
    transformer under generated names, followed by the untouched columns in
    their order in [X]; there are as many generated names as output
    columns and they are pairwise different. *)
Theorem transform_unknown_generated_names self X (cols : list string) o :
  returned_features self = "unknown" ->
  transform_column_ self = Some cols ->
  incl cols (columns X) ->
  sk_transform (transformer self) (flat_map (select_label X) cols) = Ok o ->
  let names :=
    map (fun n_column =>
           component_name (PyStr.lower (sk_class_name (transformer self))) n_column
             (column_type_sep self) "continuous")
        (seq 0 (List.length (as_frame o))) in
  transform self X =
    Ok (combine names (map snd (as_frame o))
        ++ filter (fun c => negb (in_labels (fst c) cols)) X)
  /\ NoDup names /\ List.length names = List.length (as_frame o).
Proof.
  intros Hrf Hcols Hincl Ho names.
  rewrite (transform_slices _ _ _ Hcols Hincl), Ho. cbn [bind].
  unfold reassemble. cbv zeta. rewrite Hrf. cbn [String.eqb Ascii.eqb Bool.eqb].
  unfold columns at 1. rewrite length_map. fold names.
  assert (Hlen : List.length names = List.length (as_frame o))
    by (unfold names; now rewrite length_map, length_seq).
  unfold set_columns. rewrite Hlen, Nat.eqb_refl. cbn [bind]. rewrite concat_two.
  split; [reflexivity|]. split; [|reflexivity].
  unfold names. apply map_inj_nodup; [|apply seq_NoDup].
  intros a b. apply component_name_inj.
Qed.

Lemma kept_labels_sub (labels : list string) (m : list bool) :
  incl (map fst (filter snd (combine labels m))) labels.
Proof.
  intros l Hl. apply in_map_iff in Hl. destruct Hl as ([l' b] & <- & Hf).
  apply filter_In in Hf. destruct Hf as [Hc _]. now apply in_combine_l in Hc.
Qed.

(** X8.  Policy ['subset'] with a boolean mask as long as the slice: the
    output columns get the labels of the slice that the mask keeps, so they
    are labels of the selected columns, and the untouched columns follow. *)
Theorem transform_subset_by_mask self X (cols : list string) o
    (gs : bool -> result support) (m : list bool) :
  returned_features self = "subset" ->
  transform_column_ self = Some cols ->
  NoDup (columns X) -> incl cols (columns X) ->
  sk_get_support (transformer self) = Some gs -> gs false = Ok (Mask m) ->
  List.length m = List.length cols ->
  sk_transform (transformer self) (flat_map (select_label X) cols) = Ok o ->
  let kept := map fst (filter snd (combine cols m)) in
  List.length (as_frame o) = List.length kept ->
  exists out,
    transform self X = Ok out /\
    out = combine kept (map snd (as_frame o))
          ++ filter (fun c => negb (in_labels (fst c) cols)) X /\
    columns out = kept ++ columns (filter (fun c => negb (in_labels (fst c) cols)) X) /\
    incl kept cols.
Proof.
  intros Hrf Hcols Hnd Hincl Hgs Hmask Hm Ho kept Hlen.
  rewrite (transform_slices _ _ _ Hcols Hincl), Ho. cbn [bind].
  unfold reassemble. cbv zeta. rewrite Hrf, Hgs, Hmask.
  cbn [String.eqb Ascii.eqb Bool.eqb bind].
  rewrite (slice_columns X cols Hnd Hincl). unfold index_by_support.
  rewrite Hm, Nat.eqb_refl. cbn [bind]. fold kept.
  unfold set_columns. rewrite <- Hlen, Nat.eqb_refl. cbn [bind]. rewrite concat_two.
  eexists. split; [reflexivity|]. split; [reflexivity|]. split.
  - unfold columns at 1. rewrite map_app. fold (columns (combine kept (map snd (as_frame o)))).
    rewrite columns_combine by (rewrite length_map; now symmetry). reflexivity.
  - apply kept_labels_sub.
Qed.

(** X10.  With a policy outside the five names, or with ['subset'] on a
    transformer without [get_support], [transform] never returns a table. *)
Theorem transform_unsupported_policy self X :
  ~ In (returned_features self)
       ["same"; "subset"; "unknown"; "unknown_same_type"; "from_transformer"]
  \/ (returned_features self = "subset" /\ sk_get_support (transformer self) = None) ->
  exists e, transform self X = Err e.
Proof.
  intros Hrf. unfold transform.
  destruct (transform_column_ self) as [cols|]; cbn [bind]; [|eauto].
  destruct (loc_list X cols) as [Xt|]; cbn [bind]; [|eauto].
  destruct (drop_columns X cols) as [Xr|]; cbn [bind]; [|eauto].
  destruct (sk_transform _ _) as [o|]; cbn [bind]; [|eauto].
  unfold reassemble. cbv zeta. destruct Hrf as [Hrf|[Hrf Hgs]].
  - cbn [In] in Hrf.
    destruct (String.eqb_spec (returned_features self) "same") as [E|_];
      [elim Hrf; rewrite E; tauto|].
    destruct (String.eqb_spec (returned_features self) "subset") as [E|_];
      [elim Hrf; rewrite E; tauto|].
    destruct (String.eqb_spec (returned_features self) "unknown") as [E|_];
      [elim Hrf; rewrite E; tauto|].
    destruct (String.eqb_spec (returned_features self) "unknown_same_type") as [E|_];
      [elim Hrf; rewrite E; tauto|].
    destruct (String.eqb_spec (returned_features self) "from_transformer") as [E|_];
      [elim Hrf; rewrite E; tauto|].
    eauto.
  - rewrite Hrf, Hgs. cbn [String.eqb Ascii.eqb Bool.eqb]. eauto.
Qed.

End Policies.

(** ** Hyperparameter names *)

Section RenameParam.

Import PyStr PyStrFacts.

Lemma append_empty_r (s : string) : s +++ EmptyString = s.
Proof. induction s as [|c s IH]; cbn [String.append]; [reflexivity | now rewrite IH]. Qed.

Lemma take_drop (n : nat) (s : string) : take n s +++ drop n s = s.
Proof.
  revert s; induction n as [|n IH]; intros [|c s]; cbn [take drop String.append];
    try reflexivity. now rewrite IH.
Qed.

Lemma prefix_split (p s : string) : prefix p s = true -> s = p +++ drop (String.length p) s.
Proof.
  revert s; induction p as [|c p IH]; intros s Hp; [reflexivity|].
  destruct s as [|d s]; [discriminate|]. cbn [prefix] in Hp.
  destruct (ascii_dec c d) as [->|]; [|discriminate].
  cbn [String.length drop String.append]. f_equal. now apply IH.
Qed.

(** The text around the first occurrence of a separator. *)
Lemma find_cut (sep s : string) (i : nat) :
  find sep s = Some i ->
  s = take i s +++ sep +++ drop (i + String.length sep) s.
Proof.
  intros Hf. destruct (find_some _ _ _ Hf) as [Hp _].
  rewrite drop_add, <- (prefix_split _ _ Hp). symmetry. apply take_drop.
Qed.

(** [sep.join(s.split(sep))] is [s]. *)
Lemma join_split_fuel (fuel : nat) (sep s : string) :
  join sep (split_fuel fuel sep s) = s.
Proof.
  revert s; induction fuel as [|fuel IH]; intros s; cbn [split_fuel]; [reflexivity|].
  destruct (find sep s) as [i|] eqn:Hf; [|reflexivity].
  unfold join in *. cbn [String.concat].
  pose proof (split_fuel_nonempty fuel sep (drop (i + String.length sep) s)) as Hne.
  specialize (IH (drop (i + String.length sep) s)).
  destruct (split_fuel fuel sep (drop (i + String.length sep) s)) as [|x xs];
    [now elim Hne|].
  rewrite IH. symmetry. now apply find_cut.
Qed.

Lemma prefix_take (p s : string) (n : nat) : prefix p (take n s) = true -> prefix p s = true.
Proof.
  revert s n; induction p as [|c p IH]; intros s n; [now destruct s|].
  destruct n as [|n], s as [|d s]; cbn [take prefix]; try discriminate.
  destruct (ascii_dec c d); [apply IH | discriminate].
Qed.

Lemma find_take_none (sep s : string) (i : nat) :
  sep <> EmptyString -> find sep s = Some i -> find sep (take i s) = None.
Proof.
  intros Hsep. revert i; induction s as [|c s IH]; intros i; cbn [find].
  - destruct (prefix sep EmptyString) eqn:Hp; [|discriminate].
    destruct sep; [now elim Hsep | discriminate].
  - destruct (prefix sep (String c s)) eqn:Hp.
    + intros [= <-]. cbn [take find]. destruct sep; [now elim Hsep | reflexivity].
    + destruct (find sep s) as [j|] eqn:Hj; [|discriminate]. cbn [option_map].
      intros [= <-]. cbn [take find]. rewrite (IH j eq_refl).
      destruct (prefix sep (String c (take j s))) eqn:Hp'; [|reflexivity].
      change (String c (take j s)) with (take (S j) (String c s)) in Hp'.
      apply prefix_take in Hp'. congruence.
Qed.

(** [rename_param] replaces the text before the first ["__"] and keeps the
    text from there on. *)
Lemma rename_param_cut (model_name param : string) :
  let i := match find "__" param with Some i => i | None => String.length param end in
  rename_param model_name param =
  match scope_branch model_name (take i param) with
  | Some branch => Ok (branch +++ drop i param)
  | None => Err (RaiseError
      "Each element of the hyperparameters dict  has to start with features__, confounds__, target__ or the model name")
  end.
Proof.
  cbv zeta. unfold rename_param. rewrite split_equation by discriminate. cbn [bind].
  assert (Hgen : forall first rest_parts tail,
            (forall x, join "__" (x :: rest_parts) = x +++ tail) ->
            (new_first <-
               (if String.eqb first "features" then Ok "dataframe_pipeline"
                else if String.eqb first "confounds" then Ok "confound_dataframe_pipeline"
                else if String.eqb first "target" then Ok "y_transformer"
                else if String.eqb first model_name then Ok ("dataframe_pipeline__" +++ first)
                else Err (RaiseError
      "Each element of the hyperparameters dict  has to start with features__, confounds__, target__ or the model name")) ;;
             Ok (join "__" ([new_first] ++ rest_parts)))
            = match scope_branch model_name first with
              | Some branch => Ok (branch +++ tail)
              | None => Err (RaiseError
      "Each element of the hyperparameters dict  has to start with features__, confounds__, target__ or the model name")
              end).
  { intros first rest_parts tail Hj. unfold scope_branch.
    destruct (String.eqb first "features"); [cbn [bind app]; now rewrite Hj|].
    destruct (String.eqb first "confounds"); [cbn [bind app]; now rewrite Hj|].
    destruct (String.eqb first "target"); [cbn [bind app]; now rewrite Hj|].
    destruct (String.eqb first model_name); [cbn [bind app]; now rewrite Hj|].
    reflexivity. }
  destruct (find "__" param) as [i|] eqn:Hf.
  - cbv zeta. apply Hgen. intros x. unfold join. cbn [String.concat].
    pose proof (split_fuel_nonempty (String.length (drop (i + String.length "__") param))
                  "__" (drop (i + String.length "__") param)) as Hne.
    pose proof (join_split_fuel (String.length (drop (i + String.length "__") param))
                  "__" (drop (i + String.length "__") param)) as Hj.
    unfold join in Hj.
    destruct (split_fuel _ "__" (drop (i + String.length "__") param)) as [|p ps];
      [now elim Hne|].
    rewrite Hj. f_equal.
    destruct (find_some _ _ _ Hf) as [Hp _].
    rewrite drop_add. now rewrite <- (prefix_split _ _ Hp).
  - pose proof (take_append_length param EmptyString) as Ht.
    pose proof (drop_append_length param EmptyString) as Hd.
    rewrite append_empty_r in Ht, Hd. rewrite Ht, Hd.
    apply Hgen. intros x. unfold join. cbn [String.concat]. now rewrite append_empty_r.
Qed.

End RenameParam.

Section RenameParamClaims.

Import PyStr PyStrFacts.

Lemma scope_branch_some (model_name first branch : string) :
  scope_branch model_name first = Some branch ->
  (first = "features" /\ branch = "dataframe_pipeline")
  \/ (first = "confounds" /\ branch = "confound_dataframe_pipeline")
  \/ (first = "target" /\ branch = "y_transformer")
  \/ (first = model_name /\ branch = "dataframe_pipeline__" +++ model_name).
Proof.
  unfold scope_branch.
  destruct (String.eqb_spec first "features") as [->|_]; [intros [= <-]; tauto|].
  destruct (String.eqb_spec first "confounds") as [->|_]; [intros [= <-]; tauto|].
  destruct (String.eqb_spec first "target") as [->|_]; [intros [= <-]; tauto|].
  destruct (String.eqb_spec first model_name) as [->|_]; [intros [= <-]; tauto|].
  discriminate.
Qed.

(** X18.  A rewritten hyperparameter name differs from the given one in
    its first segment only: the name is a first segment without ["__"]
    followed by a tail that is empty or starts with ["__"]; the first
    segment is one of the four scopes and is replaced by its branch of the
    pipeline; the tail is kept as it is. *)
Theorem rename_param_keeps_path (model_name param k : string) :
  rename_param model_name param = Ok k ->
  exists first tail branch,
    param = first +++ tail /\ k = branch +++ tail /\
    find "__" first = None /\
    (tail = EmptyString \/ prefix "__" tail = true) /\
    ((first = "features" /\ branch = "dataframe_pipeline")
     \/ (first = "confounds" /\ branch = "confound_dataframe_pipeline")
     \/ (first = "target" /\ branch = "y_transformer")
     \/ (first = model_name /\ branch = "dataframe_pipeline__" +++ model_name)).
Proof.
  rewrite rename_param_cut. cbv zeta.
  set (i := match find "__" param with Some i => i | None => String.length param end).
  destruct (scope_branch model_name (take i param)) as [branch|] eqn:Hb; [|discriminate].
  intros [= <-]. exists (take i param), (drop i param), branch.
  split; [symmetry; apply take_drop|]. split; [reflexivity|].
  split; [|split; [|now apply scope_branch_some]].
  - unfold i. destruct (find "__" param) as [j|] eqn:Hf.
    + now apply find_take_none.
    + pose proof (take_append_length param EmptyString) as Ht.
      rewrite append_empty_r in Ht. now rewrite Ht.
  - unfold i. destruct (find "__" param) as [j|] eqn:Hf.
    + right. now destruct (find_some _ _ _ Hf).
    + left. pose proof (drop_append_length param EmptyString) as Hd.
      now rewrite append_empty_r in Hd.
Qed.

(** X19.  [rename_param] raises exactly when the text before the first
    ["__"] (the whole name when it has none) is none of ['features'],
    ['confounds'], ['target'] and the model name. *)
Theorem rename_param_scope_error (model_name param : string) :
  let first := match find "__" param with
               | Some i => take i param
               | None => param
               end in
  (exists e, rename_param model_name param = Err e)
  <-> ~ In first ["features"; "confounds"; "target"; model_name].
Proof.
  cbv zeta. rewrite rename_param_cut. cbv zeta.
  assert (Hfirst : take (match find "__" param with
                         | Some i => i
                         | None => String.length param
                         end) param
                   = match find "__" param with Some i => take i param | None => param end).
  { destruct (find "__" param); [reflexivity|].
    pose proof (take_append_length param EmptyString) as Ht.
    now rewrite append_empty_r in Ht. }
  rewrite Hfirst.
  set (first := match find "__" param with Some i => take i param | None => param end).
  unfold scope_branch. cbn [In].
  destruct (String.eqb_spec first "features") as [E|N1];
    [split; [intros [e He]; discriminate | intros Hn; elim Hn; auto]|].
  destruct (String.eqb_spec first "confounds") as [E|N2];
    [split; [intros [e He]; discriminate | intros Hn; elim Hn; auto]|].
  destruct (String.eqb_spec first "target") as [E|N3];
    [split; [intros [e He]; discriminate | intros Hn; elim Hn; auto]|].
  destruct (String.eqb_spec first model_name) as [E|N4];
    [split; [intros [e He]; discriminate | intros Hn; elim Hn; auto]|].
  split; [|eauto]. intros _ [E|[E|[E|[E|[]]]]]; congruence.
Qed.

Lemma prefix_cons (a b : ascii) (p s : string) :
  prefix (String a p) (String b s) = if ascii_dec a b then prefix p s else false.
Proof. reflexivity. Qed.

Lemma find_sep2_at_join (m rest : string) :
  find "__" (m +++ "_") = None ->
  find "__" (m +++ "__" +++ rest) = Some (String.length m).
Proof.
  induction m as [|c m IH]; intros Hf; [now destruct rest|].
  cbn [String.append find String.length] in *.
  destruct (prefix "__" (String c (m +++ "_"))) eqn:Hp; [discriminate|].
  destruct (find "__" (m +++ "_")) eqn:Hm; [discriminate|].
  match goal with
  | |- context [prefix ?p ?s] => assert (Hp' : prefix p s = false)
  end.
  { clear IH Hm Hf. rewrite prefix_cons in Hp |- *.
    destruct (ascii_dec "_" c); [|reflexivity].
    destruct m as [|d m]; cbn [String.append] in Hp |- *; rewrite prefix_cons in Hp |- *.
    - destruct (ascii_dec "_" "_") as [_|n]; [discriminate Hp | now elim n].
    - destruct (ascii_dec "_" d); [|reflexivity].
      destruct (m +++ "_"); discriminate Hp. }
  rewrite Hp', (IH eq_refl). reflexivity.
Qed.

(** X21.  The rewriting is not one-to-one: a parameter of the model given
    under the scope ['features'] and the same parameter given under the
    model name get the same rewritten name. *)
Theorem rename_param_scopes_collide (model_name rest : string) :
  find "__" (model_name +++ "_") = None ->
  ~ In model_name ["features"; "confounds"; "target"] ->
  rename_param model_name ("features__" +++ model_name +++ "__" +++ rest)
  = Ok ("dataframe_pipeline__" +++ model_name +++ "__" +++ rest)
  /\ rename_param model_name (model_name +++ "__" +++ rest)
     = Ok ("dataframe_pipeline__" +++ model_name +++ "__" +++ rest).
Proof.
  intros Hm Hres. split.
  - rewrite rename_param_cut. cbv zeta.
    change ("features__" +++ model_name +++ "__" +++ rest)
      with ("features" +++ "__" +++ (model_name +++ "__" +++ rest)).
    rewrite (find_sep2_at_join "features" _ eq_refl).
    rewrite take_append_length, drop_append_length. reflexivity.
  - rewrite rename_param_cut. cbv zeta. rewrite (find_sep2_at_join model_name rest Hm).
    rewrite take_append_length, drop_append_length. unfold scope_branch.
    cbn [In] in Hres.
    destruct (String.eqb_spec model_name "features") as [E|_]; [elim Hres; rewrite E; tauto|].
    destruct (String.eqb_spec model_name "confounds") as [E|_]; [elim Hres; rewrite E; tauto|].
    destruct (String.eqb_spec model_name "target") as [E|_]; [elim Hres; rewrite E; tauto|].
    rewrite String.eqb_refl. now rewrite append_assoc.
Qed.

End RenameParamClaims.

(** ** The grid of tunable hyperparameters *)

Section GridFacts.

Context {P : Type} `{SkPipeline P}.

Lemma dict_set_in {V : Type} (d : list (string * V)) (k : string) (v : V) (kv : string * V) :
  In kv (dict_set d k v) -> kv = (k, v) \/ In kv d.
Proof.
  induction d as [|[k' v'] d IH]; cbn [dict_set In].
  - intros [E|[]]. now left.
  - destruct (String.eqb k' k); cbn [In].
    + intros [E|Hin]; [now left | right; now right].
    + intros [E|Hin]; [right; now left|]. destruct (IH Hin); [now left | right; now right].
Qed.

Lemma dict_set_keys {V : Type} (d : list (string * V)) (k : string) (v : V) (x : string) :
  In x (map fst (dict_set d k v)) <-> x = k \/ In x (map fst d).
Proof.
  induction d as [|[k' v'] d IH]; cbn [dict_set map fst In].
  - split; [intros [E|[]]; now left | intros [E|[]]; now left].
  - destruct (String.eqb_spec k' k) as [->|Hne]; cbn [map fst In].
    + split; [intros [E|Hin]; [now left | right; now right]
             | intros [E|[E|Hin]]; [now left | now left | now right]].
    + rewrite IH. split.
      * intros [E|[E|Hin]]; [right; now left | now left | right; now right].
      * intros [E|[E|Hin]]; [right; now left | now left | right; now right].
Qed.

Lemma dict_set_nodup {V : Type} (d : list (string * V)) (k : string) (v : V) :
  NoDup (map fst d) -> NoDup (map fst (dict_set d k v)).
Proof.
  induction d as [|[k' v'] d IH]; cbn [dict_set map fst]; intros Hnd.
  - constructor; [intros [] | constructor].
  - inversion Hnd as [|? ? Hnot Hnd']; subst.
    destruct (String.eqb_spec k' k) as [->|Hne]; cbn [map fst]; [now constructor|].
    constructor; [|now apply IH]. rewrite dict_set_keys. intros [E|Hin]; [now elim Hne | contradiction].
Qed.

Lemma prepare_hyperparam_grid_ok (model_name : string) (hp grid grid' : list (string * hval))
    (pipeline pipeline' : P) (item : string * hval) :
  In item hp -> grid_ok model_name hp grid ->
  _prepare_hyperparam model_name (grid, pipeline) item = Ok (grid', pipeline') ->
  grid_ok model_name hp grid'.
Proof.
  intros Hitem [Hnd Hall]. destruct item as [param val]. unfold _prepare_hyperparam.
  destruct (has_iter val) eqn:Hi; cbn [andb];
    [destruct (is_str val) eqn:Hs; cbn [negb]|].
  - destruct (rename_param model_name param); [|discriminate]. cbn [bind].
    destruct (pl_set_params _ _); [|discriminate]. cbn [bind]. intros [= <- _]. now split.
  - destruct (Nat.ltb_spec 1 (hlen val)) as [Hl|_].
    + destruct (rename_param model_name param) as [k|] eqn:Hk; [|discriminate].
      cbn [bind]. intros [= <- _]. split; [now apply dict_set_nodup|].
      intros k' v' Hin. apply dict_set_in in Hin. destruct Hin as [[= -> ->]|Hin].
      * repeat split; auto. now exists param.
      * now apply Hall.
    + destruct pl_set_param as [f|]; [|discriminate].
      destruct (f pipeline val); [|discriminate]. cbn [bind]. intros [= <- _]. now split.
  - destruct (rename_param model_name param); [|discriminate]. cbn [bind].
    destruct (pl_set_params _ _); [|discriminate]. cbn [bind]. intros [= <- _]. now split.
Qed.

Lemma prepare_hyperparams_grid_ok (hp grid : list (string * hval)) (pipeline pipeline' : P)
    (model_name : string) :
  _prepare_hyperparams hp pipeline model_name = Ok (grid, pipeline') ->
  grid_ok model_name hp grid.
Proof.
  unfold _prepare_hyperparams.
  assert (Hgen : forall items g p g' p',
            incl items hp -> grid_ok model_name hp g ->
            foldM (_prepare_hyperparam model_name) (g, p) items = Ok (g', p') ->
            grid_ok model_name hp g').
  { induction items as [|item items IH]; intros g p g' p' Hincl Hg; cbn [foldM].
    - now intros [= <- _].
    - destruct (_prepare_hyperparam model_name (g, p) item) as [[g1 p1]|] eqn:H1;
        [|discriminate].
      cbn [bind]. apply IH; [intros x Hx; apply Hincl; now right|].
      eapply prepare_hyperparam_grid_ok; [apply Hincl; now left | exact Hg | exact H1]. }
  intros Hres. apply (Hgen hp [] pipeline grid pipeline'); [apply incl_refl | | exact Hres].
  split; [constructor | intros k v []].
Qed.

(** X20.  The grid that [_prepare_hyperparams] returns is a dictionary (no
    key twice); every entry is a list or tuple of more than one candidate,
    stored under the rewritten name of a hyperparameter it was given for.
    A string, a scalar and a one-element list are never in the grid. *)
Theorem prepare_hyperparams_grid (hp grid : list (string * hval)) (pipeline pipeline' : P)
    (model_name : string) :
  _prepare_hyperparams hp pipeline model_name = Ok (grid, pipeline') ->
  NoDup (map fst grid) /\
  forall k v, In (k, v) grid ->
    has_iter v = true /\ is_str v = false /\ 1 < hlen v /\
    exists param, In (param, v) hp /\ rename_param model_name param = Ok k.
Proof. apply prepare_hyperparams_grid_ok. Qed.

End GridFacts.

(** ** Input validation *)

(** Open the first step of a sequence that returned. *)
Ltac step_bind H E :=
  match type of H with
  | bind ?b _ = Ok _ =>
      let u := fresh "u" in
      destruct b as [u|] eqn:E; [cbn [bind] in H | discriminate H]
  end.

Section ValidationFacts.

Lemma check_ok (cond : bool) (msg : string) (u : unit) :
  check cond msg = Ok u -> cond = false.
Proof. unfold check. now destruct cond. Qed.

Lemma no_missing (ls cols : list string) :
  (0 <? List.length (filter (fun t => negb (in_labels t cols)) ls))%nat = false ->
  incl ls cols.
Proof.
  intros Hf x Hx. destruct (in_labels x cols) eqn:Hin; [now apply in_labels_iff|].
  assert (Hm : In x (filter (fun t => negb (in_labels t cols)) ls))
    by (apply filter_In; split; [exact Hx | now rewrite Hin]).
  destruct (filter (fun t => negb (in_labels t cols)) ls) as [|a r];
    [now elim Hm | cbn in Hf; discriminate Hf].
Qed.

Lemma validate_table_returns (X y confounds groups : pyobj)
    (df_columns : list string) (rows : nat) (w : list string) :
  _validate_input_data X y confounds (PyFrame df_columns rows) groups = Ok w ->
  ((exists x, X = PyString x) \/ (exists l, X = PyList l))
  /\ incl (as_list X) df_columns
  /\ (exists yname, y = PyString yname /\ In yname df_columns)
  /\ incl (as_list confounds) df_columns
  /\ incl (as_list groups) df_columns.
Proof.
  intros Hv. unfold _validate_input_data in Hv.
  step_bind Hv HXc. apply check_ok in HXc.
  assert (HXform : (exists x, X = PyString x) \/ (exists l, X = PyList l))
    by (destruct X; try discriminate; eauto).
  split; [exact HXform|]. clear HXc HXform.
  destruct y as [|yname| | | |]; try discriminate.
  step_bind Hv Hc. step_bind Hv Hg. step_bind Hv HX. step_bind Hv Hy.
  step_bind Hv Hcb. step_bind Hv Hgb.
  apply check_ok in HX, Hy, Hc, Hg. apply negb_false_iff, in_labels_iff in Hy.
  apply no_missing in HX.
  split; [exact HX|]. split; [now exists yname|]. split.
  - destruct confounds as [|c|l| | |]; cbn [as_list]; try discriminate Hc;
      try (intros x Hx; now elim Hx);
      apply check_ok in Hcb; now apply no_missing in Hcb.
  - destruct groups as [|g| | | |]; cbn [as_list]; try discriminate Hg;
      try (intros x Hx; now elim Hx).
    step_bind Hgb Hgg. apply check_ok in Hgg. apply negb_false_iff, in_labels_iff in Hgg.
    intros x [<-|[]]. exact Hgg.
Qed.

Lemma in_warn_if (cond : bool) (msg x : string) :
  In x (warn_if cond msg) <-> cond = true /\ x = msg.
Proof.
  unfold warn_if. destruct cond; cbn [In]; split.
  - intros [E|[]]. now split.
  - intros [_ ->]. now left.
  - intros [].
  - intros [E _]. discriminate.
Qed.

(** X14.  The warnings of a table-mode validation that returned: the
    target is reported when it is among the features, the group column
    when it is among the features, and the two when they are the same
    column. *)
Theorem validate_table_warnings (X confounds groups : pyobj) (yname : string)
    (df_columns : list string) (rows : nat) (w : list string) :
  _validate_input_data X (PyString yname) confounds (PyFrame df_columns rows) groups = Ok w ->
  (In "y is part of X" w <-> In yname (as_list X))
  /\ (In "groups is part of X" w <-> exists g, groups = PyString g /\ In g (as_list X))
  /\ (In "y and groups are the same column" w <-> groups = PyString yname).
Proof.
  intros Hv. unfold _validate_input_data in Hv.
  step_bind Hv HXc. step_bind Hv Hc. step_bind Hv Hg. step_bind Hv HX. step_bind Hv Hy.
  step_bind Hv Hcb. step_bind Hv Hgb. apply Ok_inj in Hv. subst w.
  apply check_ok in Hg.
  destruct groups as [|g| | | |]; try discriminate Hg.
  - apply Ok_inj in Hgb. subst. cbn [app]. rewrite !in_warn_if, in_labels_iff.
    split; [|split].
    + split; [tauto | intros Hy'; now split].
    + split; [intros [_ E]; discriminate | intros (g & E & _); discriminate].
    + split; [intros [_ E]; discriminate | discriminate].
  - step_bind Hgb Hgg. apply Ok_inj in Hgb. subst.
    rewrite !in_app_iff, !in_warn_if, !in_labels_iff, String.eqb_eq.
    split; [|split].
    + split; [intros [[[_ E]|[_ E]]|[Hy' _]]; try discriminate; exact Hy'
             | intros Hy'; right; now split].
    + split.
      * intros [[[_ E]|[Hg' _]]|[_ E]]; try discriminate. now exists g.
      * intros (g' & [= <-] & Hg'). left. right. now split.
    + split.
      * intros [[[E _]|[_ E]]|[_ E]]; try discriminate. now subst.
      * intros [= ->]. left. left. now split.
Qed.

Lemma validate_arrays_iff (X y confounds groups : pyobj) (w : list string) :
  _validate_input_data X y confounds PyNone groups = Ok w <->
  w = [] /\
  exists xs ys,
    X = PyArray xs /\ y = PyArray ys /\
    (ndim xs = 1 \/ ndim xs = 2) /\ ndim ys = 1 /\ shape0 xs = shape0 ys /\
    (confounds = PyNone \/
     exists cs, confounds = PyArray cs /\ (ndim cs = 1 \/ ndim cs = 2)
                /\ shape0 xs = shape0 cs) /\
    (groups = PyNone \/ exists gs, groups = PyArray gs /\ ndim gs = 1).
Proof.
  assert (Hrank : forall s, existsb (Nat.eqb (ndim s)) [1; 2] = true
                            <-> ndim s = 1 \/ ndim s = 2).
  { intros s. cbn [existsb]. rewrite !orb_true_iff, !Nat.eqb_eq.
    split; [intros [E|[E|E]]; [now left | now right | discriminate] | intros [E|E]; tauto]. }
  split.
  - intros Hv. unfold _validate_input_data in Hv.
    destruct X as [| | |xs| |]; try discriminate. step_bind Hv HX.
    destruct y as [| | |ys| |]; try discriminate.
    step_bind Hv Hy. step_bind Hv Hxy. step_bind Hv Hcb. step_bind Hv Hgb.
    apply Ok_inj in Hv. split; [now symmetry|]. exists xs, ys.
    apply check_ok in HX, Hy, Hxy.
    apply negb_false_iff in HX, Hy, Hxy. apply Nat.eqb_eq in Hy, Hxy. apply Hrank in HX.
    repeat split; auto.
    + destruct confounds as [| | |cs| |]; try discriminate Hcb; [now left|]. right.
      exists cs. step_bind Hcb Hc1. apply check_ok in Hc1, Hcb.
      apply negb_false_iff in Hc1, Hcb. apply Nat.eqb_eq in Hcb. apply Hrank in Hc1.
      now repeat split.
    + destruct groups as [| | |gs| |]; try discriminate Hgb; [now left|]. right.
      exists gs. apply check_ok in Hgb. apply negb_false_iff, Nat.eqb_eq in Hgb.
      now split.
  - intros (-> & xs & ys & -> & -> & HX & Hy & Hxy & Hc & Hg).
    unfold _validate_input_data, check. apply Hrank in HX.
    rewrite HX, Hy, Hxy, !Nat.eqb_refl. cbn [negb bind].
    destruct Hc as [->|(cs & -> & Hc1 & Hc2)].
    + cbn [bind]. destruct Hg as [->|(gs & -> & Hg)]; [reflexivity|].
      rewrite Hg. reflexivity.
    + apply Hrank in Hc1. rewrite Hc1, <- Hc2, Hxy, Nat.eqb_refl. cbn [negb bind].
      destruct Hg as [->|(gs & -> & Hg)]; [reflexivity|]. rewrite Hg. reflexivity.
Qed.

(** X13.  In table mode the validation returns only when [X] is a name or
    a list of names, [y] a name, and every name given for [X], [y],
    [confounds] and [groups] is a column of the table. *)
Theorem validate_table_references (X y confounds groups : pyobj)
    (df_columns : list string) (rows : nat) (w : list string) :
  _validate_input_data X y confounds (PyFrame df_columns rows) groups = Ok w ->
  ((exists x, X = PyString x) \/ (exists l, X = PyList l))
  /\ incl (as_list X) df_columns
  /\ (exists yname, y = PyString yname /\ In yname df_columns)
  /\ incl (as_list confounds) df_columns
  /\ incl (as_list groups) df_columns.
Proof. apply validate_table_returns. Qed.

(** X15.  In array mode the validation returns exactly when [X] is an
    array of rank 1 or 2, [y] an array of rank 1 with as many samples,
    [confounds] is absent or an array of rank 1 or 2 with as many samples
    as [X], and [groups] is absent or an array of rank 1; it never warns. *)
Theorem validate_arrays_accepts (X y confounds groups : pyobj) (w : list string) :
  _validate_input_data X y confounds PyNone groups = Ok w <->
  w = [] /\
  exists xs ys,
    X = PyArray xs /\ y = PyArray ys /\
    (ndim xs = 1 \/ ndim xs = 2) /\ ndim ys = 1 /\ shape0 xs = shape0 ys /\
    (confounds = PyNone \/
     exists cs, confounds = PyArray cs /\ (ndim cs = 1 \/ ndim cs = 2)
                /\ shape0 xs = shape0 cs) /\
    (groups = PyNone \/ exists gs, groups = PyArray gs /\ ndim gs = 1).
Proof. apply validate_arrays_iff. Qed.

End ValidationFacts.

(** ** Input normalisation *)

Section NormalisationFacts.

Import PyStrFacts.

Lemma of_nat_head (p : string) (n : nat) :
  prefix (String "_" p) (PyStr.of_nat n) = false.
Proof.
  unfold PyStr.of_nat, NilZero.string_of_uint.
  destruct (Nat.to_uint n); reflexivity.
Qed.

Lemma of_nat_head_colon (p : string) (n : nat) :
  prefix (String ":" p) (PyStr.of_nat n) = false.
Proof.
  unfold PyStr.of_nat, NilZero.string_of_uint.
  destruct (Nat.to_uint n); reflexivity.
Qed.

Lemma generated_names_untagged (n : nat) :
  PyStr.find default_sep ("feature_" +++ PyStr.of_nat n) = None
  /\ PyStr.find default_sep ("confound_" +++ PyStr.of_nat n) = None.
Proof.
  pose proof (of_nat_no_default_sep n) as Hn. unfold default_sep in *.
  split; cbn [String.append PyStr.find];
    repeat (rewrite prefix_cons;
            match goal with
            | |- context [ascii_dec ?a ?b] =>
                destruct (ascii_dec a b) as [E|_]; [try discriminate E|]
            end);
    try (rewrite of_nat_head, Hn; reflexivity); rewrite Hn; reflexivity.
Qed.

Lemma stem_name_inj (stem : string) (i j : nat) :
  stem +++ PyStr.of_nat i = stem +++ PyStr.of_nat j -> i = j.
Proof. intros E. apply append_cancel_l in E. now apply of_nat_inj. Qed.

Lemma generated_columns_ok (k m : nat) :
  let names := map (fun i => "feature_" +++ PyStr.of_nat i) (seq 0 k)
               ++ map (fun i => "confound_" +++ PyStr.of_nat i) (seq 0 m) in
  NoDup names /\
  forall c, In c names -> _get_column_type default_sep c = Ok "continuous".
Proof.
  cbv zeta. split.
  - apply NoDup_app.
    + apply map_inj_nodup; [intros a b; apply stem_name_inj | apply seq_NoDup].
    + apply map_inj_nodup; [intros a b; apply stem_name_inj | apply seq_NoDup].
    + intros c H1 H2. apply in_map_iff in H1, H2.
      destruct H1 as (i & <- & _), H2 as (j & E & _). discriminate E.
  - intros c Hc. rewrite get_column_type_cases by discriminate.
    apply in_app_or in Hc. destruct Hc as [Hc|Hc]; apply in_map_iff in Hc;
      destruct Hc as (i & <- & _).
    + now rewrite (proj1 (generated_names_untagged i)).
    + now rewrite (proj2 (generated_names_untagged i)).
Qed.

(** X16.  Array mode: the table that [prepare_input_data] returns has one
    column [feature_i] for every column of [X], then one column
    [confound_i] for every column of the confounds, all different; it has
    as many rows as [X] has samples and the target series is as long.  No
    generated name carries a type tag: each of them, the confounds too,
    decodes to the type ['continuous']. *)
Theorem prepare_input_data_arrays (X y confounds pos_labels groups : pyobj)
    (d : InputData) (w : list string) :
  prepare_input_data X y confounds PyNone pos_labels groups = Ok (d, w) ->
  exists xs ys n_conf,
    X = PyArray xs /\ y = PyArray ys /\
    fst (df_X_conf d)
    = map (fun i => "feature_" +++ PyStr.of_nat i) (seq 0 (n_columns xs))
      ++ map (fun i => "confound_" +++ PyStr.of_nat i) (seq 0 n_conf) /\
    (confounds = PyNone -> n_conf = 0 /\ confound_names d = None) /\
    (forall cs, confounds = PyArray cs ->
       n_conf = n_columns cs /\
       confound_names d
       = Some (map (fun i => "confound_" +++ PyStr.of_nat i) (seq 0 n_conf))) /\
    snd (df_X_conf d) = shape0 xs /\ series_len (df_y d) = shape0 xs /\
    NoDup (fst (df_X_conf d)) /\
    (forall c, In c (fst (df_X_conf d)) -> _get_column_type default_sep c = Ok "continuous").
Proof.
  intros Hp. unfold prepare_input_data in Hp. step_bind Hp Hv.
  apply validate_arrays_iff in Hv.
  destruct Hv as (_ & xs & ys & -> & -> & _ & _ & Hxy & Hc & _).
  destruct Hc as [->|(cs & -> & _)]; apply Ok_inj in Hp; injection Hp as <- _;
    cbn [df_X_conf df_y confound_names fst snd series_len].
  - exists xs, ys, 0. destruct (generated_columns_ok (n_columns xs) 0) as [Hnd Hun].
    split; [reflexivity|]. split; [reflexivity|]. split; [reflexivity|].
    split; [intros _; now split|]. split; [intros cs' E; discriminate E|].
    split; [reflexivity|]. split; [now symmetry|]. split; [exact Hnd | exact Hun].
  - exists xs, ys, (n_columns cs).
    destruct (generated_columns_ok (n_columns xs) (n_columns cs)) as [Hnd Hun].
    split; [reflexivity|]. split; [reflexivity|]. split; [reflexivity|].
    split; [intros E; discriminate E|]. split; [intros cs' [= <-]; now split|].
    split; [reflexivity|]. split; [now symmetry|]. split; [exact Hnd | exact Hun].
Qed.

Lemma add_missing_spec (acc confs : list string) :
  exists extra,
    add_missing acc confs = acc ++ extra /\
    incl extra confs /\ (forall c, In c extra -> ~ In c acc) /\ NoDup extra /\
    incl confs (acc ++ extra).
Proof.
  revert acc; induction confs as [|t confs IH]; intros acc; cbn [add_missing].
  - exists []. rewrite app_nil_r. repeat split; auto using incl_nil_l, NoDup_nil.
  - destruct (in_labels t acc) eqn:Ht.
    + destruct (IH acc) as (extra & -> & H1 & H2 & H3 & H4). exists extra.
      repeat split; auto.
      * intros x Hx. right. now apply H1.
      * intros x [<-|Hx]; [apply in_or_app; left; now apply in_labels_iff | now apply H4].
    + destruct (IH (acc ++ [t])) as (extra & -> & H1 & H2 & H3 & H4).
      exists (t :: extra). rewrite <- app_assoc. cbn [app]. repeat split.
      * intros x [<-|Hx]; [now left | right; now apply H1].
      * intros x [<-|Hx]; [now apply in_labels_false|].
        intros Ha. apply (H2 x Hx). apply in_or_app. now left.
      * constructor; [|exact H3]. intros Hin. apply (H2 t Hin).
        apply in_or_app. right. now left.
      * intros x [<-|Hx]; [apply in_or_app; right; now left|].
        specialize (H4 x Hx). rewrite <- app_assoc in H4. exact H4.
Qed.

Lemma filter_label_unique (cols : list string) (l : string) :
  NoDup cols -> In l cols -> filter (fun c => String.eqb c l) cols = [l].
Proof.
  induction cols as [|c cols IH]; intros Hnd Hin; [contradiction|].
  inversion Hnd as [|? ? Hc Hnd']; subst. cbn [filter].
  destruct (String.eqb_spec c l) as [->|Hne].
  - f_equal. clear IH Hin Hnd Hnd'.
    induction cols as [|c cols IH]; [reflexivity|]. cbn [filter].
    destruct (String.eqb_spec c l) as [->|_].
    + elim Hc. now left.
    + apply IH. intros Hin. apply Hc. now right.
  - destruct Hin as [E|Hin]; [contradiction|]. now apply IH.
Qed.

(** On a table with unique labels, selecting present names yields exactly
    those names. *)
Lemma loc_labels_unique (df_columns names : list string) :
  NoDup df_columns -> incl names df_columns -> loc_labels df_columns names = names.
Proof.
  intros Hnd. unfold loc_labels.
  induction names as [|l names IH]; intros Hin; [reflexivity|]. cbn [flat_map].
  rewrite (filter_label_unique df_columns l Hnd (Hin l (or_introl eq_refl))).
  cbn [app]. f_equal. apply IH. intros x Hx. apply Hin. now right.
Qed.

(** X17.  Table mode, on a table with unique column names: the columns of
    the table that [prepare_input_data] returns are the names given for
    [X], in their order, followed by the confounds that are not among them,
    each once; all are columns of the given table, and the table and the
    target keep its number of rows. *)
Theorem prepare_input_data_table (X y confounds pos_labels groups : pyobj)
    (df_columns : list string) (rows : nat) (d : InputData) (w : list string) :
  NoDup df_columns ->
  prepare_input_data X y confounds (PyFrame df_columns rows) pos_labels groups = Ok (d, w) ->
  exists extra,
    fst (df_X_conf d) = as_list X ++ extra /\
    incl extra (as_list confounds) /\
    (forall c, In c extra -> ~ In c (as_list X)) /\ NoDup extra /\
    incl (as_list confounds) (fst (df_X_conf d)) /\
    incl (fst (df_X_conf d)) df_columns /\
    snd (df_X_conf d) = rows /\ series_len (df_y d) = rows.
Proof.
  intros Hnd Hp. unfold prepare_input_data in Hp. step_bind Hp Hv.
  destruct (validate_table_returns _ _ _ _ _ _ _ Hv)
    as (_ & HX & (yname & -> & _) & Hc & _).
  apply Ok_inj in Hp. injection Hp as <- _.
  cbn [df_X_conf df_y fst snd series_len].
  destruct (add_missing_spec (as_list X) (as_list confounds))
    as (extra & -> & H1 & H2 & H3 & H4).
  assert (Hin : incl (as_list X ++ extra) df_columns).
  { intros x Hx. apply in_app_or in Hx. destruct Hx as [Hx|Hx]; [now apply HX|].
    now apply Hc, H1. }
  rewrite (loc_labels_unique _ _ Hnd Hin).
  exists extra. repeat split; auto.
Qed.

End NormalisationFacts.

(** ** Built confound steps and the wrapper's guard *)

Section BuiltSteps.

Context {Obj : Type} `{PyObject Obj} `{TransformerFactory Obj}.

Lemma created_tuple_target (s : step Obj) (n : string) (t : Obj) (rf : string)
    (c : selector) :
  _create_preprocess_tuple s = Ok (PrepTuple n t rf c) -> c = transform_columns_of n.
Proof.
  destruct s as [name|items|o]; cbn [_create_preprocess_tuple].
  - destruct (get_transformer name) as [[tr p]|]; [|discriminate]. cbn [bind].
    now intros [= <- _ _ <-].
  - discriminate.
  - now intros [= <- _ _ <-].
Qed.

Lemma refused_iff_remove_confound (n : string) :
  same_type_refused (transform_columns_of n) = true <-> n = "remove_confound".
Proof.
  unfold transform_columns_of.
  destruct (String.eqb_spec n "remove_confound") as [->|Hne]; cbn; split; congruence.
Qed.

(** X22.  Every step that [_prepare_preprocess_confounds] returns is a
    4-tuple whose target is chosen by its name alone; the guard of the
    policy ['unknown_same_type'] refuses that target exactly for the step
    named ['remove_confound'], which targets two type tags. *)
Theorem built_confound_steps_and_guard (steps : list (step Obj))
    (out : list (preprocess_step Obj)) :
  _prepare_preprocess_confounds steps = Ok out ->
  Forall (fun t => exists n tr rf, t = PrepTuple n tr rf (transform_columns_of n)
                   /\ (same_type_refused (transform_columns_of n) = true
                       <-> n = "remove_confound")) out.
Proof.
  unfold _prepare_preprocess_confounds. intros Hp. step_bind Hp Hpol. step_bind Hp Hcr.
  clear Hpol. rename u into p. rename u0 into tuples. revert tuples out Hcr Hp.
  induction steps as [|s steps IH]; intros tuples out; cbn [mapM].
  - intros [= <-]. cbn [mapM]. intros [= <-]. constructor.
  - intros Hcr. step_bind Hcr Hs. step_bind Hcr Hrest. apply Ok_inj in Hcr. subst tuples.
    cbn [mapM]. intros Hp. step_bind Hp Hr. step_bind Hp Hout. apply Ok_inj in Hp. subst out.
    constructor; [|eapply IH; eauto].
    destruct u as [n tr rf c|items]; cbn [replace_policy] in Hr; [|discriminate].
    apply Ok_inj in Hr. subst. apply created_tuple_target in Hs. subst c.
    exists n, tr, p. split; [reflexivity | apply refused_iff_remove_confound].
Qed.

Lemma bad_step_refused (s : step Obj) :
  bad_confound_step s -> exists e, _get_confound_transformer s = Err e.
Proof.
  destruct s as [name|items|o]; cbn [bad_confound_step _get_confound_transformer].
  - intros [e ->]. cbn [bind]. eauto.
  - eauto.
  - intros ->. cbn [negb]. eauto.
Qed.

(** X23.  [_prepare_preprocess_confounds] never returns when one of the
    steps is a list, an object without one of [fit], [transform],
    [get_params], [set_params], or a name that the factory refuses. *)
Theorem prepare_confounds_refuses_bad_step (steps : list (step Obj)) :
  Exists bad_confound_step steps ->
  exists e, _prepare_preprocess_confounds steps = Err e.
Proof.
  intros Hbad. unfold _prepare_preprocess_confounds.
  assert (Hpol : forall p0, exists e, confound_policy p0 steps = Err e).
  { induction Hbad as [s steps Hs|s steps _ IH]; intros p0; cbn [confound_policy].
    - destruct (bad_step_refused s Hs) as [e ->]. cbn [bind]. eauto.
    - destruct (_get_confound_transformer s); cbn [bind]; [apply IH | eauto]. }
  destruct (Hpol "unknown_same_type") as [e ->]. cbn [bind]. eauto.
Qed.

End BuiltSteps.

(** ** Cross-validation arguments that are no strings *)

(** X24.  A splitter object is returned as it is and an integer of at
    least 2 gives a k-fold splitter; an integer below 2 is refused with
    AttributeError, as the fallback parser is applied to the integer. *)
Theorem prepare_cv_not_a_string :
  (forall cv, prepare_cv (CvSplitter cv) = Ok cv)
  /\ (forall n, (2 <= n)%Z -> prepare_cv (CvInt n) = Ok (KFold n))
  /\ (forall n, (n <= 1)%Z -> prepare_cv (CvInt n) = Err (AttributeError "split")).
Proof.
  split; [reflexivity|]. split; intros n Hn; unfold prepare_cv, check_cv;
    destruct (Z.leb_spec n 1); try lia; reflexivity.
Qed.

(** ** Consistency: regression, several classes, groups *)

Section ConsistencyFacts.

Context {Obj : Type}.

(** X25.  Every problem type other than the two classification names is
    checked as a regression; the check then raises exactly when the
    distinct values of the target cannot be counted, or the target is not
    numeric and no target transformer is given. *)
Theorem check_consistency_regression (preprocess_y : option Obj) (y : yarray)
    (cv : splitter) (groups : option Series) (problem_type : string) :
  problem_type <> "binary_classification" ->
  problem_type <> "multiclass_classification" ->
  check_consistency preprocess_y y cv groups problem_type
  = check_consistency preprocess_y y cv groups "regression"
  /\ ((exists e, check_consistency preprocess_y y cv groups problem_type = Err e)
      <-> (exists e, n_unique y = Err e)
          \/ (is_numeric_dtype y = false /\ preprocess_y = None)).
Proof.
  intros Hb Hm.
  assert (Heq : check_consistency preprocess_y y cv groups problem_type
                = check_consistency preprocess_y y cv groups "regression").
  { unfold check_consistency.
    destruct (String.eqb_spec problem_type "binary_classification"); [contradiction|].
    destruct (String.eqb_spec problem_type "multiclass_classification"); [contradiction|].
    reflexivity. }
  split; [exact Heq|]. rewrite Heq. unfold check_consistency.
  destruct y as [values|values]; cbn [n_unique is_numeric_dtype].
  - cbn [bind String.eqb Ascii.eqb Bool.eqb negb].
    split; [|intros [[e He]|[E _]]; discriminate].
    intros [e He]. destruct (Nat.eqb _ 2); cbn [bind] in He;
      destruct groups; try destruct (negb (is_group_cv cv)); discriminate.
  - destruct (mixed values); cbn [bind String.eqb Ascii.eqb Bool.eqb negb].
    + split; [intros _; left|intros _]; eauto.
    + destruct preprocess_y as [t|]; cbn [bind].
      * split; [|intros [[e He]|[_ E]]; discriminate].
        intros [e He]. destruct groups; try destruct (negb (is_group_cv cv)); discriminate.
      * split; [intros _; right; now split | eauto].
Qed.

(** X26.  For several classes the check raises only when the distinct
    values of the target cannot be counted; otherwise it returns, and it
    warns of a target with 2 distinct values, and only then. *)
Theorem check_consistency_multiclass (preprocess_y : option Obj) (y : yarray)
    (cv : splitter) (groups : option Series) :
  (forall e, n_unique y = Err e ->
     check_consistency preprocess_y y cv groups "multiclass_classification" = Err e)
  /\ (forall n, n_unique y = Ok n ->
      exists w,
        check_consistency preprocess_y y cv groups "multiclass_classification" = Ok w
        /\ (In "A multiclass classification will be performed but only 2 classes are defined in y." w
            <-> n = 2)).
Proof.
  unfold check_consistency. split.
  - intros e He. rewrite He. reflexivity.
  - intros n Hn. rewrite Hn. cbn [bind String.eqb Ascii.eqb Bool.eqb].
    destruct (Nat.eqb_spec n 2) as [E|N]; cbn [bind];
      destruct groups; try destruct (negb (is_group_cv cv)); eexists; split;
        try reflexivity; cbn [app In]; split; auto;
        try (intros [Hx|Hx]; try discriminate Hx; try contradiction);
        try (intros [Hx|[Hx|Hx]]; try discriminate Hx; try contradiction);
        try (intros []); try (intros; contradiction).
Qed.

(** X27.  Whatever the problem type, a check that returns has warned that
    the groups are not considered exactly when groups are given and the
    splitter is none of the four group splitters. *)
Theorem check_consistency_groups_warning (preprocess_y : option Obj) (y : yarray)
    (cv : splitter) (groups : option Series) (problem_type : string) (w : list string) :
  check_consistency preprocess_y y cv groups problem_type = Ok w ->
  (In groups_warning w <-> groups <> None /\ is_group_cv cv = false).
Proof.
  unfold check_consistency. intros Hc.
  destruct (n_unique y) as [n_classes|e] eqn:Hn; [|discriminate Hc].
  cbn [bind] in Hc. step_bind Hc Hw. rename u into w0.
  assert (Hw0 : ~ In groups_warning w0).
  { cbv zeta in Hw. cbn [bind] in Hw.
    destruct (String.eqb problem_type "binary_classification");
      [|destruct (String.eqb problem_type "multiclass_classification")];
      repeat match type of Hw with
             | context [if ?c then _ else _] => destruct c
             | context [match ?o with Some _ => _ | None => _ end] => destruct o
             end;
      try discriminate Hw; apply Ok_inj in Hw; subst w0;
      unfold groups_warning; cbn [In]; intuition discriminate. }
  destruct groups as [g|].
  - destruct (is_group_cv cv); cbn [negb] in Hc; apply Ok_inj in Hc; subst w.
    + split; [intros Hin; contradiction | intros [_ E]; discriminate E].
    + split; [intros _; split; [discriminate | reflexivity]|].
      intros _. apply in_or_app. right. now left.
  - apply Ok_inj in Hc. subst w. split; [contradiction | intros [E _]; now elim E].
Qed.

End ConsistencyFacts.

(** ** Model selection *)

Section ModelSelectionFacts.

Context {P : Type} `{SkPipeline P} `{SearchWrapper P}.

(** X28.  When no hyperparameter has more than one candidate, the pipeline
    comes back as the parameter assignments left it: no search is wrapped
    around it, and the entries [cv] and [scoring] are not read. *)
Theorem prepare_model_selection_nothing_to_tune (msel : msel_dict)
    (hyperparameters : list (string * hval)) (pipeline : P) (model_name : string)
    (cv_outer : splitter) :
  msel_hyperparameters msel = Some hyperparameters ->
  Forall not_tunable hyperparameters ->
  prepare_model_selection msel pipeline model_name cv_outer
  = (r <- _prepare_hyperparams hyperparameters pipeline model_name ;; Ok (snd r)).
Proof.
  intros Hhp Hall. unfold prepare_model_selection. rewrite Hhp.
  destruct (_prepare_hyperparams hyperparameters pipeline model_name) as [[grid p']|] eqn:Hp;
    [|reflexivity].
  cbn [bind snd]. destruct (prepare_hyperparams_grid_ok _ _ _ _ _ Hp) as [_ Hgrid].
  destruct grid as [|[k v] grid]; [reflexivity|]. exfalso.
  destruct (Hgrid k v (or_introl eq_refl)) as (Hi & Hs & Hl & param & Hin & _).
  rewrite Forall_forall in Hall. specialize (Hall _ Hin). unfold not_tunable in Hall.
  cbn [snd] in Hall. rewrite Hi, Hs in Hall. cbn in Hall. destruct Hall; [discriminate | lia].
Qed.

End ModelSelectionFacts.

(** ** Instances of the further conditional statements *)

Lemma set_columns_to_transform_sound_witness :
  [Toy.iq; Toy.age] <> [] /\ incl [Toy.iq; Toy.age] (columns Toy.table).
Proof.
  apply (set_columns_to_transform_sound Toy.scaling Toy.table). vm_compute. reflexivity.
Defined.

Lemma get_columns_of_type_exact_witness :
  exists r,
    _get_columns_of_type default_sep (columns Toy.table) "confound" = Ok r /\
    (forall c, In c r <-> In c (columns Toy.table)
                          /\ _get_column_type default_sep c = Ok "confound") /\
    (NoDup (columns Toy.table) -> NoDup r).
Proof.
  apply (get_columns_of_type_exact default_sep (columns Toy.table) "confound");
    discriminate.
Defined.

Lemma all_features_and_confound_partition_witness :
  exists feats confs,
    _get_columns_of_type default_sep (columns Toy.table) "all_features" = Ok feats /\
    _get_columns_of_type default_sep (columns Toy.table) "confound" = Ok confs /\
    _get_columns_of_type default_sep (columns Toy.table) "all" = Ok (columns Toy.table) /\
    Permutation (columns Toy.table) (feats ++ confs) /\
    (forall c, In c feats -> ~ In c confs).
Proof.
  apply (all_features_and_confound_partition default_sep (columns Toy.table)). discriminate.
Defined.

Lemma string_selector_never_resolves_witness :
  _set_columns_to_transform (new_wrapper Toy.Scaler (SelStr Toy.age) "same" default_sep)
    Toy.table
  = Err (AttributeError "columns").
Proof.
  apply (string_selector_never_resolves
           (new_wrapper Toy.Scaler (SelStr Toy.age) "same" default_sep) Toy.table Toy.age).
  - reflexivity.
  - vm_compute. reflexivity.
  - apply has_dup_false. vm_compute. reflexivity.
Defined.

Lemma literal_list_resolves_to_itself_witness :
  _set_columns_to_transform
    (new_wrapper Toy.Scaler (SelList [Toy.age; Toy.iq]) "same" default_sep) Toy.table
  = Ok [Toy.age; Toy.iq].
Proof.
  apply literal_list_resolves_to_itself.
  - reflexivity.
  - vm_compute. reflexivity.
  - apply has_dup_false. vm_compute. reflexivity.
  - intros x [<-|[<-|[]]]; vm_compute; tauto.
Defined.

Lemma keyword_selection_has_no_repetition_witness : NoDup [Toy.iq; Toy.age].
Proof.
  apply (keyword_selection_has_no_repetition Toy.scaling Toy.table).
  - discriminate.
  - apply has_dup_false. vm_compute. reflexivity.
  - right. exists ["continuous"; "confound"]. split; [reflexivity|]. split.
    + apply has_dup_false. vm_compute. reflexivity.
    + intros x [<-|[<-|[]]]; vm_compute; tauto.
  - vm_compute. reflexivity.
Defined.

Lemma transform_missing_column_witness :
  exists m, transform Toy.scaling_fitted [(Toy.iq, [100; 110]%Z)] = Err (KeyError m)
            /\ In m [Toy.iq; Toy.age] /\ ~ In m (columns [(Toy.iq, [100; 110]%Z)]).
Proof.
  apply (transform_missing_column Toy.scaling_fitted [(Toy.iq, [100; 110]%Z)]
           [Toy.iq; Toy.age]).
  - reflexivity.
  - intros Hincl. specialize (Hincl Toy.age (or_intror (or_introl eq_refl))).
    destruct Hincl as [E|[]]. discriminate E.
Defined.

Lemma transform_subset_by_mask_witness :
  exists out,
    transform (mkDataFrameTransformer Toy.KeepFirst (SelList [Toy.iq; Toy.age]) "subset"
                 default_sep (Some [Toy.iq; Toy.age])) Toy.table = Ok out /\
    out = [(Toy.iq, [100; 110]%Z); (Toy.sex, [0; 1]%Z)] /\
    columns out = [Toy.iq; Toy.sex] /\
    incl [Toy.iq] [Toy.iq; Toy.age].
Proof.
  apply (transform_subset_by_mask
           (mkDataFrameTransformer Toy.KeepFirst (SelList [Toy.iq; Toy.age]) "subset"
              default_sep (Some [Toy.iq; Toy.age]))
           Toy.table [Toy.iq; Toy.age] (OutArray [[100; 110]%Z])
           Toy.keep_first_support [true; false]); try reflexivity.
  - apply has_dup_false. vm_compute. reflexivity.
  - intros x [<-|[<-|[]]]; vm_compute; tauto.
Defined.

Lemma transform_unknown_generated_names_witness :
  transform (mkDataFrameTransformer Toy.Pca (SelStr "continuous") "unknown" default_sep
               (Some [Toy.iq])) Toy.table
  = Ok [("pca_component:0__:type:__continuous", [100; 110]%Z);
        (Toy.age, [30; 40]%Z); (Toy.sex, [0; 1]%Z)]
  /\ NoDup ["pca_component:0__:type:__continuous"] /\ 1 = 1.
Proof.
  assert (Hincl : incl [Toy.iq] (columns Toy.table))
    by (intros x [<-|[]]; vm_compute; tauto).
  exact (transform_unknown_generated_names
           (mkDataFrameTransformer Toy.Pca (SelStr "continuous") "unknown" default_sep
              (Some [Toy.iq]))
           Toy.table [Toy.iq] (OutArray [[100; 110]%Z]) eq_refl eq_refl Hincl eq_refl).
Defined.

Lemma transform_unsupported_policy_witness :
  exists e,
    transform (mkDataFrameTransformer Toy.Scaler (SelStr "all") "subset" default_sep
                 (Some [Toy.iq])) Toy.table = Err e.
Proof.
  apply transform_unsupported_policy. right. split; reflexivity.
Defined.

Lemma refit_resolves_again_witness :
  exists cols,
    _set_columns_to_transform Toy.scaling Toy.wide_table = Ok cols
    /\ transform_column_
         (mkDataFrameTransformer Toy.Scaler (SelList ["continuous"; "confound"]) "same"
            default_sep (Some [Toy.iq; "site"; Toy.age])) = Some cols.
Proof.
  apply (refit_resolves_again Toy.scaling Toy.table Toy.wide_table None None
           Toy.scaling_fitted); vm_compute; reflexivity.
Defined.

Lemma empty_selection_raises_witness :
  _set_columns_to_transform
    (new_wrapper Toy.Scaler (SelStr "categorical") "same" default_sep)
    [(Toy.iq, [100; 110]%Z); (Toy.age, [30; 40]%Z)]
  = Err (RaiseError "There is not valid column to transform")
  /\ fit (new_wrapper Toy.Scaler (SelStr "categorical") "same" default_sep)
       [(Toy.iq, [100; 110]%Z); (Toy.age, [30; 40]%Z)] None
     = Err (RaiseError "There is not valid column to transform").
Proof.
  apply empty_selection_raises; [discriminate|]. left. exists "categorical".
  split; [reflexivity|]. split; [vm_compute; tauto|].
  intros c [<-|[<-|[]]]; vm_compute; discriminate.
Defined.

Lemma validate_table_references_witness :
  ((exists x, PyList ["a"; "b"] = PyString x) \/ (exists l, PyList ["a"; "b"] = PyList l))
  /\ incl (as_list (PyList ["a"; "b"])) ["a"; "b"; "c"; "t"; "g"]
  /\ (exists yname, PyString "t" = PyString yname /\ In yname ["a"; "b"; "c"; "t"; "g"])
  /\ incl (as_list (PyString "c")) ["a"; "b"; "c"; "t"; "g"]
  /\ incl (as_list (PyString "g")) ["a"; "b"; "c"; "t"; "g"].
Proof.
  apply (validate_table_references (PyList ["a"; "b"]) (PyString "t") (PyString "c")
           (PyString "g") ["a"; "b"; "c"; "t"; "g"] 10 []).
  vm_compute. reflexivity.
Defined.

Lemma validate_table_warnings_witness :
  (In "y is part of X" ["groups is part of X"; "y is part of X"]
   <-> In "t" (as_list (PyList ["a"; "t"; "g"])))
  /\ (In "groups is part of X" ["groups is part of X"; "y is part of X"]
      <-> exists g, PyString "g" = PyString g /\ In g (as_list (PyList ["a"; "t"; "g"])))
  /\ (In "y and groups are the same column" ["groups is part of X"; "y is part of X"]
      <-> PyString "g" = PyString "t").
Proof.
  apply (validate_table_warnings (PyList ["a"; "t"; "g"]) PyNone (PyString "g") "t"
           ["a"; "t"; "g"] 10).
  vm_compute. reflexivity.
Defined.

Lemma validate_arrays_accepts_witness :
  _validate_input_data (PyArray [10; 3]) (PyArray [10]) PyNone PyNone PyNone = Ok [].
Proof.
  apply (proj2 (validate_arrays_accepts (PyArray [10; 3]) (PyArray [10]) PyNone PyNone [])).
  split; [reflexivity|]. exists [10; 3], [10].
  repeat split; auto.
Defined.

Lemma prepare_input_data_arrays_witness :
  NoDup ["feature_0"; "feature_1"; "feature_2"; "confound_0"]
  /\ forall c, In c ["feature_0"; "feature_1"; "feature_2"; "confound_0"] ->
               _get_column_type default_sep c = Ok "continuous".
Proof.
  destruct (prepare_input_data_arrays (PyArray [10; 3]) (PyArray [10]) (PyArray [10])
              PyNone PyNone
              (mkInputData (["feature_0"; "feature_1"; "feature_2"; "confound_0"], 10)
                 (mkSeries "y" 10) None (Some ["confound_0"])) [])
    as (xs & ys & n & _ & _ & _ & _ & _ & _ & _ & Hnd & Hun).
  - vm_compute. reflexivity.
  - split; [exact Hnd | exact Hun].
Defined.

Lemma prepare_input_data_table_witness :
  exists extra,
    ["a"; "b"; "c"] = as_list (PyList ["a"; "b"]) ++ extra /\
    incl extra (as_list (PyList ["b"; "c"])) /\
    (forall c, In c extra -> ~ In c (as_list (PyList ["a"; "b"]))) /\ NoDup extra /\
    incl (as_list (PyList ["b"; "c"])) ["a"; "b"; "c"] /\
    incl ["a"; "b"; "c"] ["a"; "b"; "c"; "t"] /\
    10 = 10 /\ 10 = 10.
Proof.
  apply (prepare_input_data_table (PyList ["a"; "b"]) (PyString "t") (PyList ["b"; "c"])
           PyNone PyNone ["a"; "b"; "c"; "t"] 10
           (mkInputData (["a"; "b"; "c"], 10) (mkSeries "t" 10) None (Some ["b"; "c"]))
           ["X contains the following confounds"]).
  - repeat constructor; cbn [In]; intuition discriminate.
  - vm_compute. reflexivity.
Defined.

Lemma rename_param_keeps_path_witness :
  exists first tail branch,
    "svm__C" = first +++ tail /\ "dataframe_pipeline__svm__C" = branch +++ tail /\
    PyStr.find "__" first = None /\
    (tail = EmptyString \/ prefix "__" tail = true) /\
    ((first = "features" /\ branch = "dataframe_pipeline")
     \/ (first = "confounds" /\ branch = "confound_dataframe_pipeline")
     \/ (first = "target" /\ branch = "y_transformer")
     \/ (first = "svm" /\ branch = "dataframe_pipeline__" +++ "svm")).
Proof.
  apply (rename_param_keeps_path "svm" "svm__C" "dataframe_pipeline__svm__C").
  vm_compute. reflexivity.
Defined.

Lemma rename_param_scope_error_witness :
  exists e, rename_param "svm" "model__C" = Err e.
Proof.
  apply (proj2 (rename_param_scope_error "svm" "model__C")).
  intros [E|[E|[E|[E|[]]]]]; discriminate E.
Defined.

Lemma prepare_hyperparams_grid_witness :
  NoDup (map fst [("dataframe_pipeline__svm__C", HList [HInt 1; HInt 10])]) /\
  forall k v, In (k, v) [("dataframe_pipeline__svm__C", HList [HInt 1; HInt 10])] ->
    has_iter v = true /\ is_str v = false /\ 1 < hlen v /\
    exists param,
      In (param, v) [("svm__C", HList [HInt 1; HInt 10]); ("features__pca__n", HInt 5)]
      /\ rename_param "svm" param = Ok k.
Proof.
  apply (prepare_hyperparams_grid
           [("svm__C", HList [HInt 1; HInt 10]); ("features__pca__n", HInt 5)]
           [("dataframe_pipeline__svm__C", HList [HInt 1; HInt 10])]
           ([] : list (string * hval))
           [("dataframe_pipeline__pca__n", HInt 5)] "svm").
  vm_compute. reflexivity.
Defined.

Lemma rename_param_scopes_collide_witness :
  rename_param "svm" ("features__" +++ "svm" +++ "__" +++ "C")
  = Ok ("dataframe_pipeline__" +++ "svm" +++ "__" +++ "C")
  /\ rename_param "svm" ("svm" +++ "__" +++ "C")
     = Ok ("dataframe_pipeline__" +++ "svm" +++ "__" +++ "C").
Proof.
  apply (rename_param_scopes_collide "svm" "C").
  - vm_compute. reflexivity.
  - intros [E|[E|[E|[]]]]; discriminate E.
Defined.

Lemma built_confound_steps_and_guard_witness :
  Forall (fun t => exists n tr rf, t = PrepTuple n tr rf (transform_columns_of n)
                   /\ (same_type_refused (transform_columns_of n) = true
                       <-> n = "remove_confound"))
    [PrepTuple "zscore" (Toy.mkObject "StandardScaler" Toy.sk_attrs) "same"
       (SelStr "continuous")].
Proof.
  apply (built_confound_steps_and_guard [StepStr "zscore"]). vm_compute. reflexivity.
Defined.

Lemma prepare_confounds_refuses_bad_step_witness :
  exists e,
    _prepare_preprocess_confounds
      [StepStr "zscore"; StepList [Toy.mkObject "PCA" Toy.sk_attrs]] = Err e.
Proof.
  apply prepare_confounds_refuses_bad_step. apply Exists_cons_tl, Exists_cons_hd. exact I.
Defined.

Lemma prepare_cv_not_a_string_witness :
  prepare_cv (CvInt 1) = Err (AttributeError "split").
Proof.
  apply (proj2 (proj2 prepare_cv_not_a_string) 1%Z). lia.
Defined.

Lemma check_consistency_regression_witness :
  check_consistency (@None unit) (ObjectArray [YLabel "a"; YLabel "b"]) (KFold 5) None "regresion"
  = check_consistency (@None unit) (ObjectArray [YLabel "a"; YLabel "b"]) (KFold 5) None "regression"
  /\ ((exists e, check_consistency (@None unit) (ObjectArray [YLabel "a"; YLabel "b"]) (KFold 5) None
                   "regresion" = Err e)
      <-> (exists e, n_unique (ObjectArray [YLabel "a"; YLabel "b"]) = Err e)
          \/ (is_numeric_dtype (ObjectArray [YLabel "a"; YLabel "b"]) = false
              /\ @None unit = None)).
Proof.
  apply check_consistency_regression; discriminate.
Defined.

Lemma check_consistency_groups_warning_witness :
  In groups_warning
    ["A regression will be performed but only 2 distinct values are defined in y.";
     groups_warning]
  <-> Some (mkSeries "site" 2) <> None /\ is_group_cv (KFold 5) = false.
Proof.
  apply (check_consistency_groups_warning (@None unit) (NumericArray [1; 2]%Z) (KFold 5)
           (Some (mkSeries "site" 2)) "regression").
  vm_compute. reflexivity.
Defined.

Lemma prepare_model_selection_nothing_to_tune_witness :
  prepare_model_selection
    (mkMselDict (Some [("svm__C", HInt 1)]) (Some (CvStr "no grammar")) (Some "accuracy"))
    (ToySearch.mkSearched [] None) "svm" (KFold 5)
  = Ok (ToySearch.mkSearched [("dataframe_pipeline__svm__C", HInt 1)] None).
Proof.
  rewrite (prepare_model_selection_nothing_to_tune
             (mkMselDict (Some [("svm__C", HInt 1)]) (Some (CvStr "no grammar"))
                (Some "accuracy"))
             [("svm__C", HInt 1)]).
  - vm_compute. reflexivity.
  - reflexivity.
  - constructor; [|constructor]. left. reflexivity.
Defined.
